(** * clawio/server: a shallow embedding of the gateway's error codes,
      URL/secret redaction helpers, request wrapper, token endpoint and
      driver selection, with the properties the specification states
      about them. *)

From Stdlib Require Import ZArith Lia List String Ascii Bool DecimalString.
From stdpp Require Import base option list gmap strings sorting.
Import ListNotations.

Local Open Scope string_scope.

(* ===================================================================== *)
(** * Part I: the model                                                   *)
(* ===================================================================== *)

(** ** Go values shared by the packages *)

Module Go.

(** A value of Go's [error] interface.  [errors.New] builds a plain
    error; an error implementing the repository's [root.Error]
    interface additionally answers [Code()]. *)
Inductive error : Type :=
| errors_New (msg : string)
| coded_error (code : Z) (msg : string).

Definition Error_ (e : error) : string :=
  match e with
  | errors_New m => m
  | coded_error _ m => m
  end.

(** [uint32] values with their wrap-around. *)
Definition uint32_modulus : Z := (2 ^ 32)%Z.
Definition to_uint32 (z : Z) : Z := (z mod uint32_modulus)%Z.

(** The line feed appended by [fmt.Fprintln]. *)
Definition LF : string := String (ascii_of_nat 10) EmptyString.

(** [strings.Repeat]. *)
Fixpoint strings_Repeat (s : string) (count : nat) : string :=
  match count with
  | O => EmptyString
  | S n => s ++ strings_Repeat s n
  end.

(** [strings.Join]. *)
Fixpoint strings_Join (elems : list string) (sep : string) : string :=
  match elems with
  | [] => EmptyString
  | [e] => e
  | e :: rest => e ++ sep ++ strings_Join rest sep
  end.

(** [len(v)] of a string: its number of bytes. *)
Definition len (v : string) : nat := String.length v.

(** The slice expression [v[lo:]], that is [v[lo:len(v)]]. *)
Definition slice_from (v : string) (lo : nat) : string :=
  String.substring lo (len v - lo) v.

(** [strings.Split] on a one-byte separator. *)
Fixpoint strings_Split (s : string) (sep : ascii) : list string :=
  match s with
  | EmptyString => [EmptyString]
  | String c s' =>
      if Ascii.eqb c sep then EmptyString :: strings_Split s' sep
      else match strings_Split s' sep with
           | [] => [String c EmptyString]
           | h :: t => String c h :: t
           end
  end.

(** [%d] of a non-negative [int]. *)
Definition itoa (n : nat) : string := NilEmpty.string_of_uint (Nat.to_uint n).

(** [%d] of an [int]. *)
Definition itoa_int (z : Z) : string := NilEmpty.string_of_int (Z.to_int z).

End Go.

(** The suffix of a string from byte index [n] on; used to state what a
    slice expression yields. *)
Fixpoint string_drop (n : nat) (s : string) : string :=
  match n, s with
  | O, _ => s
  | S n', EmptyString => EmptyString
  | S n', String _ s' => string_drop n' s'
  end.

(** ** Package net/url, as far as the helpers use it *)

Module NetURL.

Record Userinfo : Type := {
  username : string;
  password : string;
  passwordSet : bool
}.

(** [url.URL]. *)
Record URL : Type := {
  Scheme : string;
  Opaque : string;
  User : option Userinfo;
  Host : string;
  Path : string;
  RawPath : string;
  RawQuery : string;
  Fragment : string
}.

Definition set_RawQuery (u : URL) (q : string) : URL :=
  {| Scheme := Scheme u; Opaque := Opaque u; User := User u;
     Host := Host u; Path := Path u; RawPath := RawPath u;
     RawQuery := q; Fragment := Fragment u |}.

(** [url.Values], a [map[string][]string]. *)
Abbreviation Values := (gmap string (list string)).

(** [Values.Get]: the first value of the key, or the empty string. *)
Definition Get (v : Values) (key : string) : string :=
  match v !! key with
  | Some (x :: _) => x
  | _ => ""
  end.

(** [Values.Set]: the key now has this one value. *)
Definition Set_ (v : Values) (key value : string) : Values :=
  <[key := [value]]> v.

(** [Values.Add]. *)
Definition Add (v : Values) (key value : string) : Values :=
  <[key := (default [] (v !! key) ++ [value])%list]> v.

(** The parsing and printing routines of the library: [ParseQuery]
    with its error dropped (as [URL.Query] does), [Values.Encode] and
    [URL.String]. *)
Class Codec : Type := {
  ParseQuery : string -> Values;
  Encode : Values -> string;
  String_ : URL -> string
}.

(** [URL.Query]. *)
Definition Query `{Codec} (u : URL) : Values := ParseQuery (RawQuery u).

(** *** The codec on components that need no escaping

    Keys and values made of unreserved characters are neither decoded
    by [ParseQuery] nor escaped by [Encode]; on them the library
    reduces to the following. *)

Fixpoint cut_equals (s : string) : string * string :=
  match s with
  | EmptyString => (EmptyString, EmptyString)
  | String c s' =>
      if Ascii.eqb c "="%char then (EmptyString, s')
      else let (k, v) := cut_equals s' in (String c k, v)
  end.

Definition plain_ParseQuery (query : string) : Values :=
  fold_left
    (fun m piece =>
       if String.eqb piece "" then m
       else let (k, v) := cut_equals piece in Add m k v)
    (Go.strings_Split query "&"%char) ∅.

Definition string_le (a b : string) : Prop := String.leb a b = true.

#[global] Instance string_le_dec (a b : string) : Decision (string_le a b).
Proof. unfold string_le. apply _. Defined.

Definition sorted_keys (v : Values) : list string :=
  merge_sort string_le (map fst (map_to_list v)).

Definition plain_Encode (v : Values) : string :=
  Go.strings_Join
    (flat_map
       (fun k => map (fun x => k ++ "=" ++ x) (default [] (v !! k)))
       (sorted_keys v))
    "&".

Definition plain_userinfo (u : Userinfo) : string :=
  if passwordSet u then username u ++ ":" ++ password u else username u.

Definition plain_String (u : URL) : string :=
  (if String.eqb (Scheme u) "" then "" else Scheme u ++ ":")
  ++ (if String.eqb (Opaque u) "" then
        (if String.eqb (Scheme u) "" && String.eqb (Host u) ""
            && negb (bool_decide (is_Some (User u)))
         then ""
         else "//"
              ++ match User u with
                 | Some ui => plain_userinfo ui ++ "@"
                 | None => ""
                 end
              ++ Host u)
        ++ Path u
      else Opaque u)
  ++ (if String.eqb (RawQuery u) "" then "" else "?" ++ RawQuery u)
  ++ (if String.eqb (Fragment u) "" then "" else "#" ++ Fragment u).

Definition plain_codec : Codec :=
  {| ParseQuery := plain_ParseQuery;
     Encode := plain_Encode;
     String_ := plain_String |}.

End NetURL.

(** ** Package root (src/unnamed/part_000): the error codes *)

Module Root.

(** [type Code uint32]. *)
Definition Code : Type := Z.

(** The identifiers of the [const] block, in declaration order. *)
Inductive CodeName : Type :=
| CodeInvalidToken
| CodeUnauthenticated
| CodeBadAuthenticationData
| CodeBadInputData
| CodeNotFound
| CodeBadChecksum
| CodeTooBig
| CodeUserNotFound
| CodeInternal.

Definition const_block : list CodeName :=
  [ CodeInvalidToken; CodeUnauthenticated; CodeBadAuthenticationData;
    CodeBadInputData; CodeNotFound; CodeBadChecksum; CodeTooBig;
    CodeUserNotFound; CodeInternal ].

Definition CodeName_eqb (a b : CodeName) : bool :=
  match a, b with
  | CodeInvalidToken, CodeInvalidToken
  | CodeUnauthenticated, CodeUnauthenticated
  | CodeBadAuthenticationData, CodeBadAuthenticationData
  | CodeBadInputData, CodeBadInputData
  | CodeNotFound, CodeNotFound
  | CodeBadChecksum, CodeBadChecksum
  | CodeTooBig, CodeTooBig
  | CodeUserNotFound, CodeUserNotFound
  | CodeInternal, CodeInternal => true
  | _, _ => false
  end.

(** [Code = iota]: every constant specification of the block repeats
    the expression [Code(iota)], and [iota] is the index of the
    specification inside the block. *)
Fixpoint iota_from (iota : Z) (block : list CodeName) : list (CodeName * Code) :=
  match block with
  | [] => []
  | c :: rest => (c, Go.to_uint32 iota) :: iota_from (iota + 1)%Z rest
  end.

Definition constants : list (CodeName * Code) := iota_from 0%Z const_block.

Fixpoint assoc (c : CodeName) (l : list (CodeName * Code)) : option Code :=
  match l with
  | [] => None
  | (c', v) :: rest => if CodeName_eqb c c' then Some v else assoc c rest
  end.

(** The numeric value of a declared constant. *)
Definition value (c : CodeName) : Code :=
  match assoc c constants with
  | Some v => v
  | None => 0%Z
  end.

End Root.

(** ** Package helpers (src/unnamed/part_001) *)

Module Helpers.

Import NetURL.

(** The two URL values [SanitizeURL] works with: the one its argument
    points to and its local variable [copy]. *)
Record Vars : Type := {
  pointee : URL;
  copy : URL
}.

Definition assign_copy_RawQuery (m : Vars) (q : string) : Vars :=
  {| pointee := pointee m; copy := set_RawQuery (copy m) q |}.

(** [SanitizeURL], returning its result together with the URL its
    argument points to when it returns.  [None] is the nil pointer. *)
Definition SanitizeURL_run `{Codec} (uri : option URL) : string * option URL :=
  match uri with
  | None => ("", None)
  | Some u =>
      let m := {| pointee := u; copy := u |} in
      let params := Query (copy m) in
      let m :=
        if Nat.ltb 0 (Go.len (Get params "access_token")) then
          let params := Set_ params "access_token" "REDACTED" in
          assign_copy_RawQuery m (Encode params)
        else m in
      (String_ (copy m), Some (pointee m))
  end.

Definition SanitizeURL `{Codec} (uri : option URL) : string :=
  fst (SanitizeURL_run uri).

(** [RedactString]. *)
Definition RedactString (v : string) : string :=
  let length := Go.len v in
  if Nat.eqb length 0 then ""
  else if Nat.eqb length 1 then "X"
  else
    let half := Nat.div length 2 in
    let right := Go.slice_from v half in
    let hidden := Go.strings_Repeat "X" 10 in
    Go.strings_Join [hidden; right] "".

End Helpers.

(** ** Package logrus, as far as the server uses it *)

Module Logrus.

(** [logrus.Fields]. *)
Abbreviation Fields := (gmap string string).

(** [logrus.Entry]: a logger together with the fields every record it
    writes carries. *)
Record Entry : Type := { Data : Fields }.

(** [Entry.WithFields] returns a new entry; the receiver is not
    changed, and a field given again overrides the old one. *)
Definition WithFields (e : Entry) (f : Fields) : Entry :=
  {| Data := f ∪ Data e |}.

Definition WithField (e : Entry) (k v : string) : Entry :=
  WithFields e {[ k := v ]}.

Inductive Level : Type := InfoLevel | ErrorLevel.

End Logrus.

(** ** Package server (src/server/server.go): the request wrapper *)

Module Server.

Import Logrus.

(** [http.Request], with the per-request context that travels with it
    (see [keys_SetLog]). *)
Record Request : Type := {
  Method : string;
  URL : option NetURL.URL;
  ctx_log : option Entry
}.

(** Modelled from the spec: [keys.SetLog(r, cLog)] of package keys,
    which is not among the sources.  Section 9 has the per-request
    context as an explicit object passed by parameter through the call
    chain of the request; accordingly the logger is a field of the
    request value handed to the router.  Where package keys itself keeps
    the logger is not modelled. *)
Definition keys_SetLog (r : Request) (l : Entry) : Request :=
  {| Method := Method r; URL := URL r; ctx_log := Some l |}.

(** What a goroutine panicked with, as the type switch of the deferred
    function tells the cases apart; [panic_other] carries what
    [fmt.Sprintln] prints for the value. *)
Inductive PanicValue : Type :=
| panic_string (t : string)
| panic_error (t : Go.error)
| panic_other (sprintln : string).

(** A panic in flight, with what [runtime.Stack] reports about it:
    the text left in the 2048-byte buffer and the byte count. *)
Record Panic : Type := {
  value : PanicValue;
  stack_text : string;
  stack_count : nat
}.

(** What a handler does that an observer of the request can see. *)
Inductive Event : Type :=
| Log (lvl : Level) (e : Entry) (msg : string)
| ServeHTTP (r : Request)
| WriteHeader (status : Z)
| Write (body : string).

(** One run of a function: the events in order, and the panic it ends
    with, if any. *)
Record Run : Type := {
  events : list Event;
  panicking : option Panic
}.

(** An [http.Handler]. *)
Definition Handler : Type := Request -> Run.

(** [Server]; the handler uses its logger and its router. *)
Record Server : Type := {
  log : Entry;
  router : Handler
}.

Definition StatusInternalServerError : Z := 500.

(** [defer func() { ... recover() ... }()] around a body: the deferred
    function runs when the body returns or panics; its call of
    [recover] yields the panic in flight ([None] for nil) and stops
    it, so that the function ends with whatever panic the deferred
    function itself raises. *)
Definition defer_recover (body : Run) (deferred : option Panic -> Run) : Run :=
  let d := deferred (panicking body) in
  {| events := events body ++ events d; panicking := panicking d |}.

(** The type switch on the recovered value. *)
Definition recovered_error (v : PanicValue) : Go.error :=
  match v with
  | panic_string t => Go.errors_New t
  | panic_error t => t
  | panic_other printed => Go.errors_New printed
  end.

Definition recover_message (p : Panic) : string :=
  "recover from panic: " ++ Go.Error_ (recovered_error (value p)) ++ Go.LF
  ++ "stack of " ++ Go.itoa (stack_count p) ++ " bytes: " ++ stack_text p
  ++ Go.LF.

(** The deferred function of [handlerFunc]. *)
Definition deferred (cLog : Entry) (tid : string) (r : option Panic) : Run :=
  {| events :=
       Log InfoLevel cLog "request ended"
       :: match r with
          | Some p =>
              [ Log ErrorLevel cLog (recover_message p);
                WriteHeader StatusInternalServerError;
                Write tid ]
          | None => []
          end;
     panicking := None |}.

(** What [handlerFunc] does before it dispatches. *)
Definition started `{NetURL.Codec} (cLog : Entry) (r : Request) : Event :=
  Log InfoLevel
    (WithFields cLog
       (<["method" := Method r]>
          {[ "uri" := Helpers.SanitizeURL (URL r) ]}))
    "request started".

(** The function literal of [Server.handler], given the identifier
    [uuid.NewV4().String()] returned to it. *)
Definition handlerFunc `{NetURL.Codec} (s : Server) (tid : string) (r : Request) : Run :=
  let cLog := WithFields (log s) {[ "tid" := tid ]} in
  let r' := keys_SetLog r cLog in
  let routed := router s r' in
  defer_recover
    {| events := started cLog r :: ServeHTTP r' :: events routed;
       panicking := panicking routed |}
    (deferred cLog tid).

(** The events of a run that write to the response. *)
Definition is_write (e : Event) : bool :=
  match e with
  | WriteHeader _ | Write _ => true
  | _ => false
  end.

(** A status code that, once announced, is the status of the response
    in every release of [net/http]: 101 or a code from 200 on.  (How an
    informational code is treated has changed between releases.) *)
Definition final_code (c : Z) : bool :=
  Z.eqb c 101 || (Z.leb 200 c && Z.leb c 999).

(** The status of the response as the calls on the [ResponseWriter]
    fix it: the code of the first [WriteHeader], or 200 when a [Write]
    comes first; later [WriteHeader] calls are ignored.  [None] when the
    calls fix none: there is no call, or the first one announces a code
    that is not final. *)
Fixpoint final_status (evs : list Event) : option Z :=
  match evs with
  | [] => None
  | WriteHeader c :: _ => if final_code c then Some c else None
  | Write _ :: _ => Some 200%Z
  | _ :: rest => final_status rest
  end.

(** The correlation id a logger carries. *)
Definition tid_of (e : Entry) : option string := Data e !! "tid".

End Server.

(** ** Package auth (src/cmd/clawiod/main.go, second file): the token
       endpoint *)

Module Auth.

(** The identity [idmPat.Authenticate] resolves. *)
Record Identity : Type := { IdentityID : string }.

(** [storage.Capabilities]; the endpoint reads one field. *)
Record Capabilities : Type := { CreateUserHomeDir : bool }.

(** A registered storage: its prefix and what it says it can do for
    an identity. *)
Record Storage : Type := {
  Prefix : string;
  GetCapabilities : Identity -> Capabilities
}.

Record Request : Type := {
  URL : NetURL.URL;
  Body : string
}.

(** The collaborators the handler takes from its context, over the
    state [W] they work on, and the two library calls that can fail. *)
Record Pats (W : Type) : Type := {
  Authenticate : Request -> string -> W -> (Identity + Go.error) * W;
  CreateToken : Identity -> W -> (string + Go.error) * W;
  GetAllStorages : W -> list Storage;
  CreateUserHomeDirIn : Identity -> string -> W -> option Go.error * W;
  json_MarshalIndent : list (string * string) -> string + Go.error;
  ResponseWrite : string -> W -> option Go.error * W
}.

Arguments Authenticate {W}.
Arguments CreateToken {W}.
Arguments GetAllStorages {W}.
Arguments CreateUserHomeDirIn {W}.
Arguments json_MarshalIndent {W}.
Arguments ResponseWrite {W}.

(** What the handler does, in order. *)
Inductive Event : Type :=
| AuthenticateCall (authtypeid : string)
| HomeDirCall (idt : Identity) (prefix : string) (err : option Go.error)
| TokenCall (idt : Identity) (result : string + Go.error)
| LogWarning (msg : string)
| LogErr (msg : string)
| HeaderSet (key value : string)
| HeaderAdd (key value : string)
| WriteHeader (status : Z)
| Write (body : string).

Definition StatusCreated : Z := 201.
Definition StatusBadRequest : Z := 400.
Definition StatusInternalServerError : Z := 500.

(** [http.StatusText] on the codes the handler uses. *)
Definition StatusText (code : Z) : string :=
  if Z.eqb code 201 then "Created"
  else if Z.eqb code 400 then "Bad Request"
  else if Z.eqb code 500 then "Internal Server Error"
  else "".

(** [http.Error]. *)
Definition http_Error (error : string) (code : Z) : list Event :=
  [ HeaderSet "Content-Type" "text/plain; charset=utf-8";
    HeaderSet "X-Content-Type-Options" "nosniff";
    WriteHeader code;
    Write (error ++ Go.LF) ].

(** The loop over the storages.  It stops at the first creation that
    fails and hands that error back. *)
Fixpoint create_homes {W} (c : Pats W) (idt : Identity)
    (storages : list Storage) (w : W) : list Event * W * option Go.error :=
  match storages with
  | [] => ([], w, None)
  | s :: rest =>
      if CreateUserHomeDir (GetCapabilities s idt) then
        let (err, w') := CreateUserHomeDirIn c idt (Prefix s) w in
        match err with
        | Some e => ([HomeDirCall idt (Prefix s) (Some e)], w', Some e)
        | None =>
            let '(evs, w'', res) := create_homes c idt rest w' in
            (HomeDirCall idt (Prefix s) None :: evs, w'', res)
        end
      else create_homes c idt rest w
  end.

(** What follows the loop once every creation succeeded. *)
Definition issue_token {W} (c : Pats W) (idt : Identity) (w : W) : list Event * W :=
  let (tok, w1) := CreateToken c idt w in
  match tok with
  | inr err =>
      ((TokenCall idt tok :: LogErr (Go.Error_ err)
        :: http_Error (StatusText StatusInternalServerError)
             StatusInternalServerError)%list, w1)
  | inl tokenString =>
      match json_MarshalIndent c [("authtoken", tokenString)] with
      | inr err =>
          ((TokenCall idt tok :: LogErr (Go.Error_ err)
            :: http_Error (StatusText StatusInternalServerError)
                 StatusInternalServerError)%list, w1)
      | inl tokenJSON =>
          let (werr, w2) := ResponseWrite c tokenJSON w1 in
          (([ TokenCall idt tok;
              HeaderAdd "Content-Type" "application/json";
              WriteHeader StatusCreated;
              Write tokenJSON ]
            ++ match werr with
               | Some e =>
                   [LogErr ("token: error sending reponse. err:" ++ Go.Error_ e)]
               | None => []
               end)%list, w2)
      end
  end.

(** [(a *auth) token]. *)
Definition token {W} `{NetURL.Codec} (c : Pats W) (r : Request) (w : W) : list Event * W :=
  let authtypeid := NetURL.Get (NetURL.Query (URL r)) "authtypeid" in
  let (res, w1) := Authenticate c r authtypeid w in
  match res with
  | inr err =>
      ((AuthenticateCall authtypeid :: LogWarning (Go.Error_ err)
        :: http_Error (StatusText StatusBadRequest) StatusBadRequest)%list, w1)
  | inl idt =>
      let storages := GetAllStorages c w1 in
      let '(evs, w2, failed) := create_homes c idt storages w1 in
      match failed with
      | Some err =>
          ((AuthenticateCall authtypeid :: evs
            ++ LogErr ("token: creation of user home failed because err:"
                       ++ Go.Error_ err)
            :: http_Error (StatusText StatusInternalServerError)
                 StatusInternalServerError)%list, w2)
      | None =>
          let (evs', w3) := issue_token c idt w2 in
          ((AuthenticateCall authtypeid :: evs ++ evs')%list, w3)
      end
  end.

(** The status the client sees: the one of the first [WriteHeader]. *)
Fixpoint response_status (evs : list Event) : option Z :=
  match evs with
  | [] => None
  | WriteHeader c :: _ => Some c
  | _ :: rest => response_status rest
  end.

(** The body the client sees. *)
Fixpoint response_body (evs : list Event) : string :=
  match evs with
  | [] => ""
  | Write b :: rest => b ++ response_body rest
  | _ :: rest => response_body rest
  end.

Definition is_TokenCall (e : Event) : bool :=
  match e with TokenCall _ _ => true | _ => false end.

Definition is_HomeDirCall (e : Event) : bool :=
  match e with HomeDirCall _ _ _ => true | _ => false end.

(** The storage advertises home-directory creation for the identity. *)
Definition capable (idt : Identity) (s : Storage) : bool :=
  CreateUserHomeDir (GetCapabilities s idt).

(** The [authtypeid] query parameter the handler reads. *)
Definition authtypeid_of `{NetURL.Codec} (r : Request) : string :=
  NetURL.Get (NetURL.Query (URL r)) "authtypeid".

(** The kind of an authentication failure, when the error carries one
    of the three authentication codes. *)
Definition authentication_kind (e : Go.error) : option Root.CodeName :=
  match e with
  | Go.coded_error c _ =>
      if Z.eqb c (Root.value Root.CodeInvalidToken) then Some Root.CodeInvalidToken
      else if Z.eqb c (Root.value Root.CodeUnauthenticated) then Some Root.CodeUnauthenticated
      else if Z.eqb c (Root.value Root.CodeBadAuthenticationData) then Some Root.CodeBadAuthenticationData
      else None
  | Go.errors_New _ => None
  end.

End Auth.

(** ** Package main (src/cmd/clawiod/main.go, first file): driver
       selection *)

Module Main.

(** The getters of [root.Configuration] that logger and driver
    construction read. *)
Record Configuration : Type := {
  GetPort : Z;
  GetAppLoggerOut : string;
  GetAppLoggerMaxSize : Z;
  GetAppLoggerMaxAge : Z;
  GetAppLoggerMaxBackups : Z;
  GetDataDriver : string;
  GetFSDataDriverDataFolder : string;
  GetFSDataDriverTemporaryFolder : string;
  GetFSDataDriverChecksum : string;
  GetFSDataDriverVerifyClientChecksum : bool;
  GetOCFSDataDriverDataFolder : string;
  GetOCFSDataDriverChecksum : string;
  GetOCFSDataDriverVerifyClientChecksum : bool;
  GetMetaDataDriver : string;
  GetFSMDataDriverDataFolder : string;
  GetFSMDataDriverTemporaryFolder : string;
  GetOCFSMDataDriverMaxSQLIddle : Z;
  GetOCFSMDataDriverMaxSQLConcurrent : Z;
  GetOCFSMDataDriverDataFolder : string;
  GetOCFSMDataDriverTemporaryFolder : string;
  GetOCFSMDataDriverDSN : string
}.

(** Where a logger writes. *)
Inductive Writer : Type :=
| Stdout
| Stderr
| Discard
| Lumberjack (Filename : string) (MaxSize MaxAge MaxBackups : Z).

(** [levels.Levels] as [getLogger] builds it. *)
Record Levels : Type := {
  out : Writer;
  host : string
}.

(** [getLogger]; [hostname] is what [os.Hostname] returns.  The pair
    [(levels.Levels{}, err)] of a failure is the [inr]. *)
Definition getLogger (hostname : string + Go.error) (config : Configuration) : Levels + Go.error :=
  let out :=
    if String.eqb (GetAppLoggerOut config) "1" then Stdout
    else if String.eqb (GetAppLoggerOut config) "2" then Stderr
    else if String.eqb (GetAppLoggerOut config) "" then Discard
    else Lumberjack (GetAppLoggerOut config) (GetAppLoggerMaxSize config)
           (GetAppLoggerMaxAge config) (GetAppLoggerMaxBackups config) in
  match hostname with
  | inr err => inr err
  | inl h =>
      inl {| out := out;
             host := h ++ ":" ++ Go.itoa_int (GetPort config) |}
  end.

(** The constructors of the four driver packages, which are not among
    the sources; each returns a Go pair (driver, error).  [DD] and [MD]
    are the driver values. *)
Record Packages (DD MD : Type) : Type := {
  fsdatadriver_New :
    Levels -> string -> string -> string -> bool -> option DD * option Go.error;
  ocfsdatadriver_New :
    Levels -> string -> string -> string -> bool -> option MD ->
    option DD * option Go.error;
  fsmdatadriver_New :
    Levels -> string -> string -> option MD * option Go.error;
  ocfsmdatadriver_New :
    Levels -> Z -> Z -> string -> string -> string ->
    option MD * option Go.error
}.

Arguments fsdatadriver_New {DD MD}.
Arguments ocfsdatadriver_New {DD MD}.
Arguments fsmdatadriver_New {DD MD}.
Arguments ocfsmdatadriver_New {DD MD}.

(** [getMetaDataDriver]. *)
Definition getMetaDataDriver {DD MD} (pk : Packages DD MD)
    (hostname : string + Go.error) (config : Configuration)
    : option MD * option Go.error :=
  if String.eqb (GetMetaDataDriver config) "fsmdatadriver" then
    match getLogger hostname config with
    | inr err => (None, Some err)
    | inl logger =>
        fsmdatadriver_New pk logger
          (GetFSMDataDriverDataFolder config)
          (GetFSMDataDriverTemporaryFolder config)
    end
  else if String.eqb (GetMetaDataDriver config) "ocfsmdatadriver" then
    match getLogger hostname config with
    | inr err => (None, Some err)
    | inl logger =>
        ocfsmdatadriver_New pk logger
          (GetOCFSMDataDriverMaxSQLIddle config)
          (GetOCFSMDataDriverMaxSQLConcurrent config)
          (GetOCFSMDataDriverDataFolder config)
          (GetOCFSMDataDriverTemporaryFolder config)
          (GetOCFSMDataDriverDSN config)
    end
  else (None, Some (Go.errors_New "configured metadata driver does not exist")).

(** [getDataDriver]. *)
Definition getDataDriver {DD MD} (pk : Packages DD MD)
    (hostname : string + Go.error) (config : Configuration)
    : option DD * option Go.error :=
  if String.eqb (GetDataDriver config) "fsdatadriver" then
    match getLogger hostname config with
    | inr err => (None, Some err)
    | inl logger =>
        fsdatadriver_New pk logger
          (GetFSDataDriverDataFolder config)
          (GetFSDataDriverTemporaryFolder config)
          (GetFSDataDriverChecksum config)
          (GetFSDataDriverVerifyClientChecksum config)
    end
  else if String.eqb (GetDataDriver config) "ocfsdatadriver" then
    match getLogger hostname config with
    | inr err => (None, Some err)
    | inl logger =>
        match getMetaDataDriver pk hostname config with
        | (_, Some err) => (None, Some err)
        | (metaDataDriver, None) =>
            ocfsdatadriver_New pk logger
              (GetOCFSDataDriverDataFolder config)
              (GetOCFSDataDriverDataFolder config)
              (GetOCFSDataDriverChecksum config)
              (GetOCFSDataDriverVerifyClientChecksum config)
              metaDataDriver
        end
    end
  else (None, Some (Go.errors_New "configured datadriver does not exist")).

End Main.

(** ** The checksum codec (specification, sections 3 and 4.1) *)

Module ChecksumCodec.

(** Modelled from the spec: the Checksum value of section 3, an
    algorithm identifier with a hex digest.  The codec is not among the
    sources. *)
Record Checksum : Type := {
  algorithm : string;
  digest : string
}.

(** Modelled from the spec: the opt-out sentinel of section 4.1. *)
Definition is_none (c : Checksum) : bool := String.eqb (algorithm c) "none".

(** Modelled from the spec: [verify(expected, actual)] of section 4.1,
    the equality check of the Checksum invariant: algorithm and digest
    must both match, and a "none" checksum never matches anything. *)
Definition verify (expected actual : Checksum) : bool :=
  negb (is_none expected) && negb (is_none actual)
  && String.eqb (algorithm expected) (algorithm actual)
  && String.eqb (digest expected) (digest actual).

End ChecksumCodec.

(** ** The chunk assembler (specification, sections 3, 4.2 and 4.3) *)

Module ChunkAssembler.

Import ChecksumCodec.

(** Modelled from the spec: the ChunkSet of section 3, with its
    destination path, declared total and the slots received so far, by
    index.  The assembler ([ocwebservice]) is not among the sources. *)
Record ChunkSet : Type := {
  destination : string;
  total : nat;
  slots : gmap nat string
}.

(** Modelled from the spec: a ChunkSet is complete iff every index in
    [0, total) has been received. *)
Definition complete (cs : ChunkSet) : bool :=
  forallb (fun i => bool_decide (is_Some (slots cs !! i)))
          (List.seq 0 (total cs)).

(** Modelled from the spec: Finalizing reads the staged slots strictly
    in index order and concatenates them. *)
Definition assemble (cs : ChunkSet) : string :=
  fold_right (fun i acc => (default "" (slots cs !! i) ++ acc)%string) ""
             (List.seq 0 (total cs)).

(** Modelled from the spec: the published entry of a path, as
    [examine] reports it (section 3, FileInfo). *)
Record FileInfo : Type := {
  content : string;
  checksum : Checksum
}.

(** Modelled from the spec: the published namespace, by path, and the
    private staging area.  A transfer id is unique per destination path
    while in flight (section 3), so that an in-flight ChunkSet is
    identified by its destination path together with its transfer id. *)
Record State : Type := {
  published : gmap string FileInfo;
  staging : gmap (string * string) ChunkSet
}.

(** Modelled from the spec: one arriving chunk with its descriptor
    (section 6) and the optional client-declared checksum. *)
Record Chunk : Type := {
  transfer_id : string;
  chunk_destination : string;
  declared_total : nat;
  index : nat;
  data : string;
  client_checksum : option Checksum
}.

(** Modelled from the spec: the transfer a chunk belongs to. *)
Definition key_of (c : Chunk) : string * string :=
  (chunk_destination c, transfer_id c).

(** Modelled from the spec: what can happen to a transfer (section
    4.3): a chunk arrives, the client aborts, or the inactivity sweep
    expires it. *)
Inductive Op : Type :=
| Deliver (c : Chunk)
| Abort (path tid : string)
| Expire (path tid : string).

(** Modelled from the spec: the staging of a transfer is released on
    completion, abort and expiry (sections 3 and 4.3); the published
    namespace is not touched. *)
Definition release (key : string * string) (st : State) : State :=
  {| published := published st; staging := delete key (staging st) |}.

(** Modelled from the spec: [uploadFile]'s publish step (section 4.2):
    a mismatch with a declared checksum aborts the publish, otherwise
    the assembled bytes become the path's content in one step. *)
Definition publish (compute : string -> Checksum) (path bytes : string)
    (declared : option Checksum) (st : State) : State * option Root.CodeName :=
  let sum := compute bytes in
  match declared with
  | Some cc =>
      if verify cc sum then
        ({| published := <[path := {| content := bytes; checksum := sum |}]> (published st);
            staging := staging st |}, None)
      else (st, Some Root.CodeBadChecksum)
  | None =>
      ({| published := <[path := {| content := bytes; checksum := sum |}]> (published st);
          staging := staging st |}, None)
  end.

(** Modelled from the spec: delivery of one chunk (section 4.3).  The
    first chunk of a transfer not yet known creates the ChunkSet from
    its destination and declared total; a chunk whose declared total is
    not the one of its ChunkSet, or whose index is not below it, fails
    validation (BadInputData, section 7) and changes nothing; otherwise
    the chunk goes to the slot of its index, replacing what was there;
    the instant every index is present the set is finalized: assembled,
    published, and its staging released whether the publish succeeded
    or not. *)
Definition deliver (compute : string -> Checksum) (c : Chunk) (st : State)
    : State * option Root.CodeName :=
  let cs :=
    match staging st !! key_of c with
    | Some cs => cs
    | None => {| destination := chunk_destination c;
                 total := declared_total c;
                 slots := ∅ |}
    end in
  if negb (Nat.eqb (declared_total c) (total cs)) then
    (st, Some Root.CodeBadInputData)
  else if negb (Nat.ltb (index c) (total cs)) then
    (st, Some Root.CodeBadInputData)
  else
    let cs' := {| destination := destination cs; total := total cs;
                  slots := <[index c := data c]> (slots cs) |} in
    if complete cs' then
      let (st', err) :=
        publish compute (destination cs') (assemble cs') (client_checksum c) st in
      (release (key_of c) st', err)
    else
      ({| published := published st;
          staging := <[key_of c := cs']> (staging st) |}, None).

(** Modelled from the spec: the transitions of section 4.3, one
    operation at a time, and a sequence of them in the order in which
    they take effect. *)
Definition step (compute : string -> Checksum) (st : State) (op : Op) : State :=
  match op with
  | Deliver c => fst (deliver compute c st)
  | Abort path tid => release (path, tid) st
  | Expire path tid => release (path, tid) st
  end.

Definition run (compute : string -> Checksum) (st : State) (ops : list Op) : State :=
  fold_left (step compute) ops st.

(** Modelled from the spec: [downloadFile] and [examine] of section
    4.2 read the published namespace only. *)
Definition downloadFile (st : State) (path : string) : string + Root.CodeName :=
  match published st !! path with
  | Some f => inl (content f)
  | None => inr Root.CodeNotFound
  end.

(** Modelled from the spec: [examine] returns the path's snapshot or
    not-found (section 4.2). *)
Definition examine (st : State) (path : string) : FileInfo + Root.CodeName :=
  match published st !! path with
  | Some f => inl f
  | None => inr Root.CodeNotFound
  end.

(** The transfer an operation is about. *)
Definition op_key (op : Op) : string * string :=
  match op with
  | Deliver c => key_of c
  | Abort path tid | Expire path tid => (path, tid)
  end.

(** The operation belongs to the upload [tid] to [d]. *)
Definition of_upload (d tid : string) (op : Op) : bool :=
  bool_decide (op_key op = (d, tid)).

(** The operations of a sequence that do not belong to the upload, in
    their order. *)
Definition others (d tid : string) (ops : list Op) : list Op :=
  List.filter (fun op => negb (of_upload d tid op)) ops.

(** If the operation is a chunk of the upload [tid] to [d], it declares
    the total [n] and is not the chunk of index [i]. *)
Definition withholds (d tid : string) (n i : nat) (op : Op) : Prop :=
  match op with
  | Deliver c => key_of c = (d, tid) -> declared_total c = n /\ index c <> i
  | _ => True
  end.

End ChunkAssembler.

(** ** Vocabulary of the statements *)

(** The logger the wrapper builds for a request, and the request it
    hands to the router. *)
Definition request_logger (s : Server.Server) (tid : string) : Logrus.Entry :=
  Logrus.WithFields (Server.log s) {[ "tid" := tid ]}.

Definition routed_request (s : Server.Server) (tid : string) (r : Server.Request)
    : Server.Request :=
  Server.keys_SetLog r (request_logger s tid).

(** How the assembler's state with the operations of the upload [tid]
    to [d] and the state without them are related while index [i] of the
    upload, of total [n], is missing: the same namespace, the same staging
    of every other transfer, and the upload not staged or staged without
    slot [i]. *)
Definition gated (d tid : string) (n i : nat)
    (st st' : ChunkAssembler.State) : Prop :=
  ChunkAssembler.published st = ChunkAssembler.published st'
  /\ (forall k, k <> (d, tid) ->
        ChunkAssembler.staging st !! k = ChunkAssembler.staging st' !! k)
  /\ (ChunkAssembler.staging st !! (d, tid) = None
      \/ exists cs, ChunkAssembler.staging st !! (d, tid) = Some cs
           /\ ChunkAssembler.total cs = n
           /\ ChunkAssembler.slots cs !! i = None).

(** ** Inputs for the examples *)

Definition example_url (query : string) : NetURL.URL :=
  {| NetURL.Scheme := "https"; NetURL.Opaque := ""; NetURL.User := None;
     NetURL.Host := "sync.example.org"; NetURL.Path := "/data/upload";
     NetURL.RawPath := ""; NetURL.RawQuery := query;
     NetURL.Fragment := "" |}.

(** A server whose router panics on DELETE and answers 204 otherwise. *)
Definition example_router : Server.Handler :=
  fun r =>
    if String.eqb (Server.Method r) "DELETE" then
      {| Server.events := [];
         Server.panicking :=
           Some {| Server.value := Server.panic_string "nil map";
                   Server.stack_text := "goroutine 7 [running]";
                   Server.stack_count := 21 |} |}
    else
      {| Server.events := [Server.WriteHeader 204%Z];
         Server.panicking := None |}.

Definition example_server : Server.Server :=
  {| Server.log := {| Logrus.Data := {[ "module" := "server" ]} |};
     Server.router := example_router |}.

Definition example_request (method : string) : Server.Request :=
  {| Server.Method := method;
     Server.URL := Some (example_url "access_token=s3cr3t");
     Server.ctx_log := None |}.

Definition example_compute (bytes : string) : ChecksumCodec.Checksum :=
  {| ChecksumCodec.algorithm := "length";
     ChecksumCodec.digest := Go.itoa (String.length bytes) |}.

Definition example_chunk (tid path : string) (i : nat) (bytes : string)
    : ChunkAssembler.Chunk :=
  {| ChunkAssembler.transfer_id := tid;
     ChunkAssembler.chunk_destination := path;
     ChunkAssembler.declared_total := 3;
     ChunkAssembler.index := i;
     ChunkAssembler.data := bytes;
     ChunkAssembler.client_checksum := None |}.

Definition example_published : ChunkAssembler.State :=
  {| ChunkAssembler.published :=
       {[ "/home/report.txt" :=
            {| ChunkAssembler.content := "old";
               ChunkAssembler.checksum := example_compute "old" |} ]};
     ChunkAssembler.staging := ∅ |}.

Definition example_packages : Main.Packages string string :=
  {| Main.fsdatadriver_New := fun _ folder _ _ _ => (Some folder, None);
     Main.ocfsdatadriver_New := fun _ folder _ _ _ _ => (Some folder, None);
     Main.fsmdatadriver_New := fun _ folder _ => (Some folder, None);
     Main.ocfsmdatadriver_New := fun _ _ _ folder _ _ => (Some folder, None) |}.

Definition example_config (dataDriver metaDataDriver : string) : Main.Configuration :=
  {| Main.GetPort := 1502;
     Main.GetAppLoggerOut := "1";
     Main.GetAppLoggerMaxSize := 100;
     Main.GetAppLoggerMaxAge := 30;
     Main.GetAppLoggerMaxBackups := 3;
     Main.GetDataDriver := dataDriver;
     Main.GetFSDataDriverDataFolder := "/var/lib/clawiod/data";
     Main.GetFSDataDriverTemporaryFolder := "/var/lib/clawiod/tmp";
     Main.GetFSDataDriverChecksum := "md5";
     Main.GetFSDataDriverVerifyClientChecksum := true;
     Main.GetOCFSDataDriverDataFolder := "/var/lib/clawiod/ocdata";
     Main.GetOCFSDataDriverChecksum := "md5";
     Main.GetOCFSDataDriverVerifyClientChecksum := false;
     Main.GetMetaDataDriver := metaDataDriver;
     Main.GetFSMDataDriverDataFolder := "/var/lib/clawiod/mdata";
     Main.GetFSMDataDriverTemporaryFolder := "/var/lib/clawiod/mtmp";
     Main.GetOCFSMDataDriverMaxSQLIddle := 10;
     Main.GetOCFSMDataDriverMaxSQLConcurrent := 20;
     Main.GetOCFSMDataDriverDataFolder := "/var/lib/clawiod/ocmdata";
     Main.GetOCFSMDataDriverTemporaryFolder := "/var/lib/clawiod/ocmtmp";
     Main.GetOCFSMDataDriverDSN := "root:passwd@/clawio" |}.

(** Collaborators over a trivial state: authentication gives [auth],
    the storages are [storages], creation fails in the storages whose
    prefix is in [broken], and the token is the identity's id. *)
Definition example_pats (auth : Auth.Identity + Go.error)
    (storages : list Auth.Storage) (broken : list string) : Auth.Pats unit :=
  {| Auth.Authenticate := fun _ _ w => (auth, w);
     Auth.CreateToken := fun idt w => (inl ("token-of-" ++ Auth.IdentityID idt), w);
     Auth.GetAllStorages := fun _ => storages;
     Auth.CreateUserHomeDirIn :=
       fun _ prefix w =>
         (if existsb (String.eqb prefix) broken
          then Some (Go.errors_New "mkdir: permission denied")
          else None, w);
     Auth.json_MarshalIndent :=
       fun kv => inl (Go.strings_Join (List.map (fun p => fst p ++ "=" ++ snd p) kv) ",");
     Auth.ResponseWrite := fun _ w => (None, w) |}.

Definition example_token_request : Auth.Request :=
  {| Auth.URL := example_url "authtypeid=basic"; Auth.Body := "" |}.

Definition unauthenticated_error : Go.error :=
  Go.coded_error (Root.value Root.CodeUnauthenticated) "no credentials".

Definition invalid_token_error : Go.error :=
  Go.coded_error (Root.value Root.CodeInvalidToken) "token expired".

Definition alice : Auth.Identity := {| Auth.IdentityID := "alice" |}.

Definition example_storage (prefix : string) (homes : bool) : Auth.Storage :=
  {| Auth.Prefix := prefix;
     Auth.GetCapabilities := fun _ => {| Auth.CreateUserHomeDir := homes |} |}.

Definition example_storages : list Auth.Storage :=
  [ example_storage "local" true;
    example_storage "archive" false;
    example_storage "eos" true ].

(** ** Package strings, further routines *)

Module GoStrings.

(** Membership of a byte in a cutset. *)
Fixpoint in_cutset (c : ascii) (cutset : string) : bool :=
  match cutset with
  | EmptyString => false
  | String d rest => Ascii.eqb c d || in_cutset c rest
  end.

(** [strings.TrimRight] on byte strings: the trailing bytes that are in
    the cutset are removed. *)
Fixpoint TrimRight (s cutset : string) : string :=
  match s with
  | EmptyString => EmptyString
  | String a s' =>
      let t := TrimRight s' cutset in
      if String.eqb t "" && in_cutset a cutset then EmptyString
      else String a t
  end.

(** The byte occurs in the string. *)
Fixpoint contains_byte (c : ascii) (s : string) : bool :=
  match s with
  | EmptyString => false
  | String a s' => Ascii.eqb a c || contains_byte c s'
  end.

(** A string of [n] copies of one byte. *)
Fixpoint replicate_byte (n : nat) (c : ascii) : string :=
  match n with
  | O => EmptyString
  | S n' => String c (replicate_byte n' c)
  end.

End GoStrings.

(** ** Package server, continued: services and routes *)

Module ServerRouting.

(** The server directives that service selection and routing read. *)
Record Directives : Type := {
  BaseURL : string;
  EnabledServices : list string;
  CORSEnabledServices : list string;
  CORSAccessControlAllowOrigin : list string;
  CORSAccessControlAllowMethods : list string;
  CORSAccessControlAllowHeaders : list string
}.

(** [services.Service]: its name, its base URL and its endpoints, a map
    from path to a map from method to handler, given in the order the
    [range] loops visit them. *)
Record Service : Type := {
  Name : string;
  SvcBaseURL : string;
  Endpoints : list (string * list (string * Server.Handler))
}.

(** The constructors of the five service packages, which are not among
    the sources. *)
Record ServicePackages : Type := {
  authentication_New : Directives -> Service + Go.error;
  metadata_New : Directives -> Service + Go.error;
  data_New : Directives -> Service + Go.error;
  webdav_New : Directives -> Service + Go.error;
  ocwebdav_New : Directives -> Service + Go.error
}.

(** [isServiceEnabled]. *)
Fixpoint isServiceEnabled (svc : string) (list : list string) : bool :=
  match list with
  | [] => false
  | b :: rest => if String.eqb b svc then true else isServiceEnabled svc rest
  end.

(** One [if isServiceEnabled(...) { ... }] block of [getServices]
    followed by the rest of the function [k]. *)
Definition enable (name : string) (new : Directives -> Service + Go.error)
    (conf : Directives)
    (k : list Service -> list Service * option Go.error)
    (services : list Service) : list Service * option Go.error :=
  if isServiceEnabled name (EnabledServices conf) then
    match new conf with
    | inr err => (services, Some err)
    | inl svc => k (services ++ [svc])%list
    end
  else k services.

(** [getServices]. *)
Definition getServices (pk : ServicePackages) (conf : Directives)
    : list Service * option Go.error :=
  enable "authentication" (authentication_New pk) conf
    (enable "metadata" (metadata_New pk) conf
       (enable "data" (data_New pk) conf
          (enable "webdav" (webdav_New pk) conf
             (enable "ocwebdav" (ocwebdav_New pk) conf
                (fun services => (services, None))))))
    [].

(** [cors.Options] as [corsHandler] fills them. *)
Record CorsOptions : Type := {
  AllowedOrigins : list string;
  AllowedMethods : list string;
  AllowedHeaders : list string
}.

(** What a route dispatches to. *)
Inductive RouteHandler : Type :=
| PrometheusHandler
| Plain (h : Server.Handler)
| Cors (opts : CorsOptions) (h : Server.Handler).

(** A route of the mux router: [router.Handle(path, handler)],
    restricted by [.Methods(method)] when there is one. *)
Record Route : Type := {
  route_path : string;
  route_method : option string;
  route_handler : RouteHandler
}.

(** [Server.corsHandler]. *)
Definition corsHandler (conf : Directives) (h : Server.Handler) : RouteHandler :=
  Cors {| AllowedOrigins := CORSAccessControlAllowOrigin conf;
          AllowedMethods := CORSAccessControlAllowMethods conf;
          AllowedHeaders := CORSAccessControlAllowHeaders conf |}
       h.

(** A record of the server log: "endpoint registered", with its method
    and endpoint fields, or "endpoint registered (cors)". *)
Record Registered : Type := {
  reg_method : string;
  reg_endpoint : string;
  reg_cors : bool
}.

(** The body of the innermost loop of [configureRouter]. *)
Definition register (conf : Directives) (svc : Service) (path : string)
    (mh : string * Server.Handler) : list Route * list Registered :=
  let corsEnabled := CORSEnabledServices conf in
  let base := GoStrings.TrimRight (BaseURL conf) "/" in
  let handler :=
    if isServiceEnabled (Name svc) corsEnabled
    then corsHandler conf (snd mh) else Plain (snd mh) in
  let svcBase := GoStrings.TrimRight (SvcBaseURL svc) "/" in
  let fullEndpoint := base ++ svcBase ++ path in
  let u := GoStrings.TrimRight (BaseURL conf) "/" ++ svcBase ++ path in
  ( ({| route_path := fullEndpoint; route_method := Some (fst mh);
        route_handler := handler |}
     :: (if isServiceEnabled (Name svc) corsEnabled
         then [ {| route_path := fullEndpoint; route_method := Some "OPTIONS";
                   route_handler := handler |} ]
         else []))%list,
    ({| reg_method := fst mh; reg_endpoint := u; reg_cors := false |}
     :: (if isServiceEnabled (Name svc) corsEnabled
         then [ {| reg_method := "OPTIONS"; reg_endpoint := u; reg_cors := true |} ]
         else []))%list ).




End ServerRouting.

(** ** Package main, continued: the remaining constructors *)

Module MainWiring.

Import Main.

(** The getters of [root.Configuration] the remaining constructors
    read, next to those of [Main.Configuration]. *)
Record Settings : Type := {
  config : Configuration;
  GetUserDriver : string;
  GetMemUserDriverUsers : string;
  GetTokenDriver : string;
  GetJWTTokenDriverKey : string;
  GetBasicAuthMiddlewareCookieName : string;
  GetHTTPAccessLoggerOut : string;
  GetHTTPAccessLoggerMaxAge : Z;
  GetHTTPAccessLoggerMaxBackups : Z;
  GetHTTPAccessLoggerMaxSize : Z;
  GetAuthenticationWebService : string;
  GetRemoteAuthenticationWebServiceURL : string;
  GetDataWebService : string;
  GetDataWebServiceMaxUploadFileSize : Z;
  GetRemoteDataWebServiceURL : string;
  GetMetaDataWebService : string;
  GetRemoteMetaDataWebServiceURL : string;
  GetOCWebService : string;
  GetOCWebServiceMaxUploadFileSize : Z;
  GetOCWebServiceChunksFolder : string;
  GetRemoteOCWebServiceURL : string;
  GetEnabledWebServices : string;
  GetCORSMiddlewareAccessControlAllowOrigin : string;
  GetCORSMiddlewareAccessControlAllowMethods : string;
  GetCORSMiddlewareAccessControlAllowHeaders : string
}.

(** The values of the packages whose constructors cannot fail, named
    after the constructor that builds them.  An argument of interface
    type is an [option], [None] being the nil interface value. *)
Inductive ContextManager : Type := contextmanager_New.
Inductive MimeGuesser : Type := mimeguesser_New.
Inductive WebErrorConverter : Type := weberrorconverter_New.
Inductive UserDriver : Type := memuserdriver_New (users : string).
Inductive TokenDriver : Type :=
  jwttokendriver_New (key : string) (cm : option ContextManager)
    (logger : Levels).
Inductive AuthenticationMiddleware : Type :=
  authenticationmiddleware_New (cm : option ContextManager)
    (tokenDriver : option TokenDriver).
Inductive BasicAuthMiddleware : Type :=
  basicauthmiddleware_New (cm : option ContextManager)
    (userDriver : option UserDriver) (tokenDriver : option TokenDriver)
    (cookieName : string).
Inductive LoggerMiddleware : Type :=
  loggermiddleware_New (cm : option ContextManager) (logger : Levels).
Inductive CorsMiddleware : Type :=
  corsmiddleware_New (logger : Levels) (pkg : string)
    (origin methods headers : string).

(** The constructors of the web service packages and of the file
    configuration source, none of which is among the sources.  [WS] is
    the web service value, [CS] the configuration source; the remote
    constructors and the configuration source return a Go pair. *)
Record WebPackages (DD MD WS CS : Type) : Type := {
  drivers : Packages DD MD;
  authenticationwebservice_New :
    option ContextManager -> Levels -> option UserDriver ->
    option TokenDriver -> option AuthenticationMiddleware ->
    option WebErrorConverter -> WS;
  datawebservice_New :
    option ContextManager -> Levels -> option DD ->
    option AuthenticationMiddleware -> option WebErrorConverter -> Z -> WS;
  metadatawebservice_New :
    option ContextManager -> Levels -> option MD ->
    option AuthenticationMiddleware -> option WebErrorConverter -> WS;
  ocwebservice_New :
    option ContextManager -> Levels -> option DD -> option MD ->
    option BasicAuthMiddleware -> option WebErrorConverter ->
    option MimeGuesser -> Z -> string -> WS;
  remoteauthenticationwebservice_New :
    Levels -> string -> option WS * option Go.error;
  remotedatawebservice_New : Levels -> string -> option WS * option Go.error;
  remotemetadatawebservice_New :
    Levels -> string -> option WS * option Go.error;
  remoteocwebservice_New : Levels -> string -> option WS * option Go.error;
  fileconfigurationsource_New : string -> option CS * option Go.error
}.

Arguments drivers {DD MD WS CS}.
Arguments authenticationwebservice_New {DD MD WS CS}.
Arguments datawebservice_New {DD MD WS CS}.
Arguments metadatawebservice_New {DD MD WS CS}.
Arguments ocwebservice_New {DD MD WS CS}.
Arguments remoteauthenticationwebservice_New {DD MD WS CS}.
Arguments remotedatawebservice_New {DD MD WS CS}.
Arguments remotemetadatawebservice_New {DD MD WS CS}.
Arguments remoteocwebservice_New {DD MD WS CS}.
Arguments fileconfigurationsource_New {DD MD WS CS}.

(** [x, err := f(); if err != nil { return nil, err }]. *)
Definition try {A B : Type} (r : option A * option Go.error)
    (k : option A -> option B * option Go.error) : option B * option Go.error :=
  match r with
  | (_, Some err) => (None, Some err)
  | (x, None) => k x
  end.

(** The same for [getLogger], whose result is a struct. *)
Definition try_logger {B : Type} (r : Levels + Go.error)
    (k : Levels -> option B * option Go.error) : option B * option Go.error :=
  match r with
  | inr err => (None, Some err)
  | inl logger => k logger
  end.

(** [getContextManager], [getMimeGuesser], [getWebErrorConverter]. *)
Definition getContextManager (s : Settings) : option ContextManager * option Go.error :=
  (Some contextmanager_New, None).

Definition getMimeGuesser (s : Settings) : option MimeGuesser * option Go.error :=
  (Some mimeguesser_New, None).

Definition getWebErrorConverter (s : Settings) : option WebErrorConverter * option Go.error :=
  (Some weberrorconverter_New, None).

(** [getUserDriver]. *)
Definition getUserDriver (s : Settings) : option UserDriver * option Go.error :=
  if String.eqb (GetUserDriver s) "memuserdriver" then
    (Some (memuserdriver_New (GetMemUserDriverUsers s)), None)
  else (None, Some (Go.errors_New "configured user driver does not exist")).

(** [getTokenDriver]. *)
Definition getTokenDriver (hostname : string + Go.error) (s : Settings)
    : option TokenDriver * option Go.error :=
  if String.eqb (GetTokenDriver s) "jwttokendriver" then
    try (getContextManager s) (fun cm =>
    try_logger (getLogger hostname (config s)) (fun logger =>
      (Some (jwttokendriver_New (GetJWTTokenDriverKey s) cm logger), None)))
  else (None, Some (Go.errors_New "configured token driver does not exist")).

(** [getAuthenticationMiddleware]. *)
Definition getAuthenticationMiddleware (hostname : string + Go.error)
    (s : Settings) : option AuthenticationMiddleware * option Go.error :=
  try (getContextManager s) (fun cm =>
  try (getTokenDriver hostname s) (fun tokenDriver =>
    (Some (authenticationmiddleware_New cm tokenDriver), None))).

(** [getBasicAuthMiddleware]. *)
Definition getBasicAuthMiddleware (hostname : string + Go.error)
    (s : Settings) : option BasicAuthMiddleware * option Go.error :=
  try (getContextManager s) (fun cm =>
  try (getTokenDriver hostname s) (fun tokenDriver =>
  try (getUserDriver s) (fun userDriver =>
    (Some (basicauthmiddleware_New cm userDriver tokenDriver
             (GetBasicAuthMiddlewareCookieName s)), None)))).

(** [getHTTPLogger]. *)
Definition getHTTPLogger (s : Settings) : Writer * option Go.error :=
  let out :=
    if String.eqb (GetAppLoggerOut (config s)) "1" then Stdout
    else if String.eqb (GetAppLoggerOut (config s)) "2" then Stderr
    else if String.eqb (GetAppLoggerOut (config s)) "" then Discard
    else Lumberjack (GetHTTPAccessLoggerOut s) (GetHTTPAccessLoggerMaxSize s)
           (GetHTTPAccessLoggerMaxAge s) (GetHTTPAccessLoggerMaxBackups s) in
  (out, None).

(** [getLoggerMiddleware]. *)
Definition getLoggerMiddleware (hostname : string + Go.error) (s : Settings)
    : option LoggerMiddleware * option Go.error :=
  try_logger (getLogger hostname (config s)) (fun logger =>
  try (getContextManager s) (fun cm =>
    (Some (loggermiddleware_New cm logger), None))).

(** [getCORSMiddleware]. *)
Definition getCORSMiddleware (hostname : string + Go.error) (s : Settings)
    : option CorsMiddleware * option Go.error :=
  try_logger (getLogger hostname (config s)) (fun logger =>
    (Some (corsmiddleware_New logger "corsmiddleware"
             (GetCORSMiddlewareAccessControlAllowOrigin s)
             (GetCORSMiddlewareAccessControlAllowMethods s)
             (GetCORSMiddlewareAccessControlAllowHeaders s)), None)).

(** [getAuthenticationWebService]. *)
Definition getAuthenticationWebService {DD MD WS CS}
    (pk : WebPackages DD MD WS CS) (hostname : string + Go.error)
    (s : Settings) : option WS * option Go.error :=
  if String.eqb (GetAuthenticationWebService s) "local" then
    try_logger (getLogger hostname (config s)) (fun logger =>
    try (getContextManager s) (fun cm =>
    try (getUserDriver s) (fun userDriver =>
    try (getTokenDriver hostname s) (fun tokenDriver =>
    try (getAuthenticationMiddleware hostname s) (fun authenticationMiddleware =>
    try (getWebErrorConverter s) (fun webErrorConverter =>
      (Some (authenticationwebservice_New pk cm logger userDriver tokenDriver
               authenticationMiddleware webErrorConverter), None)))))))
  else if String.eqb (GetAuthenticationWebService s) "remote" then
    try_logger (getLogger hostname (config s)) (fun logger =>
      remoteauthenticationwebservice_New pk logger
        (GetRemoteAuthenticationWebServiceURL s))
  else (None, Some (Go.errors_New
                      "configured authentication web service does not exist")).

(** [getDataWebService]. *)
Definition getDataWebService {DD MD WS CS}
    (pk : WebPackages DD MD WS CS) (hostname : string + Go.error)
    (s : Settings) : option WS * option Go.error :=
  if String.eqb (GetDataWebService s) "local" then
    try_logger (getLogger hostname (config s)) (fun logger =>
    try (getContextManager s) (fun cm =>
    try (getDataDriver (drivers pk) hostname (config s)) (fun dataDriver =>
    try (getAuthenticationMiddleware hostname s) (fun authenticationMiddleware =>
    try (getWebErrorConverter s) (fun webErrorConverter =>
      (Some (datawebservice_New pk cm logger dataDriver
               authenticationMiddleware webErrorConverter
               (GetDataWebServiceMaxUploadFileSize s)), None))))))
  else if String.eqb (GetDataWebService s) "remote" then
    try_logger (getLogger hostname (config s)) (fun logger =>
      remotedatawebservice_New pk logger (GetRemoteDataWebServiceURL s))
  else (None, Some (Go.errors_New "configured data webservice does not exist")).

(** [getMetaDataWebService]. *)
Definition getMetaDataWebService {DD MD WS CS}
    (pk : WebPackages DD MD WS CS) (hostname : string + Go.error)
    (s : Settings) : option WS * option Go.error :=
  if String.eqb (GetMetaDataWebService s) "local" then
    try_logger (getLogger hostname (config s)) (fun logger =>
    try (getContextManager s) (fun cm =>
    try (getMetaDataDriver (drivers pk) hostname (config s)) (fun metaDataDriver =>
    try (getAuthenticationMiddleware hostname s) (fun authenticationMiddleware =>
    try (getWebErrorConverter s) (fun webErrorConverter =>
      (Some (metadatawebservice_New pk cm logger metaDataDriver
               authenticationMiddleware webErrorConverter), None))))))
  else if String.eqb (GetMetaDataWebService s) "remote" then
    try_logger (getLogger hostname (config s)) (fun logger =>
      remotemetadatawebservice_New pk logger (GetRemoteMetaDataWebServiceURL s))
  else (None, Some (Go.errors_New "configured metadata webservice does not exist")).

(** [getOCWebService]. *)
Definition getOCWebService {DD MD WS CS}
    (pk : WebPackages DD MD WS CS) (hostname : string + Go.error)
    (s : Settings) : option WS * option Go.error :=
  if String.eqb (GetOCWebService s) "local" then
    try_logger (getLogger hostname (config s)) (fun logger =>
    try (getContextManager s) (fun cm =>
    try (getDataDriver (drivers pk) hostname (config s)) (fun dataDriver =>
    try (getMetaDataDriver (drivers pk) hostname (config s)) (fun metaDataDriver =>
    try (getWebErrorConverter s) (fun webErrorConverter =>
    try (getMimeGuesser s) (fun mimeGuesser =>
    try (getBasicAuthMiddleware hostname s) (fun basicAuthMiddleware =>
      (Some (ocwebservice_New pk cm logger dataDriver metaDataDriver
               basicAuthMiddleware webErrorConverter mimeGuesser
               (GetOCWebServiceMaxUploadFileSize s)
               (GetOCWebServiceChunksFolder s)), None))))))))
  else if String.eqb (GetOCWebService s) "remote" then
    try_logger (getLogger hostname (config s)) (fun logger =>
      remoteocwebservice_New pk logger (GetRemoteOCWebServiceURL s))
  else (None, Some (Go.errors_New "configured oc webservice does not exist")).

(** [find]. *)
Fixpoint find (needle : string) (haystack : list string) : bool :=
  match haystack with
  | [] => false
  | v :: rest => if String.eqb v needle then true else find needle rest
  end.

(** One [if find(...) { ... }] block of [getWebServices] followed by
    the rest of the function [k]; the map holds interface values. *)
Definition enable {WS : Type} (name : string) (enabled : list string)
    (get : option WS * option Go.error)
    (k : gmap string (option WS) ->
         option (gmap string (option WS)) * option Go.error)
    (webServices : gmap string (option WS))
    : option (gmap string (option WS)) * option Go.error :=
  if find name enabled then
    match get with
    | (_, Some err) => (None, Some err)
    | (ws, None) => k (<[name := ws]> webServices)
    end
  else k webServices.

(** [getWebServices]. *)
Definition getWebServices {DD MD WS CS}
    (pk : WebPackages DD MD WS CS) (hostname : string + Go.error)
    (s : Settings) : option (gmap string (option WS)) * option Go.error :=
  let enabledWebServices :=
    Go.strings_Split (GetEnabledWebServices s) ","%char in
  enable "authentication" enabledWebServices
    (getAuthenticationWebService pk hostname s)
    (enable "data" enabledWebServices (getDataWebService pk hostname s)
       (enable "metadata" enabledWebServices
          (getMetaDataWebService pk hostname s)
          (enable "owncloud" enabledWebServices (getOCWebService pk hostname s)
             (fun webServices => (Some webServices, None)))))
    ∅.

(** [getConfigurationSource]. *)
Definition getConfigurationSource {DD MD WS CS}
    (pk : WebPackages DD MD WS CS) (source : string)
    : option CS * option Go.error :=
  let parts := Go.strings_Split source ":"%char in
  if Nat.eqb (List.length parts) 0 then
    (None, Some (Go.errors_New "configuration source is empty"))
  else
    let (protocol, specific) :=
      if Nat.leb 2 (List.length parts)
      then (List.nth 0 parts "", List.nth 1 parts "")
      else ("file", List.nth 0 parts "") in
    if String.eqb protocol "file" then fileconfigurationsource_New pk specific
    else (None, Some (Go.errors_New "configuration protocol does not exist")).

End MainWiring.

(** ** Vocabulary of the further statements *)

(** The five service packages in the order [getServices] consults
    them. *)
Definition service_table (pk : ServerRouting.ServicePackages)
    : list (string * (ServerRouting.Directives -> ServerRouting.Service + Go.error)) :=
  [ ("authentication", ServerRouting.authentication_New pk);
    ("metadata", ServerRouting.metadata_New pk);
    ("data", ServerRouting.data_New pk);
    ("webdav", ServerRouting.webdav_New pk);
    ("ocwebdav", ServerRouting.ocwebdav_New pk) ].

(** The blocks of [getServices] over any such table. *)
Fixpoint enable_each
    (table : list (string * (ServerRouting.Directives -> ServerRouting.Service + Go.error)))
    (conf : ServerRouting.Directives) (services : list ServerRouting.Service)
    : list ServerRouting.Service * option Go.error :=
  match table with
  | [] => (services, None)
  | (name, new) :: rest =>
      ServerRouting.enable name new conf (enable_each rest conf) services
  end.

(** The entry is enabled by the configuration. *)
Definition entry_enabled (conf : ServerRouting.Directives)
    (e : string * (ServerRouting.Directives -> ServerRouting.Service + Go.error))
    : bool :=
  ServerRouting.isServiceEnabled (fst e) (ServerRouting.EnabledServices conf).

(** What an entry of the table contributes when its constructor
    succeeds. *)
Definition built (conf : ServerRouting.Directives)
    (e : string * (ServerRouting.Directives -> ServerRouting.Service + Go.error))
    : list ServerRouting.Service :=
  if entry_enabled conf e then
    match snd e conf with
    | inl svc => [svc]
    | inr _ => []
    end
  else [].





Definition with_BaseURL (conf : ServerRouting.Directives) (b : string)
    : ServerRouting.Directives :=
  {| ServerRouting.BaseURL := b;
     ServerRouting.EnabledServices := ServerRouting.EnabledServices conf;
     ServerRouting.CORSEnabledServices := ServerRouting.CORSEnabledServices conf;
     ServerRouting.CORSAccessControlAllowOrigin :=
       ServerRouting.CORSAccessControlAllowOrigin conf;
     ServerRouting.CORSAccessControlAllowMethods :=
       ServerRouting.CORSAccessControlAllowMethods conf;
     ServerRouting.CORSAccessControlAllowHeaders :=
       ServerRouting.CORSAccessControlAllowHeaders conf |}.

Definition with_SvcBaseURL (svc : ServerRouting.Service) (b : string)
    : ServerRouting.Service :=
  {| ServerRouting.Name := ServerRouting.Name svc;
     ServerRouting.SvcBaseURL := b;
     ServerRouting.Endpoints := ServerRouting.Endpoints svc |}.

(** The four web services in the order [getWebServices] consults them,
    each with what its getter returns. *)
Definition web_service_table {DD MD WS CS : Type}
    (pk : MainWiring.WebPackages DD MD WS CS) (hostname : string + Go.error)
    (s : MainWiring.Settings) : list (string * (option WS * option Go.error)) :=
  [ ("authentication", MainWiring.getAuthenticationWebService pk hostname s);
    ("data", MainWiring.getDataWebService pk hostname s);
    ("metadata", MainWiring.getMetaDataWebService pk hostname s);
    ("owncloud", MainWiring.getOCWebService pk hostname s) ].

(** The blocks of [getWebServices] over any such table. *)
Fixpoint enable_each_ws {WS : Type}
    (table : list (string * (option WS * option Go.error)))
    (enabled : list string) (webServices : gmap string (option WS))
    : option (gmap string (option WS)) * option Go.error :=
  match table with
  | [] => (Some webServices, None)
  | (name, get) :: rest =>
      MainWiring.enable name enabled get (enable_each_ws rest enabled) webServices
  end.

(** The names the configuration enables: the comma-separated list,
    split. *)
Definition enabled_web_services (s : MainWiring.Settings) : list string :=
  Go.strings_Split (MainWiring.GetEnabledWebServices s) ","%char.

(** The creation of the home directory in the storages of the given
    prefixes, one after the other, each on the state the one before it
    left, up to the first that fails: the state reached and that failure,
    if any. *)
Fixpoint creations {W : Type} (c : Auth.Pats W) (idt : Auth.Identity)
    (prefixes : list string) (w : W) : W * option Go.error :=
  match prefixes with
  | [] => (w, None)
  | prefix :: rest =>
      let (err, w') := Auth.CreateUserHomeDirIn c idt prefix w in
      match err with
      | Some e => (w', Some e)
      | None => creations c idt rest w'
      end
  end.

(** The calls of [WriteHeader] among the events of the token endpoint. *)
Definition is_status_write (e : Auth.Event) : bool :=
  match e with
  | Auth.WriteHeader _ => true
  | _ => false
  end.

(** The prefixes of the storages the endpoint asked to create a home
    directory, in the order of the calls. *)
Fixpoint home_calls (evs : list Auth.Event) : list string :=
  match evs with
  | [] => []
  | Auth.HomeDirCall _ prefix _ :: rest => prefix :: home_calls rest
  | _ :: rest => home_calls rest
  end.

(** The prefixes of the storages that advertise home-directory creation
    for the identity, in registration order. *)
Definition capable_prefixes (idt : Auth.Identity) (storages : list Auth.Storage)
    : list string :=
  List.map Auth.Prefix (List.filter (Auth.capable idt) storages).

(** ** Inputs for the further examples *)

(** Collaborators over the list of home directories that exist:
    authentication gives [alice], creation adds the directory unless the
    prefix is in [broken], and the token names the directories that exist
    when it is created. *)
Definition example_home_pats (storages : list Auth.Storage)
    (broken : list string) : Auth.Pats (list string) :=
  {| Auth.Authenticate := fun _ _ w => (inl alice, w);
     Auth.CreateToken :=
       fun idt w =>
         (inl ("token-of-" ++ Auth.IdentityID idt ++ ":"
               ++ Go.strings_Join w ","), w);
     Auth.GetAllStorages := fun _ => storages;
     Auth.CreateUserHomeDirIn :=
       fun idt prefix w =>
         if existsb (String.eqb prefix) broken
         then (Some (Go.errors_New "mkdir: permission denied"), w)
         else (None, List.app w [(prefix ++ "/" ++ Auth.IdentityID idt)%string]);
     Auth.json_MarshalIndent :=
       fun kv => inl (Go.strings_Join (List.map (fun p => fst p ++ "=" ++ snd p) kv) ",");
     Auth.ResponseWrite := fun _ w => (None, w) |}.

Definition example_handler : Server.Handler :=
  fun _ => {| Server.events := [Server.WriteHeader 200%Z];
              Server.panicking := None |}.

Definition example_service (name : string) : ServerRouting.Service :=
  {| ServerRouting.Name := name;
     ServerRouting.SvcBaseURL := "/" ++ name ++ "/";
     ServerRouting.Endpoints :=
       [ ("/token", [("POST", example_handler)]);
         ("/ping", [("GET", example_handler); ("HEAD", example_handler)]) ] |}.

(** Service packages whose constructors fail for the names in
    [broken]. *)
Definition example_new (broken : list string) (name : string)
    (conf : ServerRouting.Directives) : ServerRouting.Service + Go.error :=
  if existsb (String.eqb name) broken
  then inr (Go.errors_New (name ++ ": cannot start"))
  else inl (example_service name).

Definition example_service_packages (broken : list string)
    : ServerRouting.ServicePackages :=
  {| ServerRouting.authentication_New := example_new broken "authentication";
     ServerRouting.metadata_New := example_new broken "metadata";
     ServerRouting.data_New := example_new broken "data";
     ServerRouting.webdav_New := example_new broken "webdav";
     ServerRouting.ocwebdav_New := example_new broken "ocwebdav" |}.

Definition example_directives (enabled cors : list string)
    : ServerRouting.Directives :=
  {| ServerRouting.BaseURL := "/api/";
     ServerRouting.EnabledServices := enabled;
     ServerRouting.CORSEnabledServices := cors;
     ServerRouting.CORSAccessControlAllowOrigin := ["*"];
     ServerRouting.CORSAccessControlAllowMethods := ["GET"; "POST"];
     ServerRouting.CORSAccessControlAllowHeaders := ["Authorization"] |}.

Definition example_web_packages
    : MainWiring.WebPackages string string string string :=
  {| MainWiring.drivers := example_packages;
     MainWiring.authenticationwebservice_New :=
       fun _ _ _ _ _ _ => "authentication (local)";
     MainWiring.datawebservice_New := fun _ _ _ _ _ _ => "data (local)";
     MainWiring.metadatawebservice_New := fun _ _ _ _ _ => "metadata (local)";
     MainWiring.ocwebservice_New :=
       fun _ _ _ _ _ _ _ _ _ => "owncloud (local)";
     MainWiring.remoteauthenticationwebservice_New :=
       fun _ url => (Some ("authentication at " ++ url), None);
     MainWiring.remotedatawebservice_New :=
       fun _ url => (Some ("data at " ++ url), None);
     MainWiring.remotemetadatawebservice_New :=
       fun _ url => (Some ("metadata at " ++ url), None);
     MainWiring.remoteocwebservice_New :=
       fun _ url => (Some ("owncloud at " ++ url), None);
     MainWiring.fileconfigurationsource_New :=
       fun path => (Some ("configuration in " ++ path), None) |}.

Definition example_settings (config : Main.Configuration)
    (enabled userDriver tokenDriver : string) : MainWiring.Settings :=
  {| MainWiring.config := config;
     MainWiring.GetUserDriver := userDriver;
     MainWiring.GetMemUserDriverUsers := "alice:secret";
     MainWiring.GetTokenDriver := tokenDriver;
     MainWiring.GetJWTTokenDriverKey := "key";
     MainWiring.GetBasicAuthMiddlewareCookieName := "clawio";
     MainWiring.GetHTTPAccessLoggerOut := "/var/log/clawiod/access.log";
     MainWiring.GetHTTPAccessLoggerMaxAge := 30;
     MainWiring.GetHTTPAccessLoggerMaxBackups := 3;
     MainWiring.GetHTTPAccessLoggerMaxSize := 100;
     MainWiring.GetAuthenticationWebService := "local";
     MainWiring.GetRemoteAuthenticationWebServiceURL := "http://auth:1502";
     MainWiring.GetDataWebService := "local";
     MainWiring.GetDataWebServiceMaxUploadFileSize := 8589934592;
     MainWiring.GetRemoteDataWebServiceURL := "http://data:1502";
     MainWiring.GetMetaDataWebService := "remote";
     MainWiring.GetRemoteMetaDataWebServiceURL := "http://meta:1502";
     MainWiring.GetOCWebService := "local";
     MainWiring.GetOCWebServiceMaxUploadFileSize := 8589934592;
     MainWiring.GetOCWebServiceChunksFolder := "/var/lib/clawiod/chunks";
     MainWiring.GetRemoteOCWebServiceURL := "http://oc:1502";
     MainWiring.GetEnabledWebServices := enabled;
     MainWiring.GetCORSMiddlewareAccessControlAllowOrigin := "*";
     MainWiring.GetCORSMiddlewareAccessControlAllowMethods := "GET,POST";
     MainWiring.GetCORSMiddlewareAccessControlAllowHeaders := "Authorization" |}.

(** A router that writes a header and part of a body and then panics. *)
Definition example_late_panic : Server.Handler :=
  fun _ =>
    {| Server.events := [Server.WriteHeader 200%Z; Server.Write "partial"];
       Server.panicking :=
         Some {| Server.value := Server.panic_other "boom";
                 Server.stack_text := "goroutine 9 [running]";
                 Server.stack_count := 21 |} |}.

Definition example_late_server : Server.Server :=
  {| Server.log := {| Logrus.Data := {[ "module" := "server" ]} |};
     Server.router := example_late_panic |}.

(** Collaborators as in [example_pats], except that token creation
    fails. *)
Definition example_pats_no_token (storages : list Auth.Storage) : Auth.Pats unit :=
  {| Auth.Authenticate := fun _ _ w => (inl alice, w);
     Auth.CreateToken := fun _ w => (inr (Go.errors_New "no signing key"), w);
     Auth.GetAllStorages := fun _ => storages;
     Auth.CreateUserHomeDirIn := fun _ _ w => (None, w);
     Auth.json_MarshalIndent := fun _ => inl "";
     Auth.ResponseWrite := fun _ w => (None, w) |}.

(* ===================================================================== *)
(** * Part II: the properties                                             *)
(* ===================================================================== *)

(** ** Strings *)

Lemma substring_all (s : string) : String.substring 0 (String.length s) s = s.
Proof. induction s as [|c s IH]; simpl; [reflexivity | now rewrite IH]. Qed.

Lemma substring_suffix (s : string) (n : nat) :
  String.substring n (String.length s - n) s = string_drop n s.
Proof.
  revert n; induction s as [|c s IH]; intros [|n]; simpl; try reflexivity.
  - now rewrite substring_all.
  - apply IH.
Qed.

Lemma string_drop_length (n : nat) (s : string) :
  String.length (string_drop n s) = String.length s - n.
Proof.
  revert s; induction n as [|n IH]; intros [|c s]; simpl; auto with arith.
Qed.

Lemma append_length (a b : string) :
  String.length (a ++ b) = String.length a + String.length b.
Proof. induction a as [|c a IH]; simpl; [reflexivity | now rewrite IH]. Qed.

Lemma slice_from_drop (v : string) (lo : nat) :
  Go.slice_from v lo = string_drop lo v.
Proof. unfold Go.slice_from, Go.len. apply substring_suffix. Qed.

(** ** The error codes *)

(** C2: the const block declares exactly the nine kinds of the taxonomy,
    in the taxonomy's order, with the values 0 through 8 (InvalidToken is
    0, Internal is 8); the values are pairwise distinct, fit [uint32], and
    every kind of the type is one of the nine declared. *)
Theorem C2_code_constants :
  Root.constants =
    [ (Root.CodeInvalidToken, 0%Z); (Root.CodeUnauthenticated, 1%Z);
      (Root.CodeBadAuthenticationData, 2%Z); (Root.CodeBadInputData, 3%Z);
      (Root.CodeNotFound, 4%Z); (Root.CodeBadChecksum, 5%Z);
      (Root.CodeTooBig, 6%Z); (Root.CodeUserNotFound, 7%Z);
      (Root.CodeInternal, 8%Z) ]
  /\ List.length Root.const_block = 9
  /\ (forall c : Root.CodeName, In c Root.const_block)
  /\ List.NoDup Root.const_block
  /\ (forall c : Root.CodeName, (0 <= Root.value c <= 8)%Z)
  /\ (forall a b : Root.CodeName, Root.value a = Root.value b -> a = b)
  /\ Root.value Root.CodeInvalidToken = 0%Z
  /\ Root.value Root.CodeInternal = 8%Z.
Proof.
  split; [reflexivity|].
  split; [reflexivity|].
  split; [intros []; simpl; tauto|].
  split.
  { unfold Root.const_block.
    repeat (apply List.NoDup_cons; [simpl; intuition discriminate|]).
    apply List.NoDup_nil. }
  split; [intros []; vm_compute; split; discriminate|].
  split; [|split; reflexivity].
  intros [] []; vm_compute; intros H; try reflexivity; discriminate H.
Qed.

(** ** RedactString *)

(** C10: RedactString of the empty string is empty, of a one-byte string
    is "X", and of a string of L >= 2 bytes is ten 'X' followed by the
    bytes from index L/2 on; the result has 10 + (L - L/2) bytes and is
    the same for two inputs of one length that agree from L/2 on, so it
    does not depend on the first half. *)
Theorem C10_RedactString :
  Helpers.RedactString "" = ""
  /\ (forall c : ascii, Helpers.RedactString (String c "") = "X")
  /\ (forall v : string, 2 <= String.length v ->
        Helpers.RedactString v
          = "XXXXXXXXXX" ++ string_drop (String.length v / 2) v
        /\ String.length (Helpers.RedactString v)
          = 10 + (String.length v - String.length v / 2))
  /\ (forall v1 v2 : string,
        2 <= String.length v1 ->
        String.length v1 = String.length v2 ->
        string_drop (String.length v1 / 2) v1
          = string_drop (String.length v2 / 2) v2 ->
        Helpers.RedactString v1 = Helpers.RedactString v2).
Proof.
  assert (Hform : forall v : string, 2 <= String.length v ->
            Helpers.RedactString v
              = "XXXXXXXXXX" ++ string_drop (String.length v / 2) v).
  { intros v Hv. unfold Helpers.RedactString, Go.len.
    destruct (Nat.eqb_spec (String.length v) 0) as [E|_]; [lia|].
    destruct (Nat.eqb_spec (String.length v) 1) as [E|_]; [lia|].
    cbn [Go.strings_Join]. rewrite slice_from_drop. reflexivity. }
  split; [reflexivity|].
  split; [intros c; reflexivity|].
  split.
  - intros v Hv. split; [now apply Hform|].
    rewrite (Hform v Hv), append_length, string_drop_length. reflexivity.
  - intros v1 v2 H1 Hlen Hsuf.
    rewrite (Hform v1 H1), (Hform v2) by lia. now rewrite Hsuf.
Qed.

Lemma C10_RedactString_witness :
  Helpers.RedactString "secret-token" = "XXXXXXXXXX-token"
  /\ String.length (Helpers.RedactString "secret-token") = 16.
Proof.
  destruct C10_RedactString as (_ & _ & H & _).
  destruct (H "secret-token") as [H1 H2]; [simpl; lia|].
  split; [exact H1 | exact H2].
Defined.

(** ** SanitizeURL *)

Lemma len_positive (v : string) : Nat.ltb 0 (Go.len v) = true <-> v <> "".
Proof.
  destruct v as [|c v]; simpl; split.
  - intros Hlt. discriminate Hlt.
  - intros Hne. now contradiction Hne.
  - intros _ Heq. discriminate Heq.
  - reflexivity.
Qed.

Lemma SanitizeURL_redacts `{NetURL.Codec} (u : NetURL.URL) :
  NetURL.Get (NetURL.Query u) "access_token" <> "" ->
  Helpers.SanitizeURL (Some u)
    = NetURL.String_
        (NetURL.set_RawQuery u
           (NetURL.Encode
              (NetURL.Set_ (NetURL.Query u) "access_token" "REDACTED"))).
Proof.
  intros Hget. unfold Helpers.SanitizeURL, Helpers.SanitizeURL_run.
  cbn [Helpers.copy Helpers.pointee].
  apply len_positive in Hget. rewrite Hget. reflexivity.
Qed.



Lemma set_RawQuery_rest (u1 u2 : NetURL.URL) (q : string) :
  NetURL.set_RawQuery u1 "" = NetURL.set_RawQuery u2 "" ->
  NetURL.set_RawQuery u1 q = NetURL.set_RawQuery u2 q.
Proof.
  destruct u1, u2; unfold NetURL.set_RawQuery; simpl.
  intros [= -> -> -> -> -> -> ->]. reflexivity.
Qed.




(** ** The request wrapper *)

Section Wrapper.

Context `{NetURL.Codec}.
Import Logrus Server.

Lemma handlerFunc_events (s : Server) (tid : string) (r : Request) :
  events (handlerFunc s tid r)
  = started (request_logger s tid) r
    :: ServeHTTP (routed_request s tid r)
    :: events (router s (routed_request s tid r))
    ++ events (deferred (request_logger s tid) tid
                 (panicking (router s (routed_request s tid r)))).
Proof. reflexivity. Qed.

Lemma request_logger_tid (s : Server) (tid : string) :
  tid_of (request_logger s tid) = Some tid.
Proof.
  unfold tid_of, request_logger, WithFields. cbn [Data].
  apply lookup_union_Some_l, lookup_singleton_eq.
Qed.

Lemma final_status_writes (evs : list Event) :
  final_status evs = final_status (List.filter is_write evs).
Proof.
  induction evs as [|e evs IH]; [reflexivity|].
  destruct e; cbn [List.filter is_write final_status]; auto.
Qed.

Lemma final_status_fixed (l1 l2 : list Event) (c : Z) :
  final_status l1 = Some c -> final_status (l1 ++ l2) = Some c.
Proof.
  induction l1 as [|e l1 IH]; cbn [final_status List.app].
  - intros Hd. discriminate Hd.
  - destruct e; auto.
Qed.

Lemma handlerFunc_writes (s : Server) (tid : string) (r : Request) (p : Panic) :
  panicking (router s (routed_request s tid r)) = Some p ->
  List.filter is_write (events (handlerFunc s tid r))
  = (List.filter is_write (events (router s (routed_request s tid r)))
     ++ [WriteHeader 500%Z; Write tid])%list.
Proof.
  intros Hp. rewrite handlerFunc_events, Hp.
  cbn [List.filter is_write started]. now rewrite List.filter_app.
Qed.

End Wrapper.




(** ** Checksum verification *)

(** C8: verify is a function of its two arguments that returns true
    exactly when algorithm and digest of the two checksums are equal and
    neither algorithm is "none"; it returns false whenever either checksum
    has the "none" algorithm, also for two "none" checksums. *)
Theorem C8_verify (expected actual : ChecksumCodec.Checksum) :
  (ChecksumCodec.verify expected actual = true <->
     ChecksumCodec.algorithm expected = ChecksumCodec.algorithm actual
     /\ ChecksumCodec.digest expected = ChecksumCodec.digest actual
     /\ ChecksumCodec.algorithm expected <> "none"
     /\ ChecksumCodec.algorithm actual <> "none")
  /\ (ChecksumCodec.algorithm expected = "none"
      \/ ChecksumCodec.algorithm actual = "none" ->
      ChecksumCodec.verify expected actual = false).
Proof.
  unfold ChecksumCodec.verify, ChecksumCodec.is_none.
  destruct (String.eqb_spec (ChecksumCodec.algorithm expected) "none") as [He|He];
  destruct (String.eqb_spec (ChecksumCodec.algorithm actual) "none") as [Ha|Ha];
  destruct (String.eqb_spec (ChecksumCodec.algorithm expected)
              (ChecksumCodec.algorithm actual)) as [Hal|Hal];
  destruct (String.eqb_spec (ChecksumCodec.digest expected)
              (ChecksumCodec.digest actual)) as [Hd|Hd];
  cbn; split; try split; try tauto; try discriminate; intuition congruence.
Qed.

Lemma C8_verify_witness :
  ChecksumCodec.verify
    {| ChecksumCodec.algorithm := "none"; ChecksumCodec.digest := "" |}
    {| ChecksumCodec.algorithm := "none"; ChecksumCodec.digest := "" |}
  = false
  /\ ChecksumCodec.verify
       {| ChecksumCodec.algorithm := "md5";
          ChecksumCodec.digest := "d41d8cd98f00b204e9800998ecf8427e" |}
       {| ChecksumCodec.algorithm := "md5";
          ChecksumCodec.digest := "d41d8cd98f00b204e9800998ecf8427e" |}
     = true.
Proof.
  split.
  - apply (C8_verify _ _). left. reflexivity.
  - apply (C8_verify _ _). cbn.
    repeat split; try reflexivity; discriminate.
Defined.

(** ** Completeness gating of chunked uploads *)

Section Gating.

Import ChunkAssembler.
Variable compute : string -> ChecksumCodec.Checksum.

Lemma complete_missing (cs : ChunkSet) (i : nat) :
  i < total cs -> slots cs !! i = None -> complete cs = false.
Proof.
  intros Hi Hnone. unfold complete.
  destruct (forallb _ _) eqn:Hall; [|reflexivity].
  rewrite List.forallb_forall in Hall.
  specialize (Hall i). rewrite Hnone in Hall.
  assert (Hin : In i (List.seq 0 (total cs))) by (apply List.in_seq; lia).
  specialize (Hall Hin). apply bool_decide_eq_true in Hall.
  destruct Hall as [x Hx]. discriminate Hx.
Qed.

(** A delivery after which the transfer is still staged has published
    nothing. *)
Lemma deliver_staged_unpublished (c : Chunk) (st : State) :
  is_Some (staging (fst (deliver compute c st)) !! key_of c) ->
  published (fst (deliver compute c st)) = published st.
Proof.
  unfold deliver.
  destruct (negb (Nat.eqb (declared_total c) _)); [reflexivity|].
  destruct (negb (Nat.ltb (index c) _)); [reflexivity|].
  destruct (complete _); [|reflexivity].
  destruct (publish _ _ _ _ _) as [st' err]. cbn [fst release staging].
  rewrite lookup_delete_eq. intros [x Hx]. discriminate Hx.
Qed.

(** A chunk of the upload that is not the missing one leaves the upload
    staged and incomplete. *)
Lemma gated_deliver_own d tid n i st st' (c : Chunk) :
  i < n -> key_of c = (d, tid) -> declared_total c = n -> index c <> i ->
  gated d tid n i st st' ->
  gated d tid n i (fst (deliver compute c st)) st'.
Proof.
  intros Hi Hkey Hn Hidx (Hpub & Hoth & Hown). unfold deliver. rewrite Hkey.
  set (cs := match staging st !! (d, tid) with
             | Some cs => cs
             | None => {| destination := chunk_destination c;
                          total := declared_total c; slots := ∅ |}
             end).
  assert (Hcs : total cs = n /\ slots cs !! i = None).
  { subst cs. destruct Hown as [Hnone|(cs0 & Hsome & H1 & H2)].
    - rewrite Hnone. cbn. split; [exact Hn | apply lookup_empty].
    - rewrite Hsome. auto. }
  destruct Hcs as (Hct & Hci).
  destruct (negb (Nat.eqb (declared_total c) (total cs)));
    [repeat split; assumption|].
  destruct (negb (Nat.ltb (index c) (total cs)));
    [repeat split; assumption|].
  rewrite (complete_missing _ i).
  - cbn [fst]. split; [exact Hpub|]. split.
    + intros k Hk. cbn [staging].
      rewrite lookup_insert_ne by congruence. now apply Hoth.
    + right. cbn [staging]. rewrite lookup_insert_eq.
      eexists. split; [reflexivity|]. cbn.
      rewrite lookup_insert_ne by exact Hidx. auto.
  - cbn. lia.
  - cbn. rewrite lookup_insert_ne by exact Hidx. exact Hci.
Qed.

Lemma gated_release_own d tid n i st st' :
  gated d tid n i st st' -> gated d tid n i (release (d, tid) st) st'.
Proof.
  intros (Hpub & Hoth & _). split; [exact Hpub|]. split.
  - intros k Hk. cbn. rewrite lookup_delete_ne by congruence. now apply Hoth.
  - left. cbn. apply lookup_delete_eq.
Qed.

Lemma gated_release_other d tid n i st st' (k : string * string) :
  k <> (d, tid) ->
  gated d tid n i st st' -> gated d tid n i (release k st) (release k st').
Proof.
  intros Hk (Hpub & Hoth & Hown). split; [exact Hpub|]. split.
  - intros k' Hk'. cbn. rewrite !lookup_delete. case_decide; [reflexivity|].
    now apply Hoth.
  - cbn [release staging]. rewrite lookup_delete_ne by exact Hk. exact Hown.
Qed.

(** The same namespace on both sides stays the same after a publish. *)
Lemma gated_publish d tid n i st st' path bytes declared :
  gated d tid n i st st' ->
  gated d tid n i (fst (publish compute path bytes declared st))
                  (fst (publish compute path bytes declared st'))
  /\ snd (publish compute path bytes declared st)
     = snd (publish compute path bytes declared st').
Proof.
  intros (Hpub & Hoth & Hown). unfold publish.
  destruct declared as [cc|]; [destruct (ChecksumCodec.verify cc _)|];
    cbn [fst snd]; (split; [|reflexivity]).
  all: split; [cbn [published]; now rewrite Hpub | split; assumption].
Qed.

(** A chunk of another transfer does the same on both sides. *)
Lemma gated_deliver_other d tid n i st st' (c : Chunk) :
  key_of c <> (d, tid) ->
  gated d tid n i st st' ->
  gated d tid n i (fst (deliver compute c st)) (fst (deliver compute c st')).
Proof.
  intros Hkey Hg. pose proof Hg as (Hpub & Hoth & Hown). unfold deliver.
  rewrite <- (Hoth _ Hkey).
  set (cs := match staging st !! key_of c with
             | Some cs => cs
             | None => {| destination := chunk_destination c;
                          total := declared_total c; slots := ∅ |}
             end).
  destruct (negb (Nat.eqb (declared_total c) (total cs))); [exact Hg|].
  destruct (negb (Nat.ltb (index c) (total cs))); [exact Hg|].
  destruct (complete _).
  - destruct (gated_publish d tid n i st st'
                (destination cs)
                (assemble {| destination := destination cs; total := total cs;
                             slots := <[index c := data c]> (slots cs) |})
                (client_checksum c) Hg) as [Hg' _].
    cbn [destination] in *.
    destruct (publish compute _ _ _ st) as [s1 e1].
    destruct (publish compute _ _ _ st') as [s2 e2].
    cbn [fst] in *. now apply gated_release_other.
  - cbn [fst]. split; [exact Hpub|]. split.
    + intros k Hk. cbn [staging]. rewrite !lookup_insert.
      case_decide; [reflexivity | now apply Hoth].
    + cbn [staging]. rewrite lookup_insert_ne by exact Hkey. exact Hown.
Qed.

Lemma gated_run d tid n i (ops : list Op) :
  i < n -> List.Forall (withholds d tid n i) ops ->
  forall st st',
    gated d tid n i st st' ->
    gated d tid n i (run compute st ops) (run compute st' (others d tid ops)).
Proof.
  intros Hi Hops. induction Hops as [|op ops Hop _ IH]; intros st st' Hg;
    [exact Hg|].
  cbn [run fold_left others List.filter]. unfold of_upload at 1.
  destruct (bool_decide (op_key op = (d, tid))) eqn:Hown; cbn [negb].
  - apply bool_decide_eq_true in Hown. apply IH.
    destruct op as [c|path t|path t]; cbn [step op_key withholds] in *.
    + destruct (Hop Hown) as [Hn Hidx]. now apply gated_deliver_own.
    + rewrite Hown. now apply gated_release_own.
    + rewrite Hown. now apply gated_release_own.
  - apply bool_decide_eq_false in Hown. cbn [fold_left]. apply IH.
    destruct op as [c|path t|path t]; cbn [step op_key] in *.
    + now apply gated_deliver_other.
    + now apply gated_release_other.
    + now apply gated_release_other.
Qed.

End Gating.

(** C7: take an upload with transfer id tid, destination d and declared
    total n that starts with nothing staged, and any sequence of
    operations, of this upload and of any other transfers to d or to other
    paths, in which some index i < n of the upload never arrives.  Then the
    published namespace is exactly what it is when the upload's operations
    are left out, so downloadFile and examine on every path, d included,
    give what they give without the upload; when the sequence holds nothing
    but the upload's operations they give on d what they gave before it,
    which is NotFound when d had never been published.  Moreover a delivery
    after which its transfer is still staged publishes nothing. *)
Theorem C7_completeness_gating
    (compute : string -> ChecksumCodec.Checksum)
    (st : ChunkAssembler.State) (tid d : string) (n i : nat)
    (ops : list ChunkAssembler.Op) :
  ChunkAssembler.staging st !! (d, tid) = None ->
  i < n ->
  List.Forall (ChunkAssembler.withholds d tid n i) ops ->
  ChunkAssembler.published (ChunkAssembler.run compute st ops)
    = ChunkAssembler.published
        (ChunkAssembler.run compute st (ChunkAssembler.others d tid ops))
  /\ (forall path : string,
        ChunkAssembler.downloadFile (ChunkAssembler.run compute st ops) path
        = ChunkAssembler.downloadFile
            (ChunkAssembler.run compute st (ChunkAssembler.others d tid ops))
            path
        /\ ChunkAssembler.examine (ChunkAssembler.run compute st ops) path
           = ChunkAssembler.examine
               (ChunkAssembler.run compute st (ChunkAssembler.others d tid ops))
               path)
  /\ (ChunkAssembler.others d tid ops = [] ->
      ChunkAssembler.published (ChunkAssembler.run compute st ops)
        = ChunkAssembler.published st
      /\ ChunkAssembler.downloadFile (ChunkAssembler.run compute st ops) d
         = ChunkAssembler.downloadFile st d
      /\ ChunkAssembler.examine (ChunkAssembler.run compute st ops) d
         = ChunkAssembler.examine st d
      /\ (ChunkAssembler.published st !! d = None ->
          ChunkAssembler.downloadFile (ChunkAssembler.run compute st ops) d
            = inr Root.CodeNotFound
          /\ ChunkAssembler.examine (ChunkAssembler.run compute st ops) d
            = inr Root.CodeNotFound))
  /\ (forall (c : ChunkAssembler.Chunk) (st0 : ChunkAssembler.State),
        is_Some (ChunkAssembler.staging
                   (fst (ChunkAssembler.deliver compute c st0))
                 !! ChunkAssembler.key_of c) ->
        ChunkAssembler.published (fst (ChunkAssembler.deliver compute c st0))
        = ChunkAssembler.published st0).
Proof.
  intros Hfresh Hi Hops.
  assert (Hpub : ChunkAssembler.published (ChunkAssembler.run compute st ops)
                 = ChunkAssembler.published
                     (ChunkAssembler.run compute st
                        (ChunkAssembler.others d tid ops))).
  { apply (gated_run compute d tid n i ops Hi Hops st st).
    split; [reflexivity|]. split; [reflexivity | left; exact Hfresh]. }
  split; [exact Hpub|]. split; [|split].
  - intros path. unfold ChunkAssembler.downloadFile, ChunkAssembler.examine.
    rewrite Hpub. split; reflexivity.
  - intros Hnone. rewrite Hnone in Hpub. cbn in Hpub.
    unfold ChunkAssembler.downloadFile, ChunkAssembler.examine.
    rewrite Hpub.
    split; [reflexivity|]. split; [reflexivity|]. split; [reflexivity|].
    intros Hnever. rewrite Hnever. split; reflexivity.
  - intros c st0. apply deliver_staged_unpublished.
Qed.

Lemma C7_completeness_gating_witness :
  ChunkAssembler.downloadFile
    (ChunkAssembler.run example_compute example_published
       [ ChunkAssembler.Deliver (example_chunk "transfer-42" "/home/report.txt" 1 "bb");
         ChunkAssembler.Deliver (example_chunk "transfer-7" "/home/other.txt" 0 "x");
         ChunkAssembler.Deliver (example_chunk "transfer-42" "/home/other.txt" 2 "z");
         ChunkAssembler.Deliver (example_chunk "transfer-42" "/home/report.txt" 0 "aa");
         ChunkAssembler.Deliver (example_chunk "transfer-7" "/home/other.txt" 1 "y");
         ChunkAssembler.Deliver (example_chunk "transfer-7" "/home/other.txt" 2 "z") ])
    "/home/report.txt"
  = inl "old"
  /\ ChunkAssembler.downloadFile
       (ChunkAssembler.run example_compute example_published
          [ ChunkAssembler.Deliver (example_chunk "transfer-42" "/home/report.txt" 1 "bb");
            ChunkAssembler.Deliver (example_chunk "transfer-42" "/home/report.txt" 0 "aa") ])
       "/home/report.txt"
     = inl "old".
Proof.
  split.
  - destruct (C7_completeness_gating example_compute example_published
                "transfer-42" "/home/report.txt" 3 2
                [ ChunkAssembler.Deliver (example_chunk "transfer-42" "/home/report.txt" 1 "bb");
                  ChunkAssembler.Deliver (example_chunk "transfer-7" "/home/other.txt" 0 "x");
                  ChunkAssembler.Deliver (example_chunk "transfer-42" "/home/other.txt" 2 "z");
                  ChunkAssembler.Deliver (example_chunk "transfer-42" "/home/report.txt" 0 "aa");
                  ChunkAssembler.Deliver (example_chunk "transfer-7" "/home/other.txt" 1 "y");
                  ChunkAssembler.Deliver (example_chunk "transfer-7" "/home/other.txt" 2 "z") ])
      as (_ & Hread & _).
    + reflexivity.
    + lia.
    + repeat (apply List.Forall_cons;
              [cbn; intros Hk;
               first [discriminate Hk | split; [reflexivity | lia]]|]).
      apply List.Forall_nil.
    + rewrite (proj1 (Hread "/home/report.txt")). vm_compute. reflexivity.
  - destruct (C7_completeness_gating example_compute example_published
                "transfer-42" "/home/report.txt" 3 2
                [ ChunkAssembler.Deliver (example_chunk "transfer-42" "/home/report.txt" 1 "bb");
                  ChunkAssembler.Deliver (example_chunk "transfer-42" "/home/report.txt" 0 "aa") ])
      as (_ & _ & Halone & _).
    + reflexivity.
    + lia.
    + repeat (apply List.Forall_cons;
              [cbn; intros Hk; split; [reflexivity | lia]|]).
      apply List.Forall_nil.
    + destruct (Halone eq_refl) as (_ & Hdown & _). rewrite Hdown. reflexivity.
Defined.

(** With the third chunk the set is complete and the assembled bytes, in
    index order, replace the old content; a transfer with the same id to
    another path is a transfer of its own. *)
Example chunked_upload_completes :
  ChunkAssembler.downloadFile
    (ChunkAssembler.run example_compute example_published
       [ ChunkAssembler.Deliver (example_chunk "transfer-42" "/home/report.txt" 1 "bb");
         ChunkAssembler.Deliver (example_chunk "transfer-42" "/home/other.txt" 2 "zz");
         ChunkAssembler.Deliver (example_chunk "transfer-42" "/home/report.txt" 0 "aa");
         ChunkAssembler.Deliver (example_chunk "transfer-42" "/home/report.txt" 2 "cc") ])
    "/home/report.txt"
  = inl "aabbcc".
Proof. vm_compute. reflexivity. Qed.

(** ** Driver selection *)

(** C5: a data-driver name other than "fsdatadriver" and "ocfsdatadriver"
    makes getDataDriver return a nil driver with the error "configured
    datadriver does not exist"; a metadata-driver name other than
    "fsmdatadriver" and "ocfsmdatadriver" makes getMetaDataDriver return a
    nil driver with "configured metadata driver does not exist"; and
    either function returns a driver only under one of its two names. *)
Theorem C5_unknown_driver_is_error {DD MD : Type}
    (pk : Main.Packages DD MD) (hostname : string + Go.error)
    (config : Main.Configuration) :
  (Main.GetDataDriver config <> "fsdatadriver" ->
   Main.GetDataDriver config <> "ocfsdatadriver" ->
   Main.getDataDriver pk hostname config
   = (None, Some (Go.errors_New "configured datadriver does not exist")))
  /\ (Main.GetMetaDataDriver config <> "fsmdatadriver" ->
      Main.GetMetaDataDriver config <> "ocfsmdatadriver" ->
      Main.getMetaDataDriver pk hostname config
      = (None, Some (Go.errors_New "configured metadata driver does not exist")))
  /\ (forall d : DD,
        fst (Main.getDataDriver pk hostname config) = Some d ->
        Main.GetDataDriver config = "fsdatadriver"
        \/ Main.GetDataDriver config = "ocfsdatadriver")
  /\ (forall m : MD,
        fst (Main.getMetaDataDriver pk hostname config) = Some m ->
        Main.GetMetaDataDriver config = "fsmdatadriver"
        \/ Main.GetMetaDataDriver config = "ocfsmdatadriver").
Proof.
  unfold Main.getDataDriver, Main.getMetaDataDriver.
  destruct (String.eqb_spec (Main.GetDataDriver config) "fsdatadriver") as [D1|D1];
  destruct (String.eqb_spec (Main.GetDataDriver config) "ocfsdatadriver") as [D2|D2];
  destruct (String.eqb_spec (Main.GetMetaDataDriver config) "fsmdatadriver") as [M1|M1];
  destruct (String.eqb_spec (Main.GetMetaDataDriver config) "ocfsmdatadriver") as [M2|M2];
  repeat split; intros; try congruence; try (left; assumption);
    try (right; assumption); try discriminate.
Qed.

Lemma C5_unknown_driver_is_error_witness :
  Main.getDataDriver example_packages (inl "node1")
    (example_config "s3datadriver" "fsmdatadriver")
  = (None, Some (Go.errors_New "configured datadriver does not exist"))
  /\ Main.getMetaDataDriver example_packages (inl "node1")
       (example_config "fsdatadriver" "")
     = (None, Some (Go.errors_New "configured metadata driver does not exist")).
Proof.
  split.
  - apply (C5_unknown_driver_is_error example_packages (inl "node1")
             (example_config "s3datadriver" "fsmdatadriver"));
      cbn; discriminate.
  - apply (C5_unknown_driver_is_error example_packages (inl "node1")
             (example_config "fsdatadriver" ""));
      cbn; discriminate.
Defined.

Example known_drivers_are_built :
  Main.getDataDriver example_packages (inl "node1")
    (example_config "ocfsdatadriver" "ocfsmdatadriver")
  = (Some "/var/lib/clawiod/ocdata", None)
  /\ Main.getMetaDataDriver example_packages (inl "node1")
       (example_config "fsdatadriver" "fsmdatadriver")
     = (Some "/var/lib/clawiod/mdata", None).
Proof. split; reflexivity. Qed.

(** ** The token endpoint *)

Section TokenEndpoint.

Context {W : Type} `{NetURL.Codec} (c : Auth.Pats W).
Import Auth.

Lemma token_authentication_failed (r : Request) (w w1 : W) (err : Go.error) :
  Authenticate c r (authtypeid_of r) w = (inr err, w1) ->
  token c r w
  = ([ AuthenticateCall (authtypeid_of r);
       LogWarning (Go.Error_ err);
       HeaderSet "Content-Type" "text/plain; charset=utf-8";
       HeaderSet "X-Content-Type-Options" "nosniff";
       WriteHeader 400%Z;
       Write ("Bad Request" ++ Go.LF) ], w1).
Proof.
  intros Hauth. unfold token. fold (authtypeid_of r). rewrite Hauth.
  reflexivity.
Qed.

Lemma token_authenticated (r : Request) (w w1 : W) (idt : Identity) :
  Authenticate c r (authtypeid_of r) w = (inl idt, w1) ->
  fst (token c r w)
  = match create_homes c idt (GetAllStorages c w1) w1 with
    | (evs, w2, Some err) =>
        (AuthenticateCall (authtypeid_of r) :: evs
         ++ [ LogErr ("token: creation of user home failed because err:"
                      ++ Go.Error_ err);
              HeaderSet "Content-Type" "text/plain; charset=utf-8";
              HeaderSet "X-Content-Type-Options" "nosniff";
              WriteHeader 500%Z;
              Write ("Internal Server Error" ++ Go.LF) ])%list
    | (evs, w2, None) =>
        (AuthenticateCall (authtypeid_of r) :: evs
         ++ fst (issue_token c idt w2))%list
    end.
Proof.
  intros Hauth. unfold token. fold (authtypeid_of r). rewrite Hauth.
  destruct (create_homes c idt (GetAllStorages c w1) w1) as [[evs w2] [err|]].
  - reflexivity.
  - destruct (issue_token c idt w2) as [evs' w3]. reflexivity.
Qed.

(** The loop only calls the storages. *)
Lemma create_homes_calls (idt : Identity) (ss : list Storage) :
  forall w : W,
    List.Forall (fun e => is_HomeDirCall e = true)
                (fst (fst (create_homes c idt ss w))).
Proof.
  induction ss as [|s ss IH]; intros w; cbn [create_homes].
  - apply List.Forall_nil.
  - destruct (CreateUserHomeDir (GetCapabilities s idt)); [|apply IH].
    destruct (CreateUserHomeDirIn c idt (Prefix s) w) as [[e|] w'].
    + cbn. apply List.Forall_cons; [reflexivity | apply List.Forall_nil].
    + specialize (IH w').
      destruct (create_homes c idt ss w') as [[evs w''] res].
      cbn in *. apply List.Forall_cons; [reflexivity | exact IH].
Qed.

(** A loop that ran to its end created the home directory in every
    capable storage, in the order of the storages. *)
Lemma create_homes_completed (idt : Identity) (ss : list Storage) :
  forall (w w' : W) (evs : list Event),
    create_homes c idt ss w = (evs, w', None) ->
    evs = List.map (fun s => HomeDirCall idt (Prefix s) None)
                   (List.filter (capable idt) ss).
Proof.
  induction ss as [|s ss IH]; intros w w' evs; cbn [create_homes List.filter].
  - intros [= <- _]. reflexivity.
  - unfold capable at 1.
    destruct (CreateUserHomeDir (GetCapabilities s idt)); [|apply IH].
    destruct (CreateUserHomeDirIn c idt (Prefix s) w) as [[e|] w1];
      [intros Hc; discriminate Hc|].
    destruct (create_homes c idt ss w1) as [[evs1 w2] res] eqn:Hrest.
    intros [= <- _ ->]. cbn [List.map]. f_equal. eapply IH, Hrest.
Qed.

(** A failed creation among the calls of the loop is the error the
    loop hands back. *)
Lemma create_homes_failure (idt : Identity) (ss : list Storage) :
  forall (w : W) (pfx : string) (e : Go.error),
    In (HomeDirCall idt pfx (Some e)) (fst (fst (create_homes c idt ss w))) ->
    snd (create_homes c idt ss w) = Some e.
Proof.
  induction ss as [|s ss IH]; intros w pfx e; cbn [create_homes].
  - intros [].
  - destruct (CreateUserHomeDir (GetCapabilities s idt)); [|apply IH].
    destruct (CreateUserHomeDirIn c idt (Prefix s) w) as [[e0|] w1].
    + cbn. intros [[= _ ->]|[]]. reflexivity.
    + specialize (IH w1 pfx e).
      destruct (create_homes c idt ss w1) as [[evs1 w2] res].
      cbn in *. intros [Hhead|Htail]; [discriminate Hhead | auto].
Qed.

(** Token issuance starts with the call that creates the token and
    calls no storage. *)
Lemma issue_token_events (idt : Identity) (w : W) :
  exists (res : string + Go.error) (rest : list Event),
    fst (issue_token c idt w) = TokenCall idt res :: rest
    /\ List.Forall (fun e => is_TokenCall e = false /\ is_HomeDirCall e = false) rest
    /\ (response_status rest = Some 201%Z -> exists tok, res = inl tok).
Proof.
  unfold issue_token.
  destruct (CreateToken c idt w) as [[tok|err] w1].
  - destruct (json_MarshalIndent c [("authtoken", tok)]) as [js|err].
    + destruct (ResponseWrite c js w1) as [[e|] w2]; cbn;
        do 2 eexists; (split; [reflexivity|]); split; eauto;
        repeat (apply List.Forall_cons; [split; reflexivity|]);
        apply List.Forall_nil.
    + cbn. do 2 eexists. split; [reflexivity|]. split; eauto.
      repeat (apply List.Forall_cons; [split; reflexivity|]).
      apply List.Forall_nil.
  - cbn. do 2 eexists. split; [reflexivity|]. split.
    + repeat (apply List.Forall_cons; [split; reflexivity|]).
      apply List.Forall_nil.
    + intros Hst. discriminate Hst.
Qed.

Lemma response_status_after_calls (evs rest : list Event) :
  List.Forall (fun e => is_HomeDirCall e = true) evs ->
  response_status (evs ++ rest) = response_status rest.
Proof.
  induction 1 as [|e evs He _ IH]; [reflexivity|].
  destruct e; try discriminate He. exact IH.
Qed.

Lemma response_body_after_calls (evs rest : list Event) :
  List.Forall (fun e => is_HomeDirCall e = true) evs ->
  response_body (evs ++ rest) = response_body rest.
Proof.
  induction 1 as [|e evs He _ IH]; [reflexivity|].
  destruct e; try discriminate He. exact IH.
Qed.

Lemma token_authenticated_state (r : Request) (w w1 : W) (idt : Identity) :
  Authenticate c r (authtypeid_of r) w = (inl idt, w1) ->
  snd (token c r w)
  = match create_homes c idt (GetAllStorages c w1) w1 with
    | (_, w2, Some _) => w2
    | (_, w2, None) => snd (issue_token c idt w2)
    end.
Proof.
  intros Hauth. unfold token. fold (authtypeid_of r). rewrite Hauth.
  destruct (create_homes c idt (GetAllStorages c w1) w1) as [[evs w2] [err|]].
  - reflexivity.
  - destruct (issue_token c idt w2) as [evs' w3]. reflexivity.
Qed.

(** The loop leaves the state, and hands back the failure, of the
    successive creations in the capable storages. *)
Lemma create_homes_creations (idt : Identity) (ss : list Storage) :
  forall w : W,
    (snd (fst (create_homes c idt ss w)), snd (create_homes c idt ss w))
    = creations c idt (capable_prefixes idt ss) w.
Proof.
  unfold capable_prefixes.
  induction ss as [|s ss IH]; intros w; cbn [create_homes List.filter].
  - reflexivity.
  - change (capable idt s) with (CreateUserHomeDir (GetCapabilities s idt)).
    destruct (CreateUserHomeDir (GetCapabilities s idt)); [|apply IH].
    cbn [List.map creations].
    destruct (CreateUserHomeDirIn c idt (Prefix s) w) as [[e|] w1];
      [reflexivity|].
    rewrite <- (IH w1).
    destruct (create_homes c idt ss w1) as [[evs w2] res]. reflexivity.
Qed.

Lemma issue_token_call (idt : Identity) (w : W) :
  exists rest,
    fst (issue_token c idt w) = TokenCall idt (fst (CreateToken c idt w)) :: rest
    /\ List.Forall (fun e => is_TokenCall e = false /\ is_HomeDirCall e = false)
                   rest.
Proof.
  unfold issue_token.
  destruct (CreateToken c idt w) as [[tok|err] w1]; cbn [fst].
  - destruct (json_MarshalIndent c [("authtoken", tok)]) as [js|err].
    + destruct (ResponseWrite c js w1) as [[e|] w2]; cbn;
        eexists; (split; [reflexivity|]);
        repeat (apply List.Forall_cons; [split; reflexivity|]);
        apply List.Forall_nil.
    + cbn. eexists. split; [reflexivity|].
      repeat (apply List.Forall_cons; [split; reflexivity|]).
      apply List.Forall_nil.
  - cbn. eexists. split; [reflexivity|].
    repeat (apply List.Forall_cons; [split; reflexivity|]).
    apply List.Forall_nil.
Qed.

(** The state the endpoint works on: the token is created on the state
    the successive creations left, and a failed creation ends the request
    in the state that creation left. *)
Lemma token_state_threading (r : Request) (w w1 : W) (idt : Identity) :
  Authenticate c r (authtypeid_of r) w = (inl idt, w1) ->
  (forall (i : Identity) (res : string + Go.error),
      In (TokenCall i res) (fst (token c r w)) ->
      exists w2,
        creations c idt (capable_prefixes idt (GetAllStorages c w1)) w1
        = (w2, None)
        /\ res = fst (CreateToken c idt w2)
        /\ snd (token c r w) = snd (issue_token c idt w2))
  /\ (forall (pfx : string) (e : Go.error),
        In (HomeDirCall idt pfx (Some e)) (fst (token c r w)) ->
        exists w2,
          creations c idt (capable_prefixes idt (GetAllStorages c w1)) w1
          = (w2, Some e)
          /\ snd (token c r w) = w2).
Proof.
  intros Hauth.
  rewrite (token_authenticated r w w1 idt Hauth).
  rewrite (token_authenticated_state r w w1 idt Hauth).
  pose proof (create_homes_calls idt (GetAllStorages c w1) w1) as Hcalls.
  pose proof (create_homes_failure idt (GetAllStorages c w1) w1) as Hfail.
  pose proof (create_homes_creations idt (GetAllStorages c w1) w1) as Hcre.
  destruct (create_homes c idt (GetAllStorages c w1) w1) as [[evs w2] [err|]];
    cbn [fst snd] in *; rewrite List.Forall_forall in Hcalls.
  - split.
    + intros i res [Hhead|Hin]; [discriminate Hhead|].
      apply List.in_app_or in Hin. destruct Hin as [Hin|Hin].
      * specialize (Hcalls _ Hin). discriminate Hcalls.
      * exfalso. cbn in Hin. intuition discriminate.
    + intros pfx e [Hhead|Hin]; [discriminate Hhead|].
      apply List.in_app_or in Hin. destruct Hin as [Hin|Hin].
      * specialize (Hfail pfx e Hin). injection Hfail as ->.
        exists w2. split; [now rewrite <- Hcre | reflexivity].
      * exfalso. cbn in Hin. intuition discriminate.
  - destruct (issue_token_call idt w2) as (rest & Hev & Hrest).
    rewrite Hev. rewrite List.Forall_forall in Hrest. split.
    + intros i res [Hhead|Hin]; [discriminate Hhead|].
      apply List.in_app_or in Hin. destruct Hin as [Hin|[Hin|Hin]].
      * specialize (Hcalls _ Hin). discriminate Hcalls.
      * injection Hin as <- <-. exists w2.
        split; [now rewrite <- Hcre|]. split; reflexivity.
      * destruct (Hrest _ Hin) as [Ht _]. discriminate Ht.
    + intros pfx e [Hhead|Hin]; [discriminate Hhead|].
      apply List.in_app_or in Hin. destruct Hin as [Hin|[Hin|Hin]].
      * specialize (Hfail pfx e Hin). discriminate Hfail.
      * discriminate Hin.
      * destruct (Hrest _ Hin) as [_ Hh]. discriminate Hh.
Qed.

End TokenEndpoint.

(** C1 (as amended): whatever error the credential resolution fails
    with, and whatever kind that error has, the endpoint logs it and
    answers 400 Bad Request; no storage is called and no token is
    created. *)
Theorem C1_failed_authentication_is_bad_request {W : Type} `{NetURL.Codec}
    (c : Auth.Pats W) (r : Auth.Request) (w w1 : W) (err : Go.error) :
  Auth.Authenticate c r (Auth.authtypeid_of r) w = (inr err, w1) ->
  Auth.token c r w
  = ([ Auth.AuthenticateCall (Auth.authtypeid_of r);
       Auth.LogWarning (Go.Error_ err);
       Auth.HeaderSet "Content-Type" "text/plain; charset=utf-8";
       Auth.HeaderSet "X-Content-Type-Options" "nosniff";
       Auth.WriteHeader 400%Z;
       Auth.Write ("Bad Request" ++ Go.LF) ], w1)
  /\ Auth.response_status (fst (Auth.token c r w)) = Some 400%Z
  /\ Auth.response_body (fst (Auth.token c r w)) = "Bad Request" ++ Go.LF
  /\ List.filter Auth.is_TokenCall (fst (Auth.token c r w)) = []
  /\ List.filter Auth.is_HomeDirCall (fst (Auth.token c r w)) = [].
Proof.
  intros Hauth. rewrite (token_authentication_failed c r w w1 err Hauth).
  repeat split.
Qed.

Lemma C1_failed_authentication_is_bad_request_witness :
  Auth.response_status
    (fst (@Auth.token unit NetURL.plain_codec
            (example_pats (inr unauthenticated_error) [] [])
            example_token_request tt))
  = Some 400%Z.
Proof.
  apply (@C1_failed_authentication_is_bad_request unit NetURL.plain_codec
           (example_pats (inr unauthenticated_error) [] [])
           example_token_request tt tt unauthenticated_error).
  reflexivity.
Defined.

(** C1, as stated, fails: a resolution that fails as Unauthenticated and
    one that fails as InvalidToken are two different authentication kinds
    and get the same response status. *)
Lemma C1_counterexample :
  Auth.authentication_kind unauthenticated_error = Some Root.CodeUnauthenticated
  /\ Auth.authentication_kind invalid_token_error = Some Root.CodeInvalidToken
  /\ Auth.authentication_kind unauthenticated_error
     <> Auth.authentication_kind invalid_token_error
  /\ Auth.response_status
       (fst (@Auth.token unit NetURL.plain_codec
               (example_pats (inr unauthenticated_error) [] [])
               example_token_request tt))
     = Auth.response_status
         (fst (@Auth.token unit NetURL.plain_codec
                 (example_pats (inr invalid_token_error) [] [])
                 example_token_request tt)).
Proof.
  split; [reflexivity|]. split; [reflexivity|].
  split; [intros Heq; discriminate Heq | reflexivity].
Qed.

(** The order of the calls of the token endpoint after a successful
    authentication. *)
Lemma token_call_order {W : Type} `{NetURL.Codec}
    (c : Auth.Pats W) (r : Auth.Request) (w w1 : W) (idt : Auth.Identity) :
  Auth.Authenticate c r (Auth.authtypeid_of r) w = (inl idt, w1) ->
  (forall (i : Auth.Identity) (res : string + Go.error),
      In (Auth.TokenCall i res) (fst (Auth.token c r w)) ->
      exists pre post : list Auth.Event,
        fst (Auth.token c r w) = (pre ++ Auth.TokenCall i res :: post)%list
        /\ i = idt
        /\ (forall s : Auth.Storage,
              In s (Auth.GetAllStorages c w1) ->
              Auth.capable idt s = true ->
              In (Auth.HomeDirCall idt (Auth.Prefix s) None) pre)
        /\ Auth.response_status pre = None
        /\ Auth.response_body pre = "")
  /\ (Auth.response_status (fst (Auth.token c r w)) = Some 201%Z ->
      exists tok : string,
        In (Auth.TokenCall idt (inl tok)) (fst (Auth.token c r w)))
  /\ (forall (pfx : string) (e : Go.error),
        In (Auth.HomeDirCall idt pfx (Some e)) (fst (Auth.token c r w)) ->
        Auth.response_status (fst (Auth.token c r w)) = Some 500%Z
        /\ Auth.response_body (fst (Auth.token c r w))
           = "Internal Server Error" ++ Go.LF
        /\ List.filter Auth.is_TokenCall (fst (Auth.token c r w)) = []).
Proof.
  intros Hauth. rewrite (token_authenticated c r w w1 idt Hauth).
  pose proof (create_homes_calls c idt (Auth.GetAllStorages c w1) w1) as Hcalls.
  pose proof (create_homes_failure c idt (Auth.GetAllStorages c w1) w1) as Hfail.
  pose proof (create_homes_completed c idt (Auth.GetAllStorages c w1) w1) as Hdone.
  destruct (Auth.create_homes c idt (Auth.GetAllStorages c w1) w1)
    as [[evs w2] [err|]]; cbn [fst snd] in *.
  - (* a creation failed *)
    assert (Hno : forall i res l,
               List.Forall (fun e => Auth.is_HomeDirCall e = true) l ->
               ~ In (Auth.TokenCall i res) l).
    { intros i res l Hl Hin. rewrite List.Forall_forall in Hl.
      specialize (Hl _ Hin). discriminate Hl. }
    split; [|split].
    + intros i res [Hhead|Hin]; [discriminate Hhead|].
      apply List.in_app_or in Hin. destruct Hin as [Hin|Hin].
      * exfalso. exact (Hno _ _ _ Hcalls Hin).
      * exfalso. cbn in Hin. intuition discriminate.
    + cbn [Auth.response_status].
      rewrite (response_status_after_calls evs _ Hcalls). cbn.
      intros Hst. discriminate Hst.
    + intros pfx e _. cbn [Auth.response_status Auth.response_body].
      rewrite (response_status_after_calls evs _ Hcalls).
      rewrite (response_body_after_calls evs _ Hcalls).
      split; [reflexivity|]. split; [reflexivity|].
      cbn [List.filter Auth.is_TokenCall]. rewrite List.filter_app.
      cbn. rewrite List.app_nil_r.
      clear -Hcalls. induction Hcalls as [|e evs He _ IH]; [reflexivity|].
      destruct e; try discriminate He. exact IH.
  - (* every creation succeeded *)
    specialize (Hdone w2 evs eq_refl).
    destruct (issue_token_events c idt w2) as (res0 & rest & Hev & Hrest & H201).
    rewrite Hev. rewrite List.Forall_forall in Hrest.
    split; [|split].
    + intros i res [Hhead|Hin]; [discriminate Hhead|].
      apply List.in_app_or in Hin. destruct Hin as [Hin|[Hin|Hin]].
      * exfalso. rewrite List.Forall_forall in Hcalls.
        specialize (Hcalls _ Hin). discriminate Hcalls.
      * injection Hin as <- <-.
        exists (Auth.AuthenticateCall (Auth.authtypeid_of r) :: evs), rest.
        split; [reflexivity|]. split; [reflexivity|]. split; [|split].
        -- intros s Hs Hcap. right. rewrite Hdone.
           apply (List.in_map (fun s => Auth.HomeDirCall idt (Auth.Prefix s) None)).
           apply List.filter_In. split; assumption.
        -- cbn [Auth.response_status].
           rewrite <- (List.app_nil_r evs).
           now rewrite (response_status_after_calls evs [] Hcalls).
        -- cbn [Auth.response_body].
           rewrite <- (List.app_nil_r evs).
           now rewrite (response_body_after_calls evs [] Hcalls).
      * exfalso. destruct (Hrest _ Hin) as [Ht _]. discriminate Ht.
    + cbn [Auth.response_status].
      rewrite (response_status_after_calls evs _ Hcalls).
      cbn [Auth.response_status]. intros Hst.
      destruct (H201 Hst) as [tok ->]. exists tok.
      right. apply List.in_or_app. right. left. reflexivity.
    + intros pfx e [Hhead|Hin]; [discriminate Hhead|].
      apply List.in_app_or in Hin. destruct Hin as [Hin|[Hin|Hin]].
      * specialize (Hfail pfx e Hin). discriminate Hfail.
      * discriminate Hin.
      * destruct (Hrest _ Hin) as [_ Hh]. discriminate Hh.
Qed.

(** The two outcomes of the token endpoint after a successful
    authentication, by the successive creations of the home directory. *)
Lemma token_outcome {W : Type} `{NetURL.Codec}
    (c : Auth.Pats W) (r : Auth.Request) (w w1 : W) (idt : Auth.Identity) :
  Auth.Authenticate c r (Auth.authtypeid_of r) w = (inl idt, w1) ->
  (exists w2 : W,
      creations c idt (capable_prefixes idt (Auth.GetAllStorages c w1)) w1
      = (w2, None)
      /\ In (Auth.TokenCall idt (fst (Auth.CreateToken c idt w2)))
            (fst (Auth.token c r w))
      /\ snd (Auth.token c r w) = snd (Auth.issue_token c idt w2))
  \/ (exists (w2 : W) (e : Go.error),
        creations c idt (capable_prefixes idt (Auth.GetAllStorages c w1)) w1
        = (w2, Some e)
        /\ snd (Auth.token c r w) = w2
        /\ Auth.response_status (fst (Auth.token c r w)) = Some 500%Z
        /\ List.filter Auth.is_TokenCall (fst (Auth.token c r w)) = []).
Proof.
  intros Hauth. rewrite (token_authenticated c r w w1 idt Hauth).
  rewrite (token_authenticated_state c r w w1 idt Hauth).
  pose proof (create_homes_calls c idt (Auth.GetAllStorages c w1) w1) as Hcalls.
  pose proof (create_homes_creations c idt (Auth.GetAllStorages c w1) w1) as Hcre.
  destruct (Auth.create_homes c idt (Auth.GetAllStorages c w1) w1)
    as [[evs w2] [err|]]; cbn [fst snd] in *.
  - right. exists w2, err. split; [now rewrite <- Hcre|].
    split; [reflexivity|].
    cbn [Auth.response_status].
    rewrite (response_status_after_calls evs _ Hcalls).
    split; [reflexivity|].
    cbn [List.filter Auth.is_TokenCall]. rewrite List.filter_app.
    cbn. rewrite List.app_nil_r.
    clear -Hcalls. induction Hcalls as [|e evs He _ IH]; [reflexivity|].
    destruct e; try discriminate He. exact IH.
  - left. exists w2. split; [now rewrite <- Hcre|].
    destruct (issue_token_call c idt w2) as (rest & Hev & _).
    rewrite Hev. split; [|reflexivity].
    right. apply List.in_or_app. right. left. reflexivity.
Qed.

(** C4: after a successful authentication the home directory of the
    identity is created, storage after storage, in every registered
    storage that advertises home-directory creation, each creation on
    the state the one before it left, and the token is created on the
    state the last of them left: either every creation succeeds, and
    then the token is created for the identity on that state, or one
    fails, and then the request ends in the state that creation left
    with status 500 and no token is created. Every token call is the
    one on that state; it is preceded by a successful creation in every
    such storage, and nothing has been written to the response before
    it. A response with status 201 is only written after such a token
    call. When a creation fails the response is 500 Internal Server
    Error, no token is created, and the request ends in the state the
    failed creation left. *)
Theorem C4_home_directories_before_token {W : Type} `{NetURL.Codec}
    (c : Auth.Pats W) (r : Auth.Request) (w w1 : W) (idt : Auth.Identity) :
  Auth.Authenticate c r (Auth.authtypeid_of r) w = (inl idt, w1) ->
  ((exists w2 : W,
       creations c idt (capable_prefixes idt (Auth.GetAllStorages c w1)) w1
       = (w2, None)
       /\ In (Auth.TokenCall idt (fst (Auth.CreateToken c idt w2)))
             (fst (Auth.token c r w))
       /\ snd (Auth.token c r w) = snd (Auth.issue_token c idt w2))
   \/ (exists (w2 : W) (e : Go.error),
         creations c idt (capable_prefixes idt (Auth.GetAllStorages c w1)) w1
         = (w2, Some e)
         /\ snd (Auth.token c r w) = w2
         /\ Auth.response_status (fst (Auth.token c r w)) = Some 500%Z
         /\ List.filter Auth.is_TokenCall (fst (Auth.token c r w)) = []))
  /\ (forall (i : Auth.Identity) (res : string + Go.error),
        In (Auth.TokenCall i res) (fst (Auth.token c r w)) ->
        exists (pre post : list Auth.Event) (w2 : W),
          fst (Auth.token c r w) = (pre ++ Auth.TokenCall i res :: post)%list
          /\ i = idt
          /\ (forall s : Auth.Storage,
                In s (Auth.GetAllStorages c w1) ->
                Auth.capable idt s = true ->
                In (Auth.HomeDirCall idt (Auth.Prefix s) None) pre)
          /\ Auth.response_status pre = None
          /\ Auth.response_body pre = ""
          /\ creations c idt
               (capable_prefixes idt (Auth.GetAllStorages c w1)) w1
             = (w2, None)
          /\ res = fst (Auth.CreateToken c idt w2)
          /\ snd (Auth.token c r w) = snd (Auth.issue_token c idt w2))
  /\ (Auth.response_status (fst (Auth.token c r w)) = Some 201%Z ->
      exists tok : string,
        In (Auth.TokenCall idt (inl tok)) (fst (Auth.token c r w)))
  /\ (forall (pfx : string) (e : Go.error),
        In (Auth.HomeDirCall idt pfx (Some e)) (fst (Auth.token c r w)) ->
        Auth.response_status (fst (Auth.token c r w)) = Some 500%Z
        /\ Auth.response_body (fst (Auth.token c r w))
           = "Internal Server Error" ++ Go.LF
        /\ List.filter Auth.is_TokenCall (fst (Auth.token c r w)) = []
        /\ exists w2 : W,
             creations c idt
               (capable_prefixes idt (Auth.GetAllStorages c w1)) w1
             = (w2, Some e)
             /\ snd (Auth.token c r w) = w2).
Proof.
  intros Hauth.
  destruct (token_call_order c r w w1 idt Hauth) as (Hbefore & H201 & Hfailed).
  destruct (token_state_threading c r w w1 idt Hauth) as (Hon & Hleft).
  split; [exact (token_outcome c r w w1 idt Hauth)|].
  split; [|split; [exact H201|]].
  - intros i res Hin.
    destruct (Hbefore i res Hin) as (pre & post & Heq & Hi & Hhomes & Hst & Hbd).
    destruct (Hon i res Hin) as (w2 & Hcre & Hres & Hend).
    exists pre, post, w2. repeat (split; [assumption|]). assumption.
  - intros pfx e Hin.
    destruct (Hfailed pfx e Hin) as (Hst & Hbd & Hno).
    destruct (Hleft pfx e Hin) as (w2 & Hcre & Hend).
    repeat (split; [assumption|]). exists w2. split; assumption.
Qed.

Lemma C4_home_directories_before_token_witness :
  (exists pre post : list Auth.Event,
      fst (@Auth.token (list string) NetURL.plain_codec
             (example_home_pats example_storages [])
             example_token_request [])
      = (pre ++ Auth.TokenCall alice
                  (inl "token-of-alice:local/alice,eos/alice") :: post)%list
      /\ In (Auth.HomeDirCall alice "local" None) pre
      /\ In (Auth.HomeDirCall alice "eos" None) pre)
  /\ snd (@Auth.token (list string) NetURL.plain_codec
            (example_home_pats example_storages [])
            example_token_request [])
     = ["local/alice"; "eos/alice"]
  /\ Auth.response_status
       (fst (@Auth.token (list string) NetURL.plain_codec
               (example_home_pats example_storages ["eos"])
               example_token_request []))
     = Some 500%Z
  /\ snd (@Auth.token (list string) NetURL.plain_codec
            (example_home_pats example_storages ["eos"])
            example_token_request [])
     = ["local/alice"].
Proof.
  split; [|split].
  - destruct (@C4_home_directories_before_token (list string)
                NetURL.plain_codec
                (example_home_pats example_storages [])
                example_token_request [] [] alice eq_refl)
      as (_ & Hbefore & _ & _).
    destruct (Hbefore alice (inl "token-of-alice:local/alice,eos/alice"))
      as (pre & post & w2 & Heq & _ & Hhomes & _).
    { vm_compute. do 3 right. left. reflexivity. }
    exists pre, post. split; [exact Heq|]. split.
    + apply (Hhomes (example_storage "local" true)); [left|]; reflexivity.
    + apply (Hhomes (example_storage "eos" true));
        [right; right; left|]; reflexivity.
  - destruct (@C4_home_directories_before_token (list string)
                NetURL.plain_codec
                (example_home_pats example_storages [])
                example_token_request [] [] alice eq_refl)
      as ([(w2 & Hcre & _ & Hend) | (w2 & e & Hcre & _)] & _).
    + rewrite Hend. vm_compute in Hcre. injection Hcre as <-.
      vm_compute. reflexivity.
    + vm_compute in Hcre. discriminate Hcre.
  - destruct (@C4_home_directories_before_token (list string)
                NetURL.plain_codec
                (example_home_pats example_storages ["eos"])
                example_token_request [] [] alice eq_refl)
      as (_ & _ & _ & Hfailed).
    destruct (Hfailed "eos" (Go.errors_New "mkdir: permission denied"))
      as (Hstatus & _ & _ & w2 & Hcre & Hend).
    { vm_compute. do 2 right. left. reflexivity. }
    split; [exact Hstatus|].
    rewrite Hend. vm_compute in Hcre. injection Hcre as <-. reflexivity.
Defined.

Example token_issued :
  fst (@Auth.token unit NetURL.plain_codec
         (example_pats (inl alice) example_storages [])
         example_token_request tt)
  = [ Auth.AuthenticateCall "basic";
      Auth.HomeDirCall alice "local" None;
      Auth.HomeDirCall alice "eos" None;
      Auth.TokenCall alice (inl "token-of-alice");
      Auth.HeaderAdd "Content-Type" "application/json";
      Auth.WriteHeader 201%Z;
      Auth.Write "authtoken=token-of-alice" ].
Proof. vm_compute. reflexivity. Qed.

Example token_refused_after_failed_home :
  fst (@Auth.token unit NetURL.plain_codec
         (example_pats (inl alice) example_storages ["local"])
         example_token_request tt)
  = [ Auth.AuthenticateCall "basic";
      Auth.HomeDirCall alice "local"
        (Some (Go.errors_New "mkdir: permission denied"));
      Auth.LogErr "token: creation of user home failed because err:mkdir: permission denied";
      Auth.HeaderSet "Content-Type" "text/plain; charset=utf-8";
      Auth.HeaderSet "X-Content-Type-Options" "nosniff";
      Auth.WriteHeader 500%Z;
      Auth.Write ("Internal Server Error" ++ Go.LF) ].
Proof. vm_compute. reflexivity. Qed.

(* ===================================================================== *)
(** * Part III: further properties of the code                            *)
(* ===================================================================== *)

(** ** Service selection *)

Lemma find_isServiceEnabled (name : string) (names : list string) :
  MainWiring.find name names = ServerRouting.isServiceEnabled name names.
Proof.
  induction names as [|b rest IH]; [reflexivity|]. cbn. now rewrite IH.
Qed.

Lemma isServiceEnabled_In (name : string) (names : list string) :
  ServerRouting.isServiceEnabled name names = true <-> In name names.
Proof.
  induction names as [|b rest IH]; cbn.
  - split; [intros Hf; discriminate Hf | intros []].
  - destruct (String.eqb_spec b name) as [->|Hne].
    + split; [intros _; now left | reflexivity].
    + rewrite IH. split; [intros Hin; now right|].
      intros [Heq|Hin]; [contradiction | exact Hin].
Qed.

(** X1: isServiceEnabled of package server and find of package main are
    the same test: each answers true exactly when the name is an element
    of the list. *)
Theorem X1_enabled_iff_member (name : string) (names : list string) :
  (ServerRouting.isServiceEnabled name names = true <-> In name names)
  /\ (MainWiring.find name names = true <-> In name names)
  /\ MainWiring.find name names = ServerRouting.isServiceEnabled name names.
Proof.
  split; [apply isServiceEnabled_In|]. split; [|apply find_isServiceEnabled].
  rewrite find_isServiceEnabled. apply isServiceEnabled_In.
Qed.

Lemma getServices_enable_each (pk : ServerRouting.ServicePackages)
    (conf : ServerRouting.Directives) :
  ServerRouting.getServices pk conf = enable_each (service_table pk) conf [].
Proof. reflexivity. Qed.

Lemma enable_each_success table conf :
  (forall e, In e table -> entry_enabled conf e = true ->
             exists svc, snd e conf = inl svc) ->
  forall acc,
    enable_each table conf acc
    = ((acc ++ flat_map (built conf) table)%list, None).
Proof.
  induction table as [|[name new] rest IH]; intros Hok acc; cbn [enable_each].
  - cbn. now rewrite List.app_nil_r.
  - unfold ServerRouting.enable. cbn [flat_map]. unfold built at 1.
    unfold entry_enabled in *. cbn [fst snd] in *.
    destruct (ServerRouting.isServiceEnabled name _) eqn:Hen.
    + destruct (Hok (name, new) (or_introl eq_refl) Hen) as [svc Hsvc].
      cbn [snd] in Hsvc. rewrite Hsvc.
      rewrite IH by (intros e He; apply Hok; now right).
      now rewrite <- List.app_assoc.
    + apply IH. intros e He; apply Hok; now right.
Qed.

Lemma enable_each_failure table conf :
  forall acc svcs err,
    enable_each table conf acc = (svcs, Some err) ->
    exists pre e post,
      table = (pre ++ e :: post)%list
      /\ entry_enabled conf e = true
      /\ snd e conf = inr err
      /\ (forall e', In e' pre -> entry_enabled conf e' = true ->
                     exists svc, snd e' conf = inl svc)
      /\ svcs = (acc ++ flat_map (built conf) pre)%list.
Proof.
  induction table as [|[name new] rest IH]; intros acc svcs err; cbn [enable_each].
  - intros Hr. discriminate Hr.
  - unfold ServerRouting.enable.
    destruct (ServerRouting.isServiceEnabled name _) eqn:Hen.
    + destruct (new conf) as [svc|e0] eqn:Hnew.
      * intros Hr. destruct (IH _ _ _ Hr) as (pre & e & post & -> & He & Herr & Hpre & ->).
        exists ((name, new) :: pre), e, post.
        split; [reflexivity|]. split; [exact He|]. split; [exact Herr|]. split.
        -- intros e' [<-|Hin] Hen'; [exists svc; exact Hnew | now apply Hpre].
        -- cbn [flat_map]. unfold built at 2, entry_enabled. cbn [fst snd].
           rewrite Hen, Hnew. now rewrite <- List.app_assoc.
      * intros [= <- <-]. exists [], (name, new), rest.
        split; [reflexivity|]. split; [exact Hen|]. split; [exact Hnew|].
        split; [intros e' []|]. cbn. now rewrite List.app_nil_r.
    + intros Hr. destruct (IH _ _ _ Hr) as (pre & e & post & -> & He & Herr & Hpre & ->).
      exists ((name, new) :: pre), e, post.
      split; [reflexivity|]. split; [exact He|]. split; [exact Herr|]. split.
      * intros e' [<-|Hin] Hen'; [|now apply Hpre].
        unfold entry_enabled in Hen'. cbn [fst] in Hen'. congruence.
      * cbn [flat_map]. unfold built at 2, entry_enabled. cbn [fst].
        now rewrite Hen.
Qed.

(** X2: when the constructor of every enabled service succeeds,
    getServices returns, without error, the services of the enabled names
    among authentication, metadata, data, webdav and ocwebdav in exactly
    this order, whatever the order, repetitions or other names in the
    configured list; with none of the five enabled it returns no service
    and no error. *)
Theorem X2_getServices_fixed_order (pk : ServerRouting.ServicePackages)
    (conf : ServerRouting.Directives) :
  (forall e, In e (service_table pk) -> entry_enabled conf e = true ->
             exists svc, snd e conf = inl svc) ->
  ServerRouting.getServices pk conf
  = (flat_map (built conf) (service_table pk), None)
  /\ ((forall e, In e (service_table pk) -> entry_enabled conf e = false) ->
      ServerRouting.getServices pk conf = ([], None)).
Proof.
  intros Hok. rewrite getServices_enable_each.
  rewrite (enable_each_success _ conf Hok []). split; [reflexivity|].
  intros Hnone. f_equal. cbn [List.app].
  assert (Hall : forall table,
             (forall e, In e table -> entry_enabled conf e = false) ->
             flat_map (built conf) table = []).
  { induction table as [|e rest IH]; intros Hoff; [reflexivity|].
    cbn [flat_map]. unfold built at 1.
    rewrite (Hoff e (or_introl eq_refl)). apply IH.
    intros e' He'. apply Hoff. now right. }
  now apply Hall.
Qed.

(** X3: when getServices returns an error, it is the error of the
    constructor of an enabled service, every enabled service before it in
    the fixed order was constructed, and exactly those are returned next to
    the error; the services after it are not consulted. *)
Theorem X3_getServices_first_failure (pk : ServerRouting.ServicePackages)
    (conf : ServerRouting.Directives) (svcs : list ServerRouting.Service)
    (err : Go.error) :
  ServerRouting.getServices pk conf = (svcs, Some err) ->
  exists pre e post,
    service_table pk = (pre ++ e :: post)%list
    /\ entry_enabled conf e = true
    /\ snd e conf = inr err
    /\ (forall e', In e' pre -> entry_enabled conf e' = true ->
                   exists svc, snd e' conf = inl svc)
    /\ svcs = flat_map (built conf) pre.
Proof.
  rewrite getServices_enable_each. intros Hr.
  destruct (enable_each_failure _ _ _ _ _ Hr)
    as (pre & e & post & Ht & He & Herr & Hpre & Hs).
  exists pre, e, post. repeat (split; [assumption|]). exact Hs.
Qed.

(** ** Routes *)






(** ** Trailing slashes *)

Lemma TrimRight_replicate (n : nat) (c : ascii) :
  GoStrings.TrimRight (GoStrings.replicate_byte n c) (String c "") = "".
Proof.
  induction n as [|n IH]; [reflexivity|]. cbn. rewrite IH.
  cbn. now rewrite Ascii.eqb_refl.
Qed.

Lemma TrimRight_app_replicate (s : string) (n : nat) (c : ascii) :
  GoStrings.TrimRight (s ++ GoStrings.replicate_byte n c) (String c "")
  = GoStrings.TrimRight s (String c "").
Proof.
  induction s as [|a s IH].
  - simpl. apply TrimRight_replicate.
  - simpl. now rewrite IH.
Qed.

Lemma TrimRight_no_trailing (cutset : string) (s : string) :
  forall (t : string) (c : ascii),
    GoStrings.TrimRight s cutset = t ++ String c "" ->
    GoStrings.in_cutset c cutset = false.
Proof.
  induction s as [|a s IH]; intros t c; cbn [GoStrings.TrimRight].
  - destruct t; intros Heq; discriminate Heq.
  - destruct (String.eqb_spec (GoStrings.TrimRight s cutset) "") as [He|Hne].
    + rewrite He. cbn [andb].
      destruct (GoStrings.in_cutset a cutset) eqn:Ha.
      * destruct t; intros Heq; discriminate Heq.
      * destruct t as [|b t]; cbn [append].
        -- intros [= ->]. exact Ha.
        -- intros [= _ Heq]. destruct t; discriminate Heq.
    + cbn [andb]. destruct t as [|b t]; cbn [append].
      * intros [= _ Heq]. contradiction.
      * intros [= _ Heq]. now apply (IH t c).
Qed.

(** X5: the routes and log records of an endpoint do not depend on
    trailing slashes of the configured base URL or of the service's base
    URL: any number of them is cut, and the two cut prefixes of the route
    path never end in a slash. *)
Theorem X5_trailing_slashes_ignored (conf : ServerRouting.Directives)
    (svc : ServerRouting.Service) (path : string)
    (mh : string * Server.Handler) (n m : nat) :
  ServerRouting.register
    (with_BaseURL conf
       (ServerRouting.BaseURL conf ++ GoStrings.replicate_byte n "/"))
    (with_SvcBaseURL svc
       (ServerRouting.SvcBaseURL svc ++ GoStrings.replicate_byte m "/"))
    path mh
  = ServerRouting.register conf svc path mh
  /\ (forall t : string,
        GoStrings.TrimRight (ServerRouting.BaseURL conf) "/" <> t ++ "/")
  /\ (forall t : string,
        GoStrings.TrimRight (ServerRouting.SvcBaseURL svc) "/" <> t ++ "/").
Proof.
  split; [|split].
  - unfold ServerRouting.register, ServerRouting.corsHandler.
    cbn [with_BaseURL with_SvcBaseURL ServerRouting.BaseURL
         ServerRouting.SvcBaseURL ServerRouting.Name
         ServerRouting.CORSEnabledServices
         ServerRouting.CORSAccessControlAllowOrigin
         ServerRouting.CORSAccessControlAllowMethods
         ServerRouting.CORSAccessControlAllowHeaders].
    now rewrite !TrimRight_app_replicate.
  - intros t Heq. apply TrimRight_no_trailing in Heq. discriminate Heq.
  - intros t Heq. apply TrimRight_no_trailing in Heq. discriminate Heq.
Qed.

(** ** The configuration source *)

Lemma strings_Split_cons (s : string) (sep : ascii) :
  exists h t, Go.strings_Split s sep = h :: t.
Proof.
  induction s as [|c s (h & t & IH)]; cbn -[Ascii.eqb].
  - eauto.
  - destruct (Ascii.eqb c sep); [eauto|]. rewrite IH. eauto.
Qed.

Lemma strings_Split_absent (s : string) (sep : ascii) :
  GoStrings.contains_byte sep s = false -> Go.strings_Split s sep = [s].
Proof.
  induction s as [|c s IH]; cbn -[Ascii.eqb]; [reflexivity|].
  destruct (Ascii.eqb c sep); cbn -[Ascii.eqb]; [intros Hf; discriminate Hf|].
  intros Hs. now rewrite (IH Hs).
Qed.

Lemma strings_Split_first (a b : string) (sep : ascii) :
  GoStrings.contains_byte sep a = false ->
  Go.strings_Split (a ++ String sep b) sep = a :: Go.strings_Split b sep.
Proof.
  induction a as [|c a IH].
  - intros _. change ("" ++ String sep b) with (String sep b).
    cbn -[Ascii.eqb]. now rewrite Ascii.eqb_refl.
  - change (String c a ++ String sep b) with (String c (a ++ String sep b)).
    cbn -[Ascii.eqb].
    destruct (Ascii.eqb c sep); cbn -[Ascii.eqb]; [intros Hf; discriminate Hf|].
    intros Ha. now rewrite (IH Ha).
Qed.

(** X6: getConfigurationSource never reports an empty source: it either
    hands some path to the file configuration source or reports an unknown
    protocol.  A source without a colon is taken whole as the file path; in
    protocol:path the protocol must be file, and of the path only the part
    before a second colon is used. *)
Theorem X6_getConfigurationSource {DD MD WS CS : Type}
    (pk : MainWiring.WebPackages DD MD WS CS) :
  (forall source : string,
      (exists specific,
          MainWiring.getConfigurationSource pk source
          = MainWiring.fileconfigurationsource_New pk specific)
      \/ MainWiring.getConfigurationSource pk source
         = (None, Some (Go.errors_New "configuration protocol does not exist")))
  /\ (forall source : string,
        GoStrings.contains_byte ":" source = false ->
        MainWiring.getConfigurationSource pk source
        = MainWiring.fileconfigurationsource_New pk source)
  /\ (forall protocol specific : string,
        GoStrings.contains_byte ":" protocol = false ->
        GoStrings.contains_byte ":" specific = false ->
        MainWiring.getConfigurationSource pk (protocol ++ ":" ++ specific)
        = (if String.eqb protocol "file"
           then MainWiring.fileconfigurationsource_New pk specific
           else (None, Some (Go.errors_New
                               "configuration protocol does not exist")))
        /\ forall rest : string,
             MainWiring.getConfigurationSource pk
               (protocol ++ ":" ++ specific ++ ":" ++ rest)
             = MainWiring.getConfigurationSource pk
                 (protocol ++ ":" ++ specific)).
Proof.
  split; [|split].
  - intros source. unfold MainWiring.getConfigurationSource.
    destruct (strings_Split_cons source ":") as (h & t & ->).
    cbn [List.length Nat.eqb].
    destruct t as [|h2 t]; cbn [List.length Nat.leb List.nth].
    + rewrite String.eqb_refl. left. eauto.
    + destruct (String.eqb h "file"); [left; eauto | now right].
  - intros source Hs. unfold MainWiring.getConfigurationSource.
    rewrite (strings_Split_absent _ _ Hs). cbn [List.length Nat.eqb Nat.leb List.nth].
    now rewrite String.eqb_refl.
  - intros protocol specific Hp Hs.
    assert (Hone : MainWiring.getConfigurationSource pk (protocol ++ ":" ++ specific)
                   = (if String.eqb protocol "file"
                      then MainWiring.fileconfigurationsource_New pk specific
                      else (None, Some (Go.errors_New
                                          "configuration protocol does not exist")))).
    { unfold MainWiring.getConfigurationSource.
      change (protocol ++ ":" ++ specific)
        with (protocol ++ String ":"%char specific).
      rewrite (strings_Split_first _ _ _ Hp), (strings_Split_absent _ _ Hs).
      reflexivity. }
    split; [exact Hone|]. intros rest. rewrite Hone.
    unfold MainWiring.getConfigurationSource.
    change (protocol ++ ":" ++ specific ++ ":" ++ rest)
      with (protocol ++ String ":"%char (specific ++ String ":"%char rest)).
    rewrite (strings_Split_first _ _ _ Hp), (strings_Split_first _ _ _ Hs).
    destruct (strings_Split_cons rest ":") as (h & t & ->).
    reflexivity.
Qed.

(** ** Loggers and drivers *)

(** X7: when os.Hostname fails, that error is what every constructor
    that needs a logger returns: the data, metadata and token drivers
    under their known names and all four web services in their local and
    remote variants; none of them constructs anything. *)
Theorem X7_hostname_failure_propagates {DD MD WS CS : Type}
    (pk : MainWiring.WebPackages DD MD WS CS) (s : MainWiring.Settings)
    (err : Go.error) :
  (Main.getLogger (inr err) (MainWiring.config s) = inr err)
  /\ (Main.GetDataDriver (MainWiring.config s) = "fsdatadriver"
      \/ Main.GetDataDriver (MainWiring.config s) = "ocfsdatadriver" ->
      Main.getDataDriver (MainWiring.drivers pk) (inr err) (MainWiring.config s)
      = (None, Some err))
  /\ (Main.GetMetaDataDriver (MainWiring.config s) = "fsmdatadriver"
      \/ Main.GetMetaDataDriver (MainWiring.config s) = "ocfsmdatadriver" ->
      Main.getMetaDataDriver (MainWiring.drivers pk) (inr err) (MainWiring.config s)
      = (None, Some err))
  /\ (MainWiring.GetTokenDriver s = "jwttokendriver" ->
      MainWiring.getTokenDriver (inr err) s = (None, Some err))
  /\ (MainWiring.GetAuthenticationWebService s = "local"
      \/ MainWiring.GetAuthenticationWebService s = "remote" ->
      MainWiring.getAuthenticationWebService pk (inr err) s = (None, Some err))
  /\ (MainWiring.GetDataWebService s = "local"
      \/ MainWiring.GetDataWebService s = "remote" ->
      MainWiring.getDataWebService pk (inr err) s = (None, Some err))
  /\ (MainWiring.GetMetaDataWebService s = "local"
      \/ MainWiring.GetMetaDataWebService s = "remote" ->
      MainWiring.getMetaDataWebService pk (inr err) s = (None, Some err))
  /\ (MainWiring.GetOCWebService s = "local"
      \/ MainWiring.GetOCWebService s = "remote" ->
      MainWiring.getOCWebService pk (inr err) s = (None, Some err))
  /\ MainWiring.getLoggerMiddleware (inr err) s = (None, Some err)
  /\ MainWiring.getCORSMiddleware (inr err) s = (None, Some err).
Proof.
  split; [reflexivity|].
  unfold Main.getDataDriver, Main.getMetaDataDriver, MainWiring.getTokenDriver,
    MainWiring.getAuthenticationWebService, MainWiring.getDataWebService,
    MainWiring.getMetaDataWebService, MainWiring.getOCWebService.
  repeat split; try reflexivity.
  all: intros H; try destruct H as [H|H]; rewrite H; reflexivity.
Qed.

(** X8: under "ocfsdatadriver" the data driver is built on top of the
    configured metadata driver: an error of getMetaDataDriver, such as an
    unknown metadata-driver name, is the error of getDataDriver; otherwise
    the driver is built from the logger, the metadata driver and the
    ocfs data folder, which is passed for the data folder and for the
    temporary folder alike. *)
Theorem X8_ocfs_data_driver_needs_metadata_driver {DD MD : Type}
    (pk : Main.Packages DD MD) (hostname : string + Go.error)
    (config : Main.Configuration) (logger : Main.Levels) :
  Main.GetDataDriver config = "ocfsdatadriver" ->
  Main.getLogger hostname config = inl logger ->
  (forall (md : option MD) (e : Go.error),
      Main.getMetaDataDriver pk hostname config = (md, Some e) ->
      Main.getDataDriver pk hostname config = (None, Some e))
  /\ (Main.GetMetaDataDriver config <> "fsmdatadriver" ->
      Main.GetMetaDataDriver config <> "ocfsmdatadriver" ->
      Main.getDataDriver pk hostname config
      = (None, Some (Go.errors_New "configured metadata driver does not exist")))
  /\ (forall md : option MD,
        Main.getMetaDataDriver pk hostname config = (md, None) ->
        Main.getDataDriver pk hostname config
        = Main.ocfsdatadriver_New pk logger
            (Main.GetOCFSDataDriverDataFolder config)
            (Main.GetOCFSDataDriverDataFolder config)
            (Main.GetOCFSDataDriverChecksum config)
            (Main.GetOCFSDataDriverVerifyClientChecksum config)
            md).
Proof.
  intros Hname Hlog.
  assert (Hdd : Main.getDataDriver pk hostname config
                = match Main.getMetaDataDriver pk hostname config with
                  | (_, Some err) => (None, Some err)
                  | (md, None) =>
                      Main.ocfsdatadriver_New pk logger
                        (Main.GetOCFSDataDriverDataFolder config)
                        (Main.GetOCFSDataDriverDataFolder config)
                        (Main.GetOCFSDataDriverChecksum config)
                        (Main.GetOCFSDataDriverVerifyClientChecksum config)
                        md
                  end).
  { unfold Main.getDataDriver. rewrite Hname, Hlog. reflexivity. }
  rewrite Hdd. split; [|split].
  - intros md e ->. reflexivity.
  - intros H1 H2. unfold Main.getMetaDataDriver.
    destruct (String.eqb_spec (Main.GetMetaDataDriver config) "fsmdatadriver");
      [contradiction|].
    destruct (String.eqb_spec (Main.GetMetaDataDriver config) "ocfsmdatadriver");
      [contradiction|].
    reflexivity.
  - intros md ->. reflexivity.
Qed.

(** X9: getHTTPLogger never fails, and it chooses the destination of the
    HTTP access log by the application logger's output setting: under "1",
    "2" and the empty setting the access log goes to stdout, stderr and
    nowhere, whatever the access logger's own settings are; only under any
    other setting it goes to the access logger's file with the access
    logger's limits. *)
Theorem X9_getHTTPLogger_follows_app_logger (s : MainWiring.Settings) :
  snd (MainWiring.getHTTPLogger s) = None
  /\ (Main.GetAppLoggerOut (MainWiring.config s) = "1" ->
      fst (MainWiring.getHTTPLogger s) = Main.Stdout)
  /\ (Main.GetAppLoggerOut (MainWiring.config s) = "2" ->
      fst (MainWiring.getHTTPLogger s) = Main.Stderr)
  /\ (Main.GetAppLoggerOut (MainWiring.config s) = "" ->
      fst (MainWiring.getHTTPLogger s) = Main.Discard)
  /\ (Main.GetAppLoggerOut (MainWiring.config s) <> "1" ->
      Main.GetAppLoggerOut (MainWiring.config s) <> "2" ->
      Main.GetAppLoggerOut (MainWiring.config s) <> "" ->
      fst (MainWiring.getHTTPLogger s)
      = Main.Lumberjack (MainWiring.GetHTTPAccessLoggerOut s)
          (MainWiring.GetHTTPAccessLoggerMaxSize s)
          (MainWiring.GetHTTPAccessLoggerMaxAge s)
          (MainWiring.GetHTTPAccessLoggerMaxBackups s))
  /\ (forall s' : MainWiring.Settings,
        Main.GetAppLoggerOut (MainWiring.config s')
        = Main.GetAppLoggerOut (MainWiring.config s) ->
        (Main.GetAppLoggerOut (MainWiring.config s) = "1"
         \/ Main.GetAppLoggerOut (MainWiring.config s) = "2"
         \/ Main.GetAppLoggerOut (MainWiring.config s) = "") ->
        MainWiring.getHTTPLogger s' = MainWiring.getHTTPLogger s).
Proof.
  unfold MainWiring.getHTTPLogger. cbn [fst snd].
  split; [reflexivity|].
  split; [intros ->; reflexivity|].
  split; [intros ->; reflexivity|].
  split; [intros ->; reflexivity|].
  split.
  - intros H1 H2 H3.
    destruct (String.eqb_spec (Main.GetAppLoggerOut (MainWiring.config s)) "1");
      [contradiction|].
    destruct (String.eqb_spec (Main.GetAppLoggerOut (MainWiring.config s)) "2");
      [contradiction|].
    destruct (String.eqb_spec (Main.GetAppLoggerOut (MainWiring.config s)) "");
      [contradiction|].
    reflexivity.
  - intros s' Hsame Hstd. rewrite Hsame.
    destruct Hstd as [Hs|[Hs|Hs]]; rewrite Hs; reflexivity.
Qed.

(** ** Web services *)

Section WebServices.

Context {WS : Type}.
Implicit Types (table : list (string * (option WS * option Go.error))).

Lemma getWebServices_enable_each {DD MD CS : Type}
    (pk : MainWiring.WebPackages DD MD WS CS) (hostname : string + Go.error)
    (s : MainWiring.Settings) :
  MainWiring.getWebServices pk hostname s
  = enable_each_ws (web_service_table pk hostname s) (enabled_web_services s) ∅.
Proof. reflexivity. Qed.

Lemma enable_each_ws_success table enabled :
  (forall e, In e table -> MainWiring.find (fst e) enabled = true ->
             snd (snd e) = None) ->
  forall acc, exists m, enable_each_ws table enabled acc = (Some m, None).
Proof.
  induction table as [|[name [ws err]] rest IH]; intros Hok acc; cbn [enable_each_ws].
  - eauto.
  - unfold MainWiring.enable.
    destruct (MainWiring.find name enabled) eqn:Hen.
    + specialize (Hok _ (or_introl eq_refl) Hen) as Herr. cbn in Herr. subst err.
      apply IH. intros e He. apply Hok. now right.
    + apply IH. intros e He. apply Hok. now right.
Qed.

Lemma enable_each_ws_other table enabled :
  forall acc m,
    enable_each_ws table enabled acc = (Some m, None) ->
    forall name, ~ In name (List.map fst table) -> m !! name = acc !! name.
Proof.
  induction table as [|[n [ws err]] rest IH]; intros acc m; cbn [enable_each_ws].
  - intros [= <-]. reflexivity.
  - unfold MainWiring.enable. intros Hr name Hnot.
    cbn [List.map fst In] in Hnot.
    destruct (MainWiring.find n enabled).
    + destruct err as [e|]; [discriminate Hr|].
      rewrite (IH _ _ Hr name) by tauto.
      apply lookup_insert_ne. intros ->. tauto.
    + apply (IH _ _ Hr name). tauto.
Qed.

Lemma enable_each_ws_lookup table enabled :
  List.NoDup (List.map fst table) ->
  forall acc m,
    enable_each_ws table enabled acc = (Some m, None) ->
    forall name get,
      In (name, get) table ->
      m !! name = (if MainWiring.find name enabled then Some (fst get)
                   else acc !! name)
      /\ (MainWiring.find name enabled = true -> snd get = None).
Proof.
  induction table as [|[n [ws err]] rest IH]; intros Hnd acc m; cbn [enable_each_ws].
  - intros _ name get [].
  - cbn [List.map fst] in Hnd. apply List.NoDup_cons_iff in Hnd.
    destruct Hnd as [Hfresh Hnd].
    unfold MainWiring.enable. intros Hr name get [[= <- <-]|Hin].
    + destruct (MainWiring.find n enabled).
      * destruct err as [e|]; [discriminate Hr|].
        rewrite (enable_each_ws_other _ _ _ _ Hr n Hfresh).
        rewrite lookup_insert_eq. auto.
      * rewrite (enable_each_ws_other _ _ _ _ Hr n Hfresh).
        split; [reflexivity | intros Hf; discriminate Hf].
    + assert (Hne : n <> name).
      { intros ->. apply Hfresh.
        apply (List.in_map fst) in Hin. exact Hin. }
      destruct (MainWiring.find n enabled).
      * destruct err as [e|]; [discriminate Hr|].
        destruct (IH Hnd _ _ Hr name get Hin) as [Hl Hs].
        rewrite Hl, lookup_insert_ne by exact Hne. auto.
      * exact (IH Hnd _ _ Hr name get Hin).
Qed.

Lemma enable_each_ws_failure table enabled :
  forall acc r err,
    enable_each_ws table enabled acc = (r, Some err) ->
    r = None
    /\ exists pre e post,
         table = (pre ++ e :: post)%list
         /\ MainWiring.find (fst e) enabled = true
         /\ snd (snd e) = Some err
         /\ (forall e', In e' pre -> MainWiring.find (fst e') enabled = true ->
                        snd (snd e') = None).
Proof.
  induction table as [|[n [ws e0]] rest IH]; intros acc r err; cbn [enable_each_ws].
  - intros Hr. discriminate Hr.
  - unfold MainWiring.enable.
    destruct (MainWiring.find n enabled) eqn:Hen.
    + destruct e0 as [e0|].
      * intros [= <- <-]. split; [reflexivity|].
        exists [], (n, (ws, Some e0)), rest. repeat split; auto.
        intros e' [].
      * intros Hr. destruct (IH _ _ _ Hr) as (-> & pre & e & post & -> & He & Herr & Hpre).
        split; [reflexivity|].
        exists ((n, (ws, None)) :: pre), e, post. repeat split; auto.
        intros e' [<-|Hin] Hen'; [reflexivity | now apply Hpre].
    + intros Hr. destruct (IH _ _ _ Hr) as (-> & pre & e & post & -> & He & Herr & Hpre).
      split; [reflexivity|].
      exists ((n, (ws, e0)) :: pre), e, post. repeat split; auto.
      intros e' [<-|Hin] Hen'; [cbn in Hen'; congruence | now apply Hpre].
Qed.

End WebServices.

Lemma web_service_names {DD MD WS CS : Type}
    (pk : MainWiring.WebPackages DD MD WS CS) (hostname : string + Go.error)
    (s : MainWiring.Settings) :
  List.map fst (web_service_table pk hostname s)
  = ["authentication"; "data"; "metadata"; "owncloud"].
Proof. reflexivity. Qed.

Lemma web_service_names_NoDup :
  List.NoDup ["authentication"; "data"; "metadata"; "owncloud"].
Proof.
  repeat (apply List.NoDup_cons; [cbn; intuition discriminate|]).
  apply List.NoDup_nil.
Qed.

(** X10: when the getter of every enabled web service succeeds,
    getWebServices returns a map and no error; the map holds, under each
    of the names authentication, data, metadata and owncloud that occurs
    in the comma-separated list of enabled services, what that service's
    getter returned, and holds nothing else, so that other names in the
    list are ignored. *)
Theorem X10_getWebServices_map {DD MD WS CS : Type}
    (pk : MainWiring.WebPackages DD MD WS CS) (hostname : string + Go.error)
    (s : MainWiring.Settings) :
  (forall e, In e (web_service_table pk hostname s) ->
             MainWiring.find (fst e) (enabled_web_services s) = true ->
             snd (snd e) = None) ->
  exists m : gmap string (option WS),
    MainWiring.getWebServices pk hostname s = (Some m, None)
    /\ (forall name get,
          In (name, get) (web_service_table pk hostname s) ->
          m !! name = if MainWiring.find name (enabled_web_services s)
                      then Some (fst get) else None)
    /\ (forall name,
          ~ In name ["authentication"; "data"; "metadata"; "owncloud"] ->
          m !! name = None).
Proof.
  intros Hok. rewrite getWebServices_enable_each.
  destruct (enable_each_ws_success _ _ Hok ∅) as [m Hm].
  exists m. split; [exact Hm|]. split.
  - intros name get Hin.
    destruct (enable_each_ws_lookup _ _
                (eq_ind_r (@List.NoDup string) web_service_names_NoDup
                   (web_service_names pk hostname s))
                _ _ Hm name get Hin) as [Hl _].
    rewrite Hl. now rewrite lookup_empty.
  - intros name Hnot.
    rewrite (enable_each_ws_other _ _ _ _ Hm name) by exact Hnot.
    apply lookup_empty.
Qed.

(** X11: getWebServices returns a nil map exactly when it returns an
    error, and then the error is the one of the getter of an enabled web
    service such that the getters of all enabled services before it, in
    the order authentication, data, metadata, owncloud, succeeded. *)
Theorem X11_getWebServices_first_failure {DD MD WS CS : Type}
    (pk : MainWiring.WebPackages DD MD WS CS) (hostname : string + Go.error)
    (s : MainWiring.Settings) :
  (is_Some (fst (MainWiring.getWebServices pk hostname s))
   <-> snd (MainWiring.getWebServices pk hostname s) = None)
  /\ (forall r err,
        MainWiring.getWebServices pk hostname s = (r, Some err) ->
        r = None
        /\ exists pre e post,
             web_service_table pk hostname s = (pre ++ e :: post)%list
             /\ MainWiring.find (fst e) (enabled_web_services s) = true
             /\ snd (snd e) = Some err
             /\ (forall e', In e' pre ->
                   MainWiring.find (fst e') (enabled_web_services s) = true ->
                   snd (snd e') = None)).
Proof.
  rewrite getWebServices_enable_each. split.
  - destruct (enable_each_ws _ _ _) as [r [err|]] eqn:Hr.
    + destruct (enable_each_ws_failure _ _ _ _ _ Hr) as [-> _]. cbn.
      split; [intros [x Hx]; discriminate Hx | intros Hf; discriminate Hf].
    + cbn. split; [reflexivity|]. intros _.
      assert (Hok : forall e, In e (web_service_table pk hostname s) ->
                 MainWiring.find (fst e) (enabled_web_services s) = true ->
                 snd (snd e) = None).
      { intros [name get] Hin Hen.
        assert (Hsome : exists m, r = Some m).
        { clear Hin Hen. revert Hr.
          generalize (∅ : gmap string (option WS)).
          induction (web_service_table pk hostname s) as [|[n [ws e0]] rest IH];
            intros acc; cbn [enable_each_ws].
          - intros [= <-]. eauto.
          - unfold MainWiring.enable.
            destruct (MainWiring.find n _); [|apply IH].
            destruct e0; [intros Hd; discriminate Hd | apply IH]. }
        destruct Hsome as [m ->].
        exact (proj2 (enable_each_ws_lookup _ _
                 (eq_ind_r (@List.NoDup string) web_service_names_NoDup
                    (web_service_names pk hostname s))
                 _ _ Hr name get Hin) Hen). }
      destruct (enable_each_ws_success _ _ Hok ∅) as [m Hm].
      rewrite Hm in Hr. injection Hr as <-. eauto.
  - intros r err Hr. exact (enable_each_ws_failure _ _ _ _ _ Hr).
Qed.

(** ** What the local web services need *)

Lemma try_ok {A B : Type} (r : option A * option Go.error)
    (k : option A -> option B * option Go.error) :
  snd (MainWiring.try r k) = None ->
  snd r = None /\ snd (k (fst r)) = None.
Proof.
  destruct r as [x [e|]]; cbn; [intros Hd; discriminate Hd | auto].
Qed.

Lemma try_error {A B : Type} (r : option A * option Go.error)
    (k : option A -> option B * option Go.error) (e : Go.error) :
  snd r = Some e -> MainWiring.try r k = (None, Some e).
Proof. destruct r as [x [e'|]]; cbn; [intros [= ->]; reflexivity | discriminate]. Qed.

Lemma try_continue {A B : Type} (r : option A * option Go.error)
    (k : option A -> option B * option Go.error) :
  snd r = None -> MainWiring.try r k = k (fst r).
Proof. destruct r as [x [e'|]]; cbn; [discriminate | reflexivity]. Qed.

Lemma try_logger_ok {B : Type} (r : Main.Levels + Go.error)
    (k : Main.Levels -> option B * option Go.error) :
  snd (MainWiring.try_logger r k) = None ->
  exists logger, r = inl logger /\ snd (k logger) = None.
Proof.
  destruct r as [l|e]; cbn; [eauto | intros Hd; discriminate Hd].
Qed.

Lemma getUserDriver_ok (s : MainWiring.Settings) :
  snd (MainWiring.getUserDriver s) = None ->
  MainWiring.GetUserDriver s = "memuserdriver".
Proof.
  unfold MainWiring.getUserDriver.
  destruct (String.eqb_spec (MainWiring.GetUserDriver s) "memuserdriver");
    [auto | intros Hd; discriminate Hd].
Qed.

Lemma getTokenDriver_ok (hostname : string + Go.error) (s : MainWiring.Settings) :
  snd (MainWiring.getTokenDriver hostname s) = None ->
  MainWiring.GetTokenDriver s = "jwttokendriver"
  /\ exists logger, Main.getLogger hostname (MainWiring.config s) = inl logger.
Proof.
  unfold MainWiring.getTokenDriver.
  destruct (String.eqb_spec (MainWiring.GetTokenDriver s) "jwttokendriver");
    [|intros Hd; discriminate Hd].
  intros Hok. apply try_ok in Hok. destruct Hok as [_ Hok].
  apply try_logger_ok in Hok. destruct Hok as (logger & Hl & _). eauto.
Qed.

Lemma getMetaDataDriver_ok {DD MD : Type} (pk : Main.Packages DD MD)
    (hostname : string + Go.error) (config : Main.Configuration) :
  snd (Main.getMetaDataDriver pk hostname config) = None ->
  Main.GetMetaDataDriver config = "fsmdatadriver"
  \/ Main.GetMetaDataDriver config = "ocfsmdatadriver".
Proof.
  unfold Main.getMetaDataDriver.
  destruct (String.eqb_spec (Main.GetMetaDataDriver config) "fsmdatadriver");
    [auto|].
  destruct (String.eqb_spec (Main.GetMetaDataDriver config) "ocfsmdatadriver");
    [auto|].
  intros Hd. discriminate Hd.
Qed.

Lemma getDataDriver_ok {DD MD : Type} (pk : Main.Packages DD MD)
    (hostname : string + Go.error) (config : Main.Configuration) :
  snd (Main.getDataDriver pk hostname config) = None ->
  Main.GetDataDriver config = "fsdatadriver"
  \/ (Main.GetDataDriver config = "ocfsdatadriver"
      /\ (Main.GetMetaDataDriver config = "fsmdatadriver"
          \/ Main.GetMetaDataDriver config = "ocfsmdatadriver")).
Proof.
  unfold Main.getDataDriver.
  destruct (String.eqb_spec (Main.GetDataDriver config) "fsdatadriver");
    [auto|].
  destruct (String.eqb_spec (Main.GetDataDriver config) "ocfsdatadriver");
    [|intros Hd; discriminate Hd].
  destruct (Main.getLogger hostname config) as [logger|e0];
    [|intros Hd; discriminate Hd].
  destruct (Main.getMetaDataDriver pk hostname config) as [md [e1|]] eqn:Hmd;
    [intros Hd; discriminate Hd|].
  intros _. right. split; [assumption|].
  apply (getMetaDataDriver_ok pk hostname config). now rewrite Hmd.
Qed.

Lemma getAuthenticationMiddleware_ok (hostname : string + Go.error)
    (s : MainWiring.Settings) :
  snd (MainWiring.getAuthenticationMiddleware hostname s) = None ->
  MainWiring.GetTokenDriver s = "jwttokendriver".
Proof.
  unfold MainWiring.getAuthenticationMiddleware. intros Hok.
  apply try_ok in Hok. destruct Hok as [_ Hok].
  apply try_ok in Hok. destruct Hok as [Hok _].
  now apply getTokenDriver_ok in Hok.
Qed.

Lemma getBasicAuthMiddleware_ok (hostname : string + Go.error)
    (s : MainWiring.Settings) :
  snd (MainWiring.getBasicAuthMiddleware hostname s) = None ->
  MainWiring.GetTokenDriver s = "jwttokendriver"
  /\ MainWiring.GetUserDriver s = "memuserdriver".
Proof.
  unfold MainWiring.getBasicAuthMiddleware. intros Hok.
  apply try_ok in Hok. destruct Hok as [_ Hok].
  apply try_ok in Hok. destruct Hok as [Htok Hok].
  apply try_ok in Hok. destruct Hok as [Husr _].
  split; [now apply getTokenDriver_ok in Htok | now apply getUserDriver_ok].
Qed.

(** X12: a local web service is only returned without error when
    os.Hostname succeeded and every driver it is built from is configured
    under a known name: the authentication service needs the memory user
    driver and the JWT token driver; the data and metadata services need
    their driver and the JWT token driver; the ownCloud service needs the
    data driver, the metadata driver, the JWT token driver and the memory
    user driver. *)
Theorem X12_local_web_services_need_known_drivers {DD MD WS CS : Type}
    (pk : MainWiring.WebPackages DD MD WS CS) (hostname : string + Go.error)
    (s : MainWiring.Settings) :
  (MainWiring.GetAuthenticationWebService s = "local" ->
   snd (MainWiring.getAuthenticationWebService pk hostname s) = None ->
   (exists h, hostname = inl h)
   /\ MainWiring.GetUserDriver s = "memuserdriver"
   /\ MainWiring.GetTokenDriver s = "jwttokendriver")
  /\ (MainWiring.GetDataWebService s = "local" ->
      snd (MainWiring.getDataWebService pk hostname s) = None ->
      (exists h, hostname = inl h)
      /\ (Main.GetDataDriver (MainWiring.config s) = "fsdatadriver"
          \/ Main.GetDataDriver (MainWiring.config s) = "ocfsdatadriver")
      /\ MainWiring.GetTokenDriver s = "jwttokendriver")
  /\ (MainWiring.GetMetaDataWebService s = "local" ->
      snd (MainWiring.getMetaDataWebService pk hostname s) = None ->
      (exists h, hostname = inl h)
      /\ (Main.GetMetaDataDriver (MainWiring.config s) = "fsmdatadriver"
          \/ Main.GetMetaDataDriver (MainWiring.config s) = "ocfsmdatadriver")
      /\ MainWiring.GetTokenDriver s = "jwttokendriver")
  /\ (MainWiring.GetOCWebService s = "local" ->
      snd (MainWiring.getOCWebService pk hostname s) = None ->
      (exists h, hostname = inl h)
      /\ (Main.GetDataDriver (MainWiring.config s) = "fsdatadriver"
          \/ Main.GetDataDriver (MainWiring.config s) = "ocfsdatadriver")
      /\ (Main.GetMetaDataDriver (MainWiring.config s) = "fsmdatadriver"
          \/ Main.GetMetaDataDriver (MainWiring.config s) = "ocfsmdatadriver")
      /\ MainWiring.GetTokenDriver s = "jwttokendriver"
      /\ MainWiring.GetUserDriver s = "memuserdriver").
Proof.
  assert (Hhost : forall logger,
             Main.getLogger hostname (MainWiring.config s) = inl logger ->
             exists h, hostname = inl h).
  { intros logger. unfold Main.getLogger.
    destruct hostname as [h|e]; [eauto | intros Hd; discriminate Hd]. }
  split; [|split; [|split]].
  - intros Hlocal. unfold MainWiring.getAuthenticationWebService.
    rewrite Hlocal. cbn [String.eqb]. intros Hok.
    apply try_logger_ok in Hok. destruct Hok as (logger & Hl & Hok).
    apply try_ok in Hok. destruct Hok as [_ Hok].
    apply try_ok in Hok. destruct Hok as [Husr Hok].
    apply try_ok in Hok. destruct Hok as [Htok _].
    split; [eapply Hhost, Hl|].
    split; [now apply getUserDriver_ok | now apply getTokenDriver_ok in Htok].
  - intros Hlocal. unfold MainWiring.getDataWebService.
    rewrite Hlocal. cbn [String.eqb]. intros Hok.
    apply try_logger_ok in Hok. destruct Hok as (logger & Hl & Hok).
    apply try_ok in Hok. destruct Hok as [_ Hok].
    apply try_ok in Hok. destruct Hok as [Hdata Hok].
    apply try_ok in Hok. destruct Hok as [Hmw _].
    split; [eapply Hhost, Hl|]. split.
    + apply getDataDriver_ok in Hdata. tauto.
    + now apply getAuthenticationMiddleware_ok in Hmw.
  - intros Hlocal. unfold MainWiring.getMetaDataWebService.
    rewrite Hlocal. cbn [String.eqb]. intros Hok.
    apply try_logger_ok in Hok. destruct Hok as (logger & Hl & Hok).
    apply try_ok in Hok. destruct Hok as [_ Hok].
    apply try_ok in Hok. destruct Hok as [Hmeta Hok].
    apply try_ok in Hok. destruct Hok as [Hmw _].
    split; [eapply Hhost, Hl|]. split.
    + now apply getMetaDataDriver_ok in Hmeta.
    + now apply getAuthenticationMiddleware_ok in Hmw.
  - intros Hlocal. unfold MainWiring.getOCWebService.
    rewrite Hlocal. cbn [String.eqb]. intros Hok.
    apply try_logger_ok in Hok. destruct Hok as (logger & Hl & Hok).
    apply try_ok in Hok. destruct Hok as [_ Hok].
    apply try_ok in Hok. destruct Hok as [Hdata Hok].
    apply try_ok in Hok. destruct Hok as [Hmeta Hok].
    apply try_ok in Hok. destruct Hok as [_ Hok].
    apply try_ok in Hok. destruct Hok as [_ Hok].
    apply try_ok in Hok. destruct Hok as [Hbasic _].
    split; [eapply Hhost, Hl|]. split.
    + apply getDataDriver_ok in Hdata. tauto.
    + split; [now apply getMetaDataDriver_ok in Hmeta|].
      now apply getBasicAuthMiddleware_ok in Hbasic.
Qed.

(** X13: the local ownCloud web service reports the first error in the
    order data driver, metadata driver, token driver, user driver: an
    error of an earlier one hides the later ones. *)
Theorem X13_oc_web_service_error_order {DD MD WS CS : Type}
    (pk : MainWiring.WebPackages DD MD WS CS) (hostname : string + Go.error)
    (s : MainWiring.Settings) (logger : Main.Levels) :
  MainWiring.GetOCWebService s = "local" ->
  Main.getLogger hostname (MainWiring.config s) = inl logger ->
  (forall e,
      snd (Main.getDataDriver (MainWiring.drivers pk) hostname (MainWiring.config s))
      = Some e ->
      MainWiring.getOCWebService pk hostname s = (None, Some e))
  /\ (snd (Main.getDataDriver (MainWiring.drivers pk) hostname (MainWiring.config s))
      = None ->
      (forall e,
          snd (Main.getMetaDataDriver (MainWiring.drivers pk) hostname
                 (MainWiring.config s)) = Some e ->
          MainWiring.getOCWebService pk hostname s = (None, Some e))
      /\ (snd (Main.getMetaDataDriver (MainWiring.drivers pk) hostname
                 (MainWiring.config s)) = None ->
          (forall e,
              snd (MainWiring.getTokenDriver hostname s) = Some e ->
              MainWiring.getOCWebService pk hostname s = (None, Some e))
          /\ (snd (MainWiring.getTokenDriver hostname s) = None ->
              forall e,
                snd (MainWiring.getUserDriver s) = Some e ->
                MainWiring.getOCWebService pk hostname s = (None, Some e)))).
Proof.
  intros Hlocal Hlog. unfold MainWiring.getOCWebService.
  rewrite Hlocal, Hlog. cbn [String.eqb MainWiring.try_logger].
  rewrite (try_continue (MainWiring.getContextManager s)) by reflexivity.
  split.
  - intros e He. now apply try_error.
  - intros Hdata. rewrite (try_continue _ _ Hdata). split.
    + intros e He. now apply try_error.
    + intros Hmeta. rewrite (try_continue _ _ Hmeta).
      rewrite (try_continue (MainWiring.getWebErrorConverter s)) by reflexivity.
      rewrite (try_continue (MainWiring.getMimeGuesser s)) by reflexivity.
      unfold MainWiring.getBasicAuthMiddleware.
      rewrite (try_continue (MainWiring.getContextManager s)) by reflexivity.
      split.
      * intros e He. apply try_error.
        now rewrite (try_error _ _ _ He).
      * intros Htok e He. apply try_error.
        rewrite (try_continue _ _ Htok). now rewrite (try_error _ _ _ He).
Qed.

(** ** The token endpoint, further *)

Section TokenEndpointFurther.

Context {W : Type} `{NetURL.Codec} (c : Auth.Pats W).
Import Auth.

Lemma status_writes_after_calls (evs rest : list Event) :
  List.Forall (fun e => is_HomeDirCall e = true) evs ->
  List.filter is_status_write (evs ++ rest) = List.filter is_status_write rest.
Proof.
  induction 1 as [|e evs He _ IH]; [reflexivity|].
  destruct e; try discriminate He. exact IH.
Qed.

Lemma home_calls_app (l1 l2 : list Event) :
  home_calls (l1 ++ l2) = (home_calls l1 ++ home_calls l2)%list.
Proof.
  induction l1 as [|e l1 IH]; [reflexivity|].
  destruct e; cbn; rewrite ?IH; reflexivity.
Qed.

Lemma issue_token_cases (idt : Identity) (w : W) :
  (exists tok w1 js,
      CreateToken c idt w = (inl tok, w1)
      /\ json_MarshalIndent c [("authtoken", tok)] = inl js
      /\ issue_token c idt w
         = (([ TokenCall idt (inl tok);
               HeaderAdd "Content-Type" "application/json";
               WriteHeader 201%Z;
               Write js ]
             ++ match fst (ResponseWrite c js w1) with
                | Some e =>
                    [LogErr ("token: error sending reponse. err:" ++ Go.Error_ e)]
                | None => []
                end)%list,
            snd (ResponseWrite c js w1)))
  \/ (exists res w1 err,
        CreateToken c idt w = (res, w1)
        /\ (res = inr err
            \/ exists tok, res = inl tok
                 /\ json_MarshalIndent c [("authtoken", tok)] = inr err)
        /\ issue_token c idt w
           = ([ TokenCall idt res;
                LogErr (Go.Error_ err);
                HeaderSet "Content-Type" "text/plain; charset=utf-8";
                HeaderSet "X-Content-Type-Options" "nosniff";
                WriteHeader 500%Z;
                Write ("Internal Server Error" ++ Go.LF) ], w1)).
Proof.
  unfold issue_token.
  destruct (CreateToken c idt w) as [[tok|err] w1].
  - destruct (json_MarshalIndent c [("authtoken", tok)]) as [js|err] eqn:Hjs.
    + left. exists tok, w1, js. split; [reflexivity|]. split; [exact Hjs|].
      destruct (ResponseWrite c js w1) as [[e|] w2]; reflexivity.
    + right. exists (inl tok), w1, err. split; [reflexivity|].
      split; [right; eauto | reflexivity].
  - right. exists (inr err), w1, err. split; [reflexivity|].
    split; [now left | reflexivity].
Qed.

Lemma create_homes_prefix (idt : Identity) (ss : list Storage) :
  forall w : W,
    exists n,
      home_calls (fst (fst (create_homes c idt ss w)))
      = List.firstn n (capable_prefixes idt ss)
      /\ (snd (create_homes c idt ss w) = None ->
          home_calls (fst (fst (create_homes c idt ss w)))
          = capable_prefixes idt ss).
Proof.
  unfold capable_prefixes.
  induction ss as [|s ss IH]; intros w; cbn [create_homes List.filter].
  - exists 0. split; reflexivity.
  - change (capable idt s) with (CreateUserHomeDir (GetCapabilities s idt)).
    destruct (CreateUserHomeDir (GetCapabilities s idt)); [|apply IH].
    destruct (CreateUserHomeDirIn c idt (Prefix s) w) as [[e|] w1].
    + exists 1. cbn. split; [reflexivity|]. intros Hd. discriminate Hd.
    + destruct (IH w1) as (n & Hn & Hall).
      destruct (create_homes c idt ss w1) as [[evs w2] res].
      cbn [fst snd home_calls List.map] in *.
      exists (S n). cbn [List.firstn]. rewrite Hn. split; [reflexivity|].
      intros Hres. f_equal. rewrite <- Hn. exact (Hall Hres).
Qed.

End TokenEndpointFurther.


(** X14: the token endpoint writes the response status exactly once per
    request, and the status is 201, 400 or 500. *)
Theorem X14_token_one_status {W : Type} `{NetURL.Codec}
    (c : Auth.Pats W) (r : Auth.Request) (w : W) :
  List.length (List.filter is_status_write (fst (Auth.token c r w))) = 1
  /\ (Auth.response_status (fst (Auth.token c r w)) = Some 201%Z
      \/ Auth.response_status (fst (Auth.token c r w)) = Some 400%Z
      \/ Auth.response_status (fst (Auth.token c r w)) = Some 500%Z).
Proof.
  destruct (Auth.Authenticate c r (Auth.authtypeid_of r) w) as [[idt|err] w1] eqn:Hauth.
  - rewrite (token_authenticated c r w w1 idt Hauth).
    pose proof (create_homes_calls c idt (Auth.GetAllStorages c w1) w1) as Hcalls.
    destruct (Auth.create_homes c idt (Auth.GetAllStorages c w1) w1)
      as [[evs w2] [e|]]; cbn [fst snd] in *.
    + cbn [List.filter is_status_write Auth.response_status].
      rewrite (status_writes_after_calls evs _ Hcalls).
      rewrite (response_status_after_calls evs _ Hcalls). cbn. auto.
    + cbn [List.filter is_status_write Auth.response_status].
      rewrite (status_writes_after_calls evs _ Hcalls).
      rewrite (response_status_after_calls evs _ Hcalls).
      destruct (issue_token_cases c idt w2)
        as [(tok & w3 & js & _ & _ & ->)|(res & w3 & err & _ & _ & ->)];
        cbn [fst].
      * destruct (fst (Auth.ResponseWrite c js w3)); cbn; auto.
      * cbn. auto.
  - rewrite (token_authentication_failed c r w w1 err Hauth). cbn. auto.
Qed.



(** X17: when, after the home directories were created, the token cannot
    be created or cannot be encoded, the endpoint logs the error and
    answers 500 Internal Server Error; nothing is undone: every capable
    storage has been called and the state is the one token creation
    left. *)
Theorem X17_token_failure_keeps_homes {W : Type} `{NetURL.Codec}
    (c : Auth.Pats W) (r : Auth.Request) (w w1 w2 w3 : W)
    (idt : Auth.Identity) (evs : list Auth.Event)
    (res : string + Go.error) (err : Go.error) :
  Auth.Authenticate c r (Auth.authtypeid_of r) w = (inl idt, w1) ->
  Auth.create_homes c idt (Auth.GetAllStorages c w1) w1 = (evs, w2, None) ->
  Auth.CreateToken c idt w2 = (res, w3) ->
  (res = inr err
   \/ exists tok, res = inl tok
        /\ Auth.json_MarshalIndent c [("authtoken", tok)] = inr err) ->
  Auth.token c r w
  = ((Auth.AuthenticateCall (Auth.authtypeid_of r) :: evs
      ++ [ Auth.TokenCall idt res;
           Auth.LogErr (Go.Error_ err);
           Auth.HeaderSet "Content-Type" "text/plain; charset=utf-8";
           Auth.HeaderSet "X-Content-Type-Options" "nosniff";
           Auth.WriteHeader 500%Z;
           Auth.Write ("Internal Server Error" ++ Go.LF) ])%list, w3)
  /\ Auth.response_status (fst (Auth.token c r w)) = Some 500%Z
  /\ home_calls (fst (Auth.token c r w))
     = capable_prefixes idt (Auth.GetAllStorages c w1).
Proof.
  intros Hauth Hhomes Htok Hwhy.
  pose proof (create_homes_calls c idt (Auth.GetAllStorages c w1) w1) as Hcalls.
  destruct (create_homes_prefix c idt (Auth.GetAllStorages c w1) w1)
    as (n & _ & Hall).
  rewrite Hhomes in Hcalls, Hall. cbn [fst snd] in Hcalls, Hall.
  assert (Htoken : Auth.token c r w
                   = ((Auth.AuthenticateCall (Auth.authtypeid_of r) :: evs
                       ++ [ Auth.TokenCall idt res;
                            Auth.LogErr (Go.Error_ err);
                            Auth.HeaderSet "Content-Type" "text/plain; charset=utf-8";
                            Auth.HeaderSet "X-Content-Type-Options" "nosniff";
                            Auth.WriteHeader 500%Z;
                            Auth.Write ("Internal Server Error" ++ Go.LF) ])%list,
                      w3)).
  { unfold Auth.token. fold (Auth.authtypeid_of r). rewrite Hauth, Hhomes.
    unfold Auth.issue_token. rewrite Htok.
    destruct Hwhy as [->|(tok & -> & Hjs)]; [reflexivity|].
    rewrite Hjs. reflexivity. }
  rewrite Htoken. cbn [fst]. split; [reflexivity|]. split.
  - cbn [Auth.response_status].
    now rewrite (response_status_after_calls evs _ Hcalls).
  - cbn [home_calls]. rewrite home_calls_app. cbn [home_calls].
    rewrite List.app_nil_r. now apply Hall.
Qed.

(** ** The request wrapper, further *)

Section WrapperFurther.

Context `{NetURL.Codec}.
Import Logrus Server.

Lemma request_logger_other (s : Server) (tid k : string) :
  k <> "tid" -> Data (request_logger s tid) !! k = Data (log s) !! k.
Proof.
  intros Hk. unfold request_logger, WithFields. cbn [Data].
  rewrite lookup_union_r; [reflexivity|].
  apply lookup_singleton_ne. congruence.
Qed.

Lemma started_fields (cLog : Entry) (r : Request) :
  exists entry,
    started cLog r = Log InfoLevel entry "request started"
    /\ Data entry !! "method" = Some (Method r)
    /\ Data entry !! "uri" = Some (Helpers.SanitizeURL (URL r))
    /\ (forall k, k <> "method" -> k <> "uri" -> Data entry !! k = Data cLog !! k).
Proof.
  unfold started, WithFields. eexists. split; [reflexivity|]. cbn [Data].
  split; [|split].
  - apply lookup_union_Some_l. apply lookup_insert_eq.
  - apply lookup_union_Some_l.
    rewrite lookup_insert_ne by discriminate. apply lookup_singleton_eq.
  - intros k Hm Hu. rewrite lookup_union_r; [reflexivity|].
    rewrite lookup_insert_ne by congruence.
    apply lookup_singleton_ne. congruence.
Qed.

Lemma SanitizeURL_token_independent (u1 u2 : NetURL.URL) :
  NetURL.Get (NetURL.Query u1) "access_token" <> "" ->
  NetURL.Get (NetURL.Query u2) "access_token" <> "" ->
  NetURL.set_RawQuery u1 "" = NetURL.set_RawQuery u2 "" ->
  delete "access_token" (NetURL.Query u1)
    = delete "access_token" (NetURL.Query u2) ->
  Helpers.SanitizeURL (Some u1) = Helpers.SanitizeURL (Some u2).
Proof.
  intros H1 H2 Hrest Hoff.
  rewrite !SanitizeURL_redacts by assumption.
  unfold NetURL.Set_.
  rewrite <- (insert_delete_eq (NetURL.Query u1)).
  rewrite <- (insert_delete_eq (NetURL.Query u2)).
  rewrite Hoff. now rewrite (set_RawQuery_rest u1 u2 _ Hrest).
Qed.

End WrapperFurther.

(** X18: the events of the wrapper for a request are its own events
    before the router's, the router's, and its own events after them.
    Every record among its own (request started, request ended, the
    recovered panic) carries the request's correlation id under tid,
    replacing a tid field of the server's logger, and keeps every other
    field of the server's logger; the first event of all is the record
    request started, with the request's method and its sanitized URL. *)
Theorem X18_wrapper_logs_carry_tid `{NetURL.Codec}
    (s : Server.Server) (tid : string) (r : Server.Request) :
  exists pre post : list Server.Event,
    Server.events (Server.handlerFunc s tid r)
    = (pre ++ Server.events (Server.router s (routed_request s tid r))
           ++ post)%list
    /\ (forall lvl entry msg,
          In (Server.Log lvl entry msg) (pre ++ post)%list ->
          Server.tid_of entry = Some tid
          /\ (forall k, k <> "tid" -> k <> "method" -> k <> "uri" ->
                        Logrus.Data entry !! k
                        = Logrus.Data (Server.log s) !! k))
    /\ (exists entry,
          List.hd_error (Server.events (Server.handlerFunc s tid r))
          = Some (Server.Log Logrus.InfoLevel entry "request started")
          /\ List.hd_error pre
             = Some (Server.Log Logrus.InfoLevel entry "request started")
          /\ Logrus.Data entry !! "method" = Some (Server.Method r)
          /\ Logrus.Data entry !! "uri"
             = Some (Helpers.SanitizeURL (Server.URL r)))
    /\ (exists entry,
          List.hd_error post
          = Some (Server.Log Logrus.InfoLevel entry "request ended")).
Proof.
  destruct (started_fields (request_logger s tid) r)
    as (e0 & Hst & Hm & Hu & Hother).
  exists [Server.started (request_logger s tid) r;
          Server.ServeHTTP (routed_request s tid r)],
         (Server.events
            (Server.deferred (request_logger s tid) tid
               (Server.panicking (Server.router s (routed_request s tid r))))).
  split; [rewrite handlerFunc_events; cbn [List.app]; reflexivity|].
  split; [|split].
  - assert (Hbase : Server.tid_of (request_logger s tid) = Some tid
                    /\ (forall k, k <> "tid" -> k <> "method" -> k <> "uri" ->
                          Logrus.Data (request_logger s tid) !! k
                          = Logrus.Data (Server.log s) !! k)).
    { split; [apply request_logger_tid|].
      intros k Hk _ _. now apply request_logger_other. }
    intros lvl entry msg [Hin|[Hin|Hin]].
    + rewrite Hst in Hin. injection Hin as _ <- _. split.
      * unfold Server.tid_of. rewrite Hother by discriminate.
        apply request_logger_tid.
      * intros k Hk Hkm Hku. rewrite Hother by assumption.
        now apply request_logger_other.
    + discriminate Hin.
    + unfold Server.deferred in Hin. cbn [Server.events] in Hin.
      destruct Hin as [[= _ <- _]|Hin]; [exact Hbase|].
      destruct (Server.panicking _); [|destruct Hin].
      destruct Hin as [[= _ <- _]|[Hd|[Hd|[]]]];
        [exact Hbase | discriminate Hd | discriminate Hd].
  - exists e0. rewrite handlerFunc_events. cbn [List.hd_error].
    rewrite Hst. auto.
  - eexists. reflexivity.
Qed.

(** X19: the request-started record does not depend on the values of
    the access token when the first of them is non-empty: two requests
    with the same method, each with a URL whose first access_token value
    (the one [Values.Get] returns) is non-empty, whose URLs differ only
    in the values of that parameter, are logged alike. *)
Theorem X19_started_log_hides_token `{NetURL.Codec}
    (cLog : Logrus.Entry) (r1 r2 : Server.Request) (u1 u2 : NetURL.URL) :
  Server.Method r1 = Server.Method r2 ->
  Server.URL r1 = Some u1 ->
  Server.URL r2 = Some u2 ->
  NetURL.Get (NetURL.Query u1) "access_token" <> "" ->
  NetURL.Get (NetURL.Query u2) "access_token" <> "" ->
  NetURL.set_RawQuery u1 "" = NetURL.set_RawQuery u2 "" ->
  delete "access_token" (NetURL.Query u1)
    = delete "access_token" (NetURL.Query u2) ->
  Server.started cLog r1 = Server.started cLog r2.
Proof.
  intros Hm Hu1 Hu2 H1 H2 Hrest Hoff. unfold Server.started.
  rewrite Hm, Hu1, Hu2.
  now rewrite (SanitizeURL_token_independent u1 u2 H1 H2 Hrest Hoff).
Qed.

(** X20: when the router panics after its calls have fixed the status
    of the response, the status of the response stays that one, whatever
    it is, and not the 500 of the wrapper: the wrapper's two calls come
    after all the router's and its [WriteHeader] is not the first. *)
Theorem X20_panic_after_write_keeps_status `{NetURL.Codec}
    (s : Server.Server) (tid : string) (r : Server.Request)
    (p : Server.Panic) (c : Z) :
  Server.panicking (Server.router s (routed_request s tid r)) = Some p ->
  Server.final_status
    (Server.events (Server.router s (routed_request s tid r))) = Some c ->
  Server.final_status (Server.events (Server.handlerFunc s tid r)) = Some c
  /\ List.filter Server.is_write (Server.events (Server.handlerFunc s tid r))
     = (List.filter Server.is_write
          (Server.events (Server.router s (routed_request s tid r)))
        ++ [Server.WriteHeader 500%Z; Server.Write tid])%list.
Proof.
  intros Hp Hc. split; [|exact (handlerFunc_writes s tid r p Hp)].
  rewrite final_status_writes, (handlerFunc_writes s tid r p Hp).
  apply final_status_fixed. now rewrite <- final_status_writes.
Qed.

(** ** SanitizeURL, further *)

(** X22: SanitizeURL changes nothing but the access_token entry of the
    query: with a non-empty token the printed URL has the same components
    and the same values for every other parameter, and the single value
    REDACTED for access_token, whatever values it had; with no token or an
    empty one the URL is printed as it is, its query text not re-encoded. *)
Theorem X22_SanitizeURL_only_token_changes `{NetURL.Codec} (u : NetURL.URL) :
  (NetURL.Get (NetURL.Query u) "access_token" <> "" ->
   exists v : gmap string (list string),
     Helpers.SanitizeURL (Some u)
     = NetURL.String_ (NetURL.set_RawQuery u (NetURL.Encode v))
     /\ v !! "access_token" = Some ["REDACTED"]
     /\ (forall k, k <> "access_token" -> v !! k = NetURL.Query u !! k))
  /\ (NetURL.Get (NetURL.Query u) "access_token" = "" ->
      Helpers.SanitizeURL (Some u) = NetURL.String_ u).
Proof.
  split.
  - intros Hget. eexists. split; [now apply SanitizeURL_redacts|].
    unfold NetURL.Set_. split; [apply lookup_insert_eq|].
    intros k Hk. apply lookup_insert_ne. congruence.
  - intros Hget. unfold Helpers.SanitizeURL, Helpers.SanitizeURL_run.
    cbn [Helpers.copy Helpers.pointee]. rewrite Hget. reflexivity.
Qed.

(** ** User and token drivers *)

(** X23: getUserDriver returns a driver exactly under the name
    "memuserdriver", built from the configured users, and otherwise nil
    with "configured user driver does not exist"; getTokenDriver returns a
    driver exactly under the name "jwttokendriver" when os.Hostname
    succeeds, and under any other name nil with "configured token driver
    does not exist". *)
Theorem X23_user_and_token_driver (hostname : string + Go.error)
    (s : MainWiring.Settings) :
  (is_Some (fst (MainWiring.getUserDriver s))
   <-> MainWiring.GetUserDriver s = "memuserdriver")
  /\ (MainWiring.GetUserDriver s = "memuserdriver" ->
      MainWiring.getUserDriver s
      = (Some (MainWiring.memuserdriver_New (MainWiring.GetMemUserDriverUsers s)),
         None))
  /\ (MainWiring.GetUserDriver s <> "memuserdriver" ->
      MainWiring.getUserDriver s
      = (None, Some (Go.errors_New "configured user driver does not exist")))
  /\ (is_Some (fst (MainWiring.getTokenDriver hostname s))
      <-> MainWiring.GetTokenDriver s = "jwttokendriver"
          /\ exists h, hostname = inl h)
  /\ (MainWiring.GetTokenDriver s <> "jwttokendriver" ->
      MainWiring.getTokenDriver hostname s
      = (None, Some (Go.errors_New "configured token driver does not exist"))).
Proof.
  unfold MainWiring.getUserDriver, MainWiring.getTokenDriver, Main.getLogger.
  destruct (String.eqb_spec (MainWiring.GetUserDriver s) "memuserdriver") as [Hu|Hu];
  destruct (String.eqb_spec (MainWiring.GetTokenDriver s) "jwttokendriver") as [Ht|Ht];
  destruct hostname as [h|e]; cbn.
  all: repeat split; intros; try congruence; eauto.
  all: try match goal with
           | Hs : is_Some None |- _ => destruct Hs as [x Hx]; discriminate Hx
           | Hs : _ /\ (exists h, inr _ = inl h) |- _ =>
               destruct Hs as [_ [h' Hh]]; discriminate Hh
           | Hs : _ /\ _ |- _ => destruct Hs as [Hn _]; contradiction
           end.
Qed.

(** ** The further properties on concrete inputs *)

Lemma X1_enabled_iff_member_witness :
  ServerRouting.isServiceEnabled "data" ["authentication"; "data"] = true
  /\ MainWiring.find "data" ["authentication"; "data"] = true.
Proof.
  destruct (X1_enabled_iff_member "data" ["authentication"; "data"])
    as (Hs & Hf & _).
  split; [apply Hs | apply Hf]; right; left; reflexivity.
Defined.

Lemma X2_getServices_fixed_order_witness :
  ServerRouting.getServices (example_service_packages [])
    (example_directives ["data"; "nfs"; "authentication"; "data"] [])
  = ([example_service "authentication"; example_service "data"], None).
Proof.
  apply (X2_getServices_fixed_order (example_service_packages [])
           (example_directives ["data"; "nfs"; "authentication"; "data"] [])).
  intros e [<-|[<-|[<-|[<-|[<-|[]]]]]] _; cbn; eauto.
Defined.

Lemma X3_getServices_first_failure_witness :
  exists pre e post,
    service_table (example_service_packages ["data"]) = (pre ++ e :: post)%list
    /\ fst e = "data"
    /\ List.length pre = 2.
Proof.
  destruct (X3_getServices_first_failure (example_service_packages ["data"])
              (example_directives ["data"; "ocwebdav"; "authentication"] [])
              [example_service "authentication"]
              (Go.errors_New "data: cannot start") eq_refl)
    as (pre & e & post & Ht & _ & Herr & _ & _).
  exists pre, e, post. split; [exact Ht|].
  destruct pre as [|e1 [|e2 [|e3 [|e4 [|e5 pre]]]]]; cbn in Ht;
    injection Ht as <-; intros; subst; cbn in Herr;
    try discriminate Herr; try (split; reflexivity).
  destruct pre; discriminate.
Defined.


Lemma X6_getConfigurationSource_witness :
  MainWiring.getConfigurationSource example_web_packages "clawiod.conf"
  = (Some "configuration in clawiod.conf", None)
  /\ MainWiring.getConfigurationSource example_web_packages "etcd:node1"
     = (None, Some (Go.errors_New "configuration protocol does not exist"))
  /\ MainWiring.getConfigurationSource example_web_packages "file:C:\conf"
     = MainWiring.getConfigurationSource example_web_packages "file:C".
Proof.
  destruct (X6_getConfigurationSource example_web_packages) as (_ & Hplain & Hcolon).
  split; [|split].
  - exact (Hplain "clawiod.conf" eq_refl).
  - exact (proj1 (Hcolon "etcd" "node1" eq_refl eq_refl)).
  - exact (proj2 (Hcolon "file" "C" eq_refl eq_refl) "\conf").
Defined.

Lemma X7_hostname_failure_propagates_witness :
  MainWiring.getOCWebService example_web_packages
    (inr (Go.errors_New "hostname: not available"))
    (example_settings (example_config "fsdatadriver" "fsmdatadriver")
       "owncloud" "memuserdriver" "jwttokendriver")
  = (None, Some (Go.errors_New "hostname: not available")).
Proof.
  destruct (X7_hostname_failure_propagates example_web_packages
              (example_settings (example_config "fsdatadriver" "fsmdatadriver")
                 "owncloud" "memuserdriver" "jwttokendriver")
              (Go.errors_New "hostname: not available"))
    as (_ & _ & _ & _ & _ & _ & _ & Hoc & _).
  apply Hoc. left. reflexivity.
Defined.

Lemma X8_ocfs_data_driver_needs_metadata_driver_witness :
  Main.getDataDriver example_packages (inl "node1")
    (example_config "ocfsdatadriver" "s3mdatadriver")
  = (None, Some (Go.errors_New "configured metadata driver does not exist")).
Proof.
  destruct (X8_ocfs_data_driver_needs_metadata_driver example_packages
              (inl "node1") (example_config "ocfsdatadriver" "s3mdatadriver")
              {| Main.out := Main.Stdout; Main.host := "node1:1502" |}
              eq_refl eq_refl) as (_ & Hunknown & _).
  apply Hunknown; cbn; discriminate.
Defined.

Lemma X9_getHTTPLogger_follows_app_logger_witness :
  fst (MainWiring.getHTTPLogger
         (example_settings (example_config "fsdatadriver" "fsmdatadriver")
            "data" "memuserdriver" "jwttokendriver"))
  = Main.Stdout.
Proof.
  destruct (X9_getHTTPLogger_follows_app_logger
              (example_settings (example_config "fsdatadriver" "fsmdatadriver")
                 "data" "memuserdriver" "jwttokendriver"))
    as (_ & Hone & _).
  exact (Hone eq_refl).
Defined.

Lemma X10_getWebServices_map_witness :
  exists m : gmap string (option string),
    MainWiring.getWebServices example_web_packages (inl "node1")
      (example_settings (example_config "fsdatadriver" "s3mdatadriver")
         "metadata,webdav,data" "ldapuserdriver" "jwttokendriver")
    = (Some m, None)
    /\ m !! "data" = Some (Some "data (local)")
    /\ m !! "metadata" = Some (Some "metadata at http://meta:1502")
    /\ m !! "owncloud" = None
    /\ m !! "webdav" = None.
Proof.
  destruct (X10_getWebServices_map example_web_packages (inl "node1")
              (example_settings (example_config "fsdatadriver" "s3mdatadriver")
                 "metadata,webdav,data" "ldapuserdriver" "jwttokendriver"))
    as (m & Hm & Hin & Hout).
  { intros e [<-|[<-|[<-|[<-|[]]]]]; vm_compute; intros Hen;
      try reflexivity; discriminate Hen. }
  exists m. split; [exact Hm|].
  split; [|split; [|split]].
  - exact (Hin "data" _ (or_intror (or_introl eq_refl))).
  - exact (Hin "metadata" _ (or_intror (or_intror (or_introl eq_refl)))).
  - exact (Hin "owncloud" _
             (or_intror (or_intror (or_intror (or_introl eq_refl))))).
  - apply Hout. cbn. intuition discriminate.
Defined.

Lemma X11_getWebServices_first_failure_witness :
  exists pre e post,
    web_service_table example_web_packages (inl "node1")
      (example_settings (example_config "s3datadriver" "fsmdatadriver")
         "authentication,data,owncloud" "memuserdriver" "jwttokendriver")
    = (pre ++ e :: post)%list
    /\ snd (snd e)
       = Some (Go.errors_New "configured datadriver does not exist").
Proof.
  destruct (X11_getWebServices_first_failure example_web_packages (inl "node1")
              (example_settings (example_config "s3datadriver" "fsmdatadriver")
                 "authentication,data,owncloud" "memuserdriver" "jwttokendriver"))
    as (_ & Hfail).
  destruct (Hfail None (Go.errors_New "configured datadriver does not exist")
              eq_refl) as (_ & pre & e & post & Ht & _ & Herr & _).
  exists pre, e, post. split; [exact Ht | exact Herr].
Defined.

Lemma X12_local_web_services_need_known_drivers_witness :
  MainWiring.GetUserDriver
    (example_settings (example_config "fsdatadriver" "fsmdatadriver")
       "owncloud" "memuserdriver" "jwttokendriver")
  = "memuserdriver".
Proof.
  destruct (X12_local_web_services_need_known_drivers example_web_packages
              (inl "node1")
              (example_settings (example_config "fsdatadriver" "fsmdatadriver")
                 "owncloud" "memuserdriver" "jwttokendriver"))
    as (_ & _ & _ & Hoc).
  destruct (Hoc eq_refl eq_refl) as (_ & _ & _ & _ & Huser). exact Huser.
Defined.

Lemma X13_oc_web_service_error_order_witness :
  MainWiring.getOCWebService example_web_packages (inl "node1")
    (example_settings (example_config "s3datadriver" "fsmdatadriver")
       "owncloud" "ldapuserdriver" "jwttokendriver")
  = (None, Some (Go.errors_New "configured datadriver does not exist")).
Proof.
  destruct (X13_oc_web_service_error_order example_web_packages (inl "node1")
              (example_settings (example_config "s3datadriver" "fsmdatadriver")
                 "owncloud" "ldapuserdriver" "jwttokendriver")
              {| Main.out := Main.Stdout; Main.host := "node1:1502" |}
              eq_refl eq_refl) as [Hdata _].
  exact (Hdata _ eq_refl).
Defined.



Lemma X17_token_failure_keeps_homes_witness :
  Auth.response_status
    (fst (@Auth.token unit NetURL.plain_codec
            (example_pats_no_token example_storages) example_token_request tt))
  = Some 500%Z
  /\ home_calls
       (fst (@Auth.token unit NetURL.plain_codec
               (example_pats_no_token example_storages) example_token_request tt))
     = ["local"; "eos"].
Proof.
  destruct (@X17_token_failure_keeps_homes unit NetURL.plain_codec
              (example_pats_no_token example_storages) example_token_request
              tt tt tt tt alice _ (inr (Go.errors_New "no signing key"))
              (Go.errors_New "no signing key")
              eq_refl eq_refl eq_refl (or_introl eq_refl))
    as (_ & Hstatus & Hhomes).
  split; [exact Hstatus | exact Hhomes].
Defined.

Lemma X18_wrapper_logs_carry_tid_witness :
  exists pre post : list Server.Event,
    Server.events
      (@Server.handlerFunc NetURL.plain_codec example_server "tid-1"
         (example_request "DELETE"))
    = (pre ++ Server.events
                (Server.router example_server
                   (routed_request example_server "tid-1"
                      (example_request "DELETE")))
           ++ post)%list
    /\ List.Forall
         (fun e => match e with
                   | Server.Log _ entry _ =>
                       Server.tid_of entry = Some "tid-1"
                       /\ Logrus.Data entry !! "module" = Some "server"
                   | _ => True
                   end)
         (pre ++ post)%list.
Proof.
  destruct (@X18_wrapper_logs_carry_tid NetURL.plain_codec example_server
              "tid-1" (example_request "DELETE"))
    as (pre & post & Heq & Hlogs & _).
  exists pre, post. split; [exact Heq|].
  apply List.Forall_forall. intros [lvl entry msg| | |] Hin; try exact I.
  destruct (Hlogs lvl entry msg Hin) as [Htid Hother].
  split; [exact Htid|].
  rewrite Hother by discriminate. reflexivity.
Defined.

Lemma X19_started_log_hides_token_witness :
  @Server.started NetURL.plain_codec (request_logger example_server "tid-1")
    {| Server.Method := "GET";
       Server.URL := Some (example_url "path=a&access_token=s3cr3t");
       Server.ctx_log := None |}
  = @Server.started NetURL.plain_codec (request_logger example_server "tid-1")
      {| Server.Method := "GET";
         Server.URL := Some (example_url "path=a&access_token=0ther");
         Server.ctx_log := None |}.
Proof.
  apply (@X19_started_log_hides_token NetURL.plain_codec _ _ _
           (example_url "path=a&access_token=s3cr3t")
           (example_url "path=a&access_token=0ther"));
    vm_compute; try reflexivity; discriminate.
Defined.

Lemma X20_panic_after_write_keeps_status_witness :
  Server.final_status
    (Server.events
       (@Server.handlerFunc NetURL.plain_codec example_late_server "tid-3"
          (example_request "GET")))
  = Some 200%Z.
Proof.
  destruct (@X20_panic_after_write_keeps_status NetURL.plain_codec
              example_late_server "tid-3" (example_request "GET") _ 200%Z
              eq_refl eq_refl)
    as (Hstatus & _).
  exact Hstatus.
Defined.

Lemma X22_SanitizeURL_only_token_changes_witness :
  @Helpers.SanitizeURL NetURL.plain_codec (Some (example_url "b=2&a=1"))
  = "https://sync.example.org/data/upload?b=2&a=1".
Proof.
  destruct (@X22_SanitizeURL_only_token_changes NetURL.plain_codec
              (example_url "b=2&a=1")) as [_ Hnone].
  rewrite Hnone; reflexivity.
Defined.

Lemma X23_user_and_token_driver_witness :
  MainWiring.getUserDriver
    (example_settings (example_config "fsdatadriver" "fsmdatadriver")
       "data" "ldapuserdriver" "jwttokendriver")
  = (None, Some (Go.errors_New "configured user driver does not exist")).
Proof.
  destruct (X23_user_and_token_driver (inl "node1")
              (example_settings (example_config "fsdatadriver" "fsmdatadriver")
                 "data" "ldapuserdriver" "jwttokendriver"))
    as (_ & _ & Hunknown & _).
  apply Hunknown. cbn. discriminate.
Defined.
